(** * STR Pricing Updater: the week-mapping engine and its pricing helpers

    A shallow embedding of [src/utils/holidays.js], [src/utils/weekMapping.js],
    the price helpers of [src/utils/calculations.js] and the week generator
    of the calendar page, followed by the properties the specification
    states about them and by further properties of the calendar, the week
    keys, the mapper, conflict detection and resolution.

    Conventions of the embedding.
    - A JavaScript number that the engine computes with is an integer or
      [NaN] ([number]); the divisions it rounds ([Math.round (a / b)]) are
      exact on integers.  The commission gross-up works on binary64
      floats ([Calculations]), and so does [Number] on the parts of a week
      key.
    - A string holds code units below 256.
    - A [Date] carries its time value in milliseconds, or is the Invalid
      Date.  The local time zone is taken to be UTC, so the local calendar
      fields are the ECMAScript ones ([Day], [YearFromTime], [MakeDay], ...)
      with no offset and no daylight saving.  Time values are not clipped
      to the range of the [Date] type (years beyond about 270000).
    - An exception (the [TypeError] raised by reading a property of [null]
      or [undefined]) is a [Throw] of the error monad [Exc].
    - An object has the shape the repository gives it: a record whose
      optional properties are [option]s.
    - Mapping objects are shared and mutated by [applyResolutions]; there
      they live in a heap, and an array is the list of the locations it
      holds.
    - [Array.prototype.sort] is the stable sort where its comparator is
      consistent.  Where it is not, because a time value is [NaN],
      ECMAScript leaves the order to the implementation; the functions
      that sort take that order from an [Engine], and the properties hold
      for every engine. *)

From Stdlib Require Import QArith Qround.
From Stdlib Require Import ZArith Lia Bool String Ascii DecimalString Floats.
From Stdlib Require Import DecimalPos DecimalZ DecimalFacts.
From Stdlib Require Import Sorting.Sorted Sorting.Permutation.
From stdpp Require Import base list strings.

Open Scope Z_scope.

(* ================================================================== *)
(** * The run-time library: numbers, strings, dates                    *)
(* ================================================================== *)

Module JS.

(** ** Errors *)

Inductive Exc (A : Type) : Type :=
| Ok (a : A)
| Throw (msg : string).
Arguments Ok {A} a.
Arguments Throw {A} msg.

Definition bind {A B} (c : Exc A) (k : A -> Exc B) : Exc B :=
  match c with
  | Ok a => k a
  | Throw e => Throw e
  end.

(** [forEach] with a callback that may throw: the first exception aborts
    the traversal. *)
Fixpoint mapM {A B} (f : A -> Exc B) (l : list A) : Exc (list B) :=
  match l with
  | [] => Ok []
  | x :: xs =>
      bind (f x) (fun y => bind (mapM f xs) (fun ys => Ok (y :: ys)))
  end.

(** ** Numbers *)

Inductive number : Type :=
| Num (z : Z)
| NaN.

Definition isNaN (n : number) : bool :=
  match n with NaN => true | Num _ => false end.

(** [Math.round (a / b)] for integers [a] and [b > 0]: halves go up. *)
Definition round_div (a b : Z) : Z := (2 * a + b) / (2 * b).

(** ** Strings *)

Definition string_of_Z (z : Z) : string := NilZero.string_of_int (Z.to_int z).

(** [String(n)] of a number. *)
Definition string_of_number (n : number) : string :=
  match n with
  | Num z => string_of_Z z
  | NaN => "NaN"
  end.

(** [s.padStart(2, '0')]. *)
Definition padStart2 (s : string) : string :=
  match s with
  | EmptyString => "00"
  | String c EmptyString => String "0" (String c EmptyString)
  | _ => s
  end.

(** [s.split(sep)] for a one-character separator. *)
Fixpoint split_on (sep : ascii) (s : string) : list string :=
  match s with
  | EmptyString => [EmptyString]
  | String c rest =>
      if Ascii.eqb c sep then EmptyString :: split_on sep rest
      else match split_on sep rest with
           | [] => [String c EmptyString]
           | w :: ws => String c w :: ws
           end
  end.

Definition digit_of (c : ascii) : option Z :=
  let n := Z.of_N (N_of_ascii c) in
  if (48 <=? n) && (n <=? 57) then Some (n - 48) else None.

Definition hex_digit_of (c : ascii) : option Z :=
  let n := Z.of_N (N_of_ascii c) in
  if (48 <=? n) && (n <=? 57) then Some (n - 48)
  else if (97 <=? n) && (n <=? 102) then Some (n - 87)
  else if (65 <=? n) && (n <=? 70) then Some (n - 55)
  else None.

(** The longest prefix of digits in the given radix, read as a number;
    [None] when there is no digit at all. *)
Fixpoint digits_prefix (dig : ascii -> option Z) (radix : Z)
         (acc : option Z) (s : string) : option Z :=
  match s with
  | EmptyString => acc
  | String c rest =>
      match dig c with
      | Some d =>
          digits_prefix dig radix
            (Some (radix * match acc with Some a => a | None => 0 end + d)) rest
      | None => acc
      end
  end.

Fixpoint all_digits (s : string) : bool :=
  match s with
  | EmptyString => true
  | String c rest =>
      match digit_of c with Some _ => all_digits rest | None => false end
  end.

(** White space and line terminators among the code units below 256: TAB,
    LF, VT, FF, CR, SP and NBSP. *)
Definition is_space (c : ascii) : bool :=
  let n := N_of_ascii c in
  (N.eqb n 32 || ((N.leb 9 n) && (N.leb n 13)) || N.eqb n 160)%bool.

Fixpoint trim_start (s : string) : string :=
  match s with
  | String c rest => if is_space c then trim_start rest else s
  | EmptyString => EmptyString
  end.

Fixpoint trim_end (s : string) : string :=
  match s with
  | EmptyString => EmptyString
  | String c rest =>
      match trim_end rest with
      | EmptyString => if is_space c then EmptyString else String c EmptyString
      | r => String c r
      end
  end.

(** [parseInt(s)] with no radix argument: leading white space, an optional
    sign, an optional [0x] prefix, then the longest run of digits. *)
Definition parseInt (s : string) : number :=
  let s1 := trim_start s in
  let '(sign, s2) :=
    match s1 with
    | String "-" rest => (-1, rest)
    | String "+" rest => (1, rest)
    | _ => (1, s1)
    end in
  let r :=
    match s2 with
    | String "0" (String "x" rest) | String "0" (String "X" rest) =>
        digits_prefix hex_digit_of 16 None rest
    | _ => digits_prefix digit_of 10 None s2
    end in
  match r with
  | Some z => Num (sign * z)
  | None => NaN
  end.

(** ** [Number(s)]: a string as a binary64 number

    StringToNumber of ECMAScript.  White space is trimmed at both ends; the
    empty string is 0; a decimal literal may carry a sign, a fraction and
    an exponent; [Infinity] is a literal; a binary, octal or hexadecimal
    integer literal carries no sign; anything else is [NaN].  The value of
    the literal is rounded to the nearest binary64 number, ties to even
    (ECMAScript lets an implementation round a literal of more than 20
    significant digits from its first 20; the literal is rounded as it
    stands here, as the engines do). *)

(** The binary64 number nearest to [(-1)^negative * m * 10^e10], for a
    natural number [m]. *)
Definition round64 (negative : bool) (m e10 : Z) : spec_float :=
  if m =? 0 then S754_zero negative
  else if 0 <=? e10 then
    binary_normalize prec emax (cond_Zopp negative (m * 10 ^ e10)) 0 negative
  else
    let '(q, e, l) := SFdiv_core_binary prec emax m 0 (10 ^ (- e10)) 0 in
    binary_round_aux prec emax negative q e l.

(** The value of a non-empty run of digits; [None] for the empty string
    and for a string with another character. *)
Fixpoint digits_run (dig : ascii -> option Z) (radix acc : Z) (s : string)
  : option Z :=
  match s with
  | EmptyString => Some acc
  | String c rest =>
      match dig c with
      | Some d => digits_run dig radix (radix * acc + d) rest
      | None => None
      end
  end.

Definition integer_literal (dig : ascii -> option Z) (radix : Z) (s : string)
  : option Z :=
  match s with
  | EmptyString => None
  | _ => digits_run dig radix 0 s
  end.

Definition radix_digit (radix : Z) (c : ascii) : option Z :=
  match hex_digit_of c with
  | Some d => if d <? radix then Some d else None
  | None => None
  end.

(** The longest prefix of decimal digits, and what follows it. *)
Fixpoint span_digits (s : string) : string * string :=
  match s with
  | EmptyString => (EmptyString, EmptyString)
  | String c rest =>
      match digit_of c with
      | Some _ => let '(ds, r) := span_digits rest in (String c ds, r)
      | None => (EmptyString, s)
      end
  end.

(** ExponentPart, or nothing: the exponent it denotes. *)
Definition exponent_part (s : string) : option Z :=
  match s with
  | EmptyString => Some 0
  | String c rest =>
      if Ascii.eqb c "e" || Ascii.eqb c "E" then
        match rest with
        | String "-" ds => option_map Z.opp (integer_literal digit_of 10 ds)
        | String "+" ds => integer_literal digit_of 10 ds
        | _ => integer_literal digit_of 10 rest
        end
      else None
  end.

(** StrUnsignedDecimalLiteral: [Infinity], or digits with an optional
    fraction and exponent, at least one digit before the exponent. *)
Definition unsigned_decimal (negative : bool) (s : string) : spec_float :=
  if String.eqb s "Infinity" then S754_infinity negative
  else
    let '(ip, r1) := span_digits s in
    let '(fp, r2) :=
      match r1 with
      | String "." r => span_digits r
      | _ => (EmptyString, r1)
      end in
    match ip +:+ fp with
    | EmptyString => S754_nan
    | ds =>
        match exponent_part r2 with
        | Some e =>
            round64 negative
                    (match digits_prefix digit_of 10 None ds with
                     | Some z => z
                     | None => 0
                     end)
                    (e - Z.of_nat (String.length fp))
        | None => S754_nan
        end
    end.

Definition radix_literal (radix : Z) (s : string) : spec_float :=
  match integer_literal (radix_digit radix) radix s with
  | Some z => binary_normalize prec emax z 0 false
  | None => S754_nan
  end.

Definition Number_of_string (s : string) : spec_float :=
  let t := trim_end (trim_start s) in
  match t with
  | EmptyString => S754_zero false
  | String "-" rest => unsigned_decimal true rest
  | String "+" rest => unsigned_decimal false rest
  | String "0" (String "x" rest) | String "0" (String "X" rest) =>
      radix_literal 16 rest
  | String "0" (String "o" rest) | String "0" (String "O" rest) =>
      radix_literal 8 rest
  | String "0" (String "b" rest) | String "0" (String "B" rest) =>
      radix_literal 2 rest
  | _ => unsigned_decimal false t
  end.

(** ToIntegerOrInfinity of a finite number: the fraction is dropped.  The
    infinities and [NaN] make a [Date] invalid alike, and count as [NaN]. *)
Definition integer_of (x : spec_float) : number :=
  match x with
  | S754_zero _ => Num 0
  | S754_finite s m e => Num (cond_Zopp s (Z.shiftl (Zpos m) e))
  | _ => NaN
  end.

Fixpoint string_filter (keep : ascii -> bool) (s : string) : string :=
  match s with
  | EmptyString => EmptyString
  | String c rest =>
      if keep c then String c (string_filter keep rest)
      else string_filter keep rest
  end.

(** [xs.join(sep)]; the elements are already strings. *)
Fixpoint join (sep : string) (xs : list string) : string :=
  match xs with
  | [] => EmptyString
  | [x] => x
  | x :: rest => x +:+ sep +:+ join sep rest
  end.

(** [n.toLocaleString()] of an integer in the en-US locale: groups of
    three digits separated by commas. *)
Fixpoint group3 (fuel : nat) (n : Z) : string :=
  match fuel with
  | O => string_of_Z n
  | S f =>
      if n <? 1000 then string_of_Z n
      else
        let r := string_of_Z (n mod 1000) in
        let pad := match String.length r with
                   | 1%nat => "00" | 2%nat => "0" | _ => EmptyString
                   end in
        group3 f (n / 1000) +:+ "," +:+ pad +:+ r
  end.

Definition toLocaleString (n : Z) : string :=
  if n <? 0 then "-" +:+ group3 (String.length (string_of_Z (- n))) (- n)
  else group3 (String.length (string_of_Z n)) n.

(** ** Dates (ECMAScript time values, local time = UTC) *)

Definition msPerDay : Z := 86400000.

Inductive Date : Type :=
| ValidDate (t : Z)
| InvalidDate.

Definition Day (t : Z) : Z := t / msPerDay.
Definition TimeWithinDay (t : Z) : Z := t mod msPerDay.

Definition DaysInYear (y : Z) : Z :=
  if negb (y mod 4 =? 0) then 365
  else if negb (y mod 100 =? 0) then 366
  else if negb (y mod 400 =? 0) then 365
  else 366.

Definition DayFromYear (y : Z) : Z :=
  365 * (y - 1970) + (y - 1969) / 4 - (y - 1901) / 100 + (y - 1601) / 400.

(** The largest year whose first day is not after day [d]: a guess from
    the mean year length, corrected by at most one. *)
Definition YearFromDay (d : Z) : Z :=
  let g := 1970 + (400 * d) / 146097 in
  if DayFromYear (g + 1) <=? d then g + 1
  else if d <? DayFromYear g then g - 1
  else g.

Definition InLeapYear (y : Z) : Z := if DaysInYear y =? 366 then 1 else 0.

(** Days of the year before month [m] (0 = January). *)
Definition DaysBeforeMonth (leap m : Z) : Z :=
  if m <=? 0 then 0
  else if m =? 1 then 31
  else if m =? 2 then 59 + leap
  else if m =? 3 then 90 + leap
  else if m =? 4 then 120 + leap
  else if m =? 5 then 151 + leap
  else if m =? 6 then 181 + leap
  else if m =? 7 then 212 + leap
  else if m =? 8 then 243 + leap
  else if m =? 9 then 273 + leap
  else if m =? 10 then 304 + leap
  else 334 + leap.

Definition DayWithinYear (d : Z) : Z := d - DayFromYear (YearFromDay d).

Definition MonthFromDay (d : Z) : Z :=
  let leap := InLeapYear (YearFromDay d) in
  let k := DayWithinYear d in
  if k <? 31 then 0
  else if k <? 59 + leap then 1
  else if k <? 90 + leap then 2
  else if k <? 120 + leap then 3
  else if k <? 151 + leap then 4
  else if k <? 181 + leap then 5
  else if k <? 212 + leap then 6
  else if k <? 243 + leap then 7
  else if k <? 273 + leap then 8
  else if k <? 304 + leap then 9
  else if k <? 334 + leap then 10
  else 11.

Definition DateFromDay (d : Z) : Z :=
  DayWithinYear d
  - DaysBeforeMonth (InLeapYear (YearFromDay d)) (MonthFromDay d) + 1.

Definition WeekDay (d : Z) : Z := (d + 4) mod 7.

Definition MakeDay (year month date : Z) : Z :=
  let ym := year + month / 12 in
  let mn := month mod 12 in
  DayFromYear ym + DaysBeforeMonth (InLeapYear ym) mn + date - 1.

(** A two-digit year given to the [Date] constructor counts from 1900. *)
Definition full_year (y : Z) : Z :=
  if (0 <=? y) && (y <=? 99) then 1900 + y else y.

(** [new Date(year, month, day)]; an [undefined] or [NaN] component gives
    the Invalid Date. *)
Definition new_Date (year month day : number) : Date :=
  match year, month, day with
  | Num y, Num m, Num d => ValidDate (MakeDay (full_year y) m d * msPerDay)
  | _, _, _ => InvalidDate
  end.

Definition getTime (d : Date) : number :=
  match d with ValidDate t => Num t | InvalidDate => NaN end.

Definition getFullYear (d : Date) : number :=
  match d with ValidDate t => Num (YearFromDay (Day t)) | InvalidDate => NaN end.

Definition getMonth (d : Date) : number :=
  match d with ValidDate t => Num (MonthFromDay (Day t)) | InvalidDate => NaN end.

Definition getDate (d : Date) : number :=
  match d with ValidDate t => Num (DateFromDay (Day t)) | InvalidDate => NaN end.

Definition getDay (d : Date) : number :=
  match d with ValidDate t => Num (WeekDay (Day t)) | InvalidDate => NaN end.

(** [d.setDate(d.getDate() + n)]: the day of the month moves by [n], the
    time within the day stays. *)
Definition addDays (d : Date) (n : number) : Date :=
  match d, n with
  | ValidDate t, Num k =>
      let dy := Day t in
      ValidDate (MakeDay (YearFromDay dy) (MonthFromDay dy) (DateFromDay dy + k)
            * msPerDay + TimeWithinDay t)
  | _, _ => InvalidDate
  end.

(** [d.setHours(0, 0, 0, 0)]. *)
Definition setHours0 (d : Date) : Date :=
  match d with
  | ValidDate t => ValidDate (Day t * msPerDay)
  | InvalidDate => InvalidDate
  end.

(** [new Date(t + ms)] from a time value. *)
Definition Date_of_number (n : number) : Date :=
  match n with Num t => ValidDate t | NaN => InvalidDate end.

Definition month_short (m : Z) : string :=
  if m =? 0 then "Jan" else if m =? 1 then "Feb" else if m =? 2 then "Mar"
  else if m =? 3 then "Apr" else if m =? 4 then "May" else if m =? 5 then "Jun"
  else if m =? 6 then "Jul" else if m =? 7 then "Aug" else if m =? 8 then "Sep"
  else if m =? 9 then "Oct" else if m =? 10 then "Nov" else "Dec".

(** [d.toLocaleDateString('en-US', { month: 'short', day: 'numeric' })]. *)
Definition toLocaleDateString_short (d : Date) : string :=
  match d with
  | ValidDate t =>
      month_short (MonthFromDay (Day t)) +:+ " " +:+ string_of_Z (DateFromDay (Day t))
  | InvalidDate => "Invalid Date"
  end.

(** ** Values held by price fields

    A price is opaque to the mapper: a currency string, a number, or
    nothing at all.  Numeric prices are whole dollars. *)

Inductive value : Type :=
| Undefined
| Null
| Str (s : string)
| Int (z : Z).

#[export] Instance value_eq_dec : EqDecision value.
Proof. solve_decision. Defined.

(** Truthiness, as tested by [!x] and [x || y]. *)
Definition truthy (v : value) : bool :=
  match v with
  | Undefined | Null => false
  | Str s => negb (String.eqb s EmptyString)
  | Int z => negb (z =? 0)
  end.

(** [String(v)], also what a template literal prints. *)
Definition String_of (v : value) : string :=
  match v with
  | Undefined => "undefined"
  | Null => "null"
  | Str s => s
  | Int z => string_of_Z z
  end.

(** A property that may be absent reads as [undefined]. *)
Definition read (o : option value) : value :=
  match o with Some v => v | None => Undefined end.

(** A string property that may be absent, printed by a template literal. *)
Definition show (o : option string) : string :=
  match o with Some s => s | None => "undefined" end.

(** The same property as an element of [Array.prototype.join]. *)
Definition join_item (o : option string) : string :=
  match o with Some s => s | None => EmptyString end.

End JS.

Import JS.

Declare Scope exc_scope.
Delimit Scope exc_scope with exc.
Notation "'let!' x ':=' c 'in' k" := (JS.bind c (fun x => k))
  (at level 10, x name, c at level 100, k at level 200) : exc_scope.
Open Scope exc_scope.

(* ================================================================== *)
(** * src/utils/calculations.js                                        *)
(* ================================================================== *)

Module Calculations.

Definition not_dollar_comma (c : ascii) : bool :=
  negb (Ascii.eqb c "$" || Ascii.eqb c ",").

(** [parsePrice]: strips [$] and [,], parses an integer, 0 for anything
    that does not parse. *)
Definition parsePrice (priceStr : value) : number :=
  if negb (truthy priceStr) then Num 0
  else
    match parseInt (string_filter not_dollar_comma (String_of priceStr)) with
    | Num z => if z =? 0 then Num 0 else Num z
    | NaN => Num 0
    end.

(** [formatPrice]: a dollar sign and the number in the en-US locale. *)
Definition formatPrice (num : number) : string :=
  "$" +:+ match num with
          | Num z => toLocaleString z
          | NaN => "NaN"
          end.

(** The binary64 number of an integer; a zero has the given sign. *)
Definition float_of_Z (negative_zero : bool) (n : Z) : float :=
  SF2Prim (binary_normalize prec emax n 0 negative_zero).

(** [Math.ceil]: the least integral number that is not below [x].  [NaN],
    the infinities and the zeros are returned as they are; a result of
    zero keeps the sign of [x].  The integer is the opposite of the floor
    of [-x], and [x] is its mantissa times a power of two. *)
Definition Math_ceil (x : float) : float :=
  match Prim2SF x with
  | S754_finite s m e =>
      float_of_Z s (- Z.shiftl (cond_Zopp (negb s) (Zpos m)) e)
  | _ => x
  end.

(** [calculateListPrice]: the gross-up, rounded up. *)
Definition calculateListPrice (netPrice commissionRate : float) : float :=
  if PrimFloat.leb 1%float commissionRate then netPrice
  else
    let listPrice := PrimFloat.div netPrice (PrimFloat.sub 1%float commissionRate) in
    Math_ceil listPrice.

End Calculations.

(* ================================================================== *)
(** * src/utils/holidays.js                                            *)
(* ================================================================== *)

Module Holidays.

Record Holiday : Type := {
  h_name : string;
  h_date : option Date;          (* [null] when the weekday scan finds nothing *)
  h_type : string
}.

(** An object used as a dictionary: its own properties in creation order
    (anchor identifiers are never array indices, nor names inherited from
    [Object.prototype]). *)
Definition Dict : Type := list (string * Holiday).

Fixpoint dict_get (k : string) (d : Dict) : option Holiday :=
  match d with
  | [] => None
  | (k', h) :: rest => if String.eqb k k' then Some h else dict_get k rest
  end.

(** [d[k] = h]: an existing property keeps its position. *)
Fixpoint dict_set (k : string) (h : Holiday) (d : Dict) : Dict :=
  match d with
  | [] => [(k, h)]
  | (k', h') :: rest =>
      if String.eqb k k' then (k', h) :: rest else (k', h') :: dict_set k h rest
  end.

Record WeekSpan : Type := {
  span_start : Date;
  span_end : Date
}.

(** The loop of the last-occurrence case: [date] walks down until the
    weekday matches, which it does within seven steps
    ([scan_back_enough_fuel] below). *)
Fixpoint scan_back (fuel : nat) (year month date weekday : Z) : Z :=
  match fuel with
  | O => date
  | S f =>
      match getDay (new_Date (Num year) (Num month) (Num date)) with
      | Num w => if w =? weekday then date
                 else scan_back f year month (date - 1) weekday
      | NaN => scan_back f year month (date - 1) weekday
      end
  end.

(** The loop of the n-th occurrence case over the days still to visit. *)
Fixpoint scan_forward (days : list Z) (year month weekday n count : Z)
  : option Date :=
  match days with
  | [] => None
  | day :: rest =>
      let d := new_Date (Num year) (Num month) (Num day) in
      match getMonth d, getDay d with
      | Num m, Num w =>
          if negb (m =? month) then None
          else if w =? weekday then
            if count + 1 =? n then Some d
            else scan_forward rest year month weekday n (count + 1)
          else scan_forward rest year month weekday n count
      | _, _ => None
      end
  end.

Definition getNthWeekdayOfMonth (year month weekday n : Z) : option Date :=
  if n =? -1 then
    let lastDay := new_Date (Num year) (Num (month + 1)) (Num 0) in
    match getDate lastDay with
    | Num date =>
        Some (new_Date (Num year) (Num month)
                (Num (scan_back 7 year month date weekday)))
    | NaN => Some InvalidDate
    end
  else scan_forward (seqZ 1 31) year month weekday n 0.

Definition getHolidaysForYear (year : Z) : Dict :=
  [ ("newYearsDay",
     {| h_name := "New Year's Day";
        h_date := Some (new_Date (Num year) (Num 0) (Num 1));
        h_type := "fixed" |});
    ("memorialDay",
     {| h_name := "Memorial Day";
        h_date := getNthWeekdayOfMonth year 4 1 (-1);
        h_type := "floating" |});
    ("july4th",
     {| h_name := "July 4th";
        h_date := Some (new_Date (Num year) (Num 6) (Num 4));
        h_type := "fixed" |});
    ("laborDay",
     {| h_name := "Labor Day";
        h_date := getNthWeekdayOfMonth year 8 1 1;
        h_type := "floating" |});
    ("thanksgiving",
     {| h_name := "Thanksgiving";
        h_date := getNthWeekdayOfMonth year 10 4 4;
        h_type := "floating" |});
    ("christmas",
     {| h_name := "Christmas";
        h_date := Some (new_Date (Num year) (Num 11) (Num 25));
        h_type := "fixed" |}) ].

(** [new Date(date)]: a copy; [new Date(null)] is the epoch. *)
Definition Date_copy (date : option Date) : Date :=
  match date with
  | Some d => d
  | None => ValidDate 0
  end.

Definition getWeekContainingDate (date : option Date) (weekStartDay : Z)
  : WeekSpan :=
  let d := Date_copy date in
  match getDay d with
  | Num dayOfWeek =>
      let daysToSubtract := Z.rem (dayOfWeek - weekStartDay + 7) 7 in
      let weekStart := setHours0 (addDays d (Num (- daysToSubtract))) in
      let weekEnd := addDays weekStart (Num 7) in
      {| span_start := weekStart; span_end := weekEnd |}
  | NaN => {| span_start := InvalidDate; span_end := InvalidDate |}
  end.

Definition formatDateShort (date : Date) : string :=
  toLocaleDateString_short date.

Definition formatWeekRange (start end_ : Date) : string :=
  formatDateShort start +:+ " - " +:+ formatDateShort end_.

(** The running state of the nearest-holiday search; [minDistance = None]
    is the initial [Infinity]. *)
Record Nearest : Type := {
  nearestHoliday : option (string * Holiday);
  minDistance : option Z;
  weeksAway : Z
}.

Definition nearest_step (weekStart : Date) (weekStartDay : Z)
           (st : Nearest) (entry : string * Holiday) : Nearest :=
  let '(key, holiday) := entry in
  let holidayWeek := getWeekContainingDate (h_date holiday) weekStartDay in
  match getTime weekStart, getTime (span_start holidayWeek) with
  | Num a, Num b =>
      let diffMs := a - b in
      let diffDays := round_div diffMs (1000 * 60 * 60 * 24) in
      let diffWeeks := round_div diffDays 7 in
      let closer :=
        match minDistance st with
        | None => true
        | Some m => Z.abs diffWeeks <? Z.abs m
        end in
      if closer then
        {| nearestHoliday := Some (key, holiday);
           minDistance := Some diffWeeks;
           weeksAway := diffWeeks |}
      else st
  | _, _ => st
  end.

Record Relationship : Type := {
  rel_holiday : string * Holiday;     (* [{ key, ...holiday }] *)
  rel_relationship : string;
  rel_weeksAway : Z
}.

Definition getWeekHolidayRelationship (weekStart : Date) (holidays : Dict)
           (weekStartDay : Z) : Exc Relationship :=
  let st := fold_left (nearest_step weekStart weekStartDay) holidays
              {| nearestHoliday := None; minDistance := None; weeksAway := 0 |} in
  match nearestHoliday st with
  | None => Throw "TypeError: Cannot read properties of null (reading 'name')"
  | Some (key, holiday) =>
      let w := weeksAway st in
      let relationship :=
        if w =? 0 then h_name holiday +:+ " week"
        else if 0 <? w then
          string_of_Z w +:+ " week" +:+ (if 1 <? w then "s" else "")
            +:+ " after " +:+ h_name holiday
        else
          string_of_Z (Z.abs w) +:+ " week" +:+ (if 1 <? Z.abs w then "s" else "")
            +:+ " before " +:+ h_name holiday in
      Ok {| rel_holiday := (key, holiday);
            rel_relationship := relationship;
            rel_weeksAway := w |}
  end.

Definition weekKey (date : Date) : string :=
  match date with
  | ValidDate t =>
      string_of_Z (YearFromDay (Day t)) +:+ "-"
        +:+ padStart2 (string_of_Z (MonthFromDay (Day t) + 1)) +:+ "-"
        +:+ padStart2 (string_of_Z (DateFromDay (Day t)))
  | InvalidDate => "NaN-NaN-NaN"
  end.

(** [new Date(year, month - 1, day)] on the numbers of the key: a missing
    part is [undefined], hence [NaN]; the subtraction is a binary64 one
    and the constructor drops the fractions. *)
Definition parseWeekKey (key : string) : Date :=
  let parts := map Number_of_string (split_on "-" key) in
  let part i := match parts !! i with Some n => n | None => S754_nan end in
  let year := part 0%nat in
  let month := part 1%nat in
  let day := part 2%nat in
  new_Date (integer_of year)
           (integer_of (SFsub prec emax month (SFone prec emax)))
           (integer_of day).

End Holidays.

(* ================================================================== *)
(** * src/utils/weekMapping.js                                         *)
(* ================================================================== *)

Module WeekMapping.
Import Holidays.

(** ** Data *)

(** A rental week, also the shape of a mapping's [target]. *)
Record Week : Type := {
  start : Date;
  end_ : Date;
  key : string
}.

(** The [{ year, month, day }] fields of a structured date; each may be
    missing. *)
Record YMD : Type := {
  year : option Z;
  month : option Z;
  day : option Z
}.

Definition no_fields : YMD := {| year := None; month := None; day := None |}.

(** [sourceWeek.start] is a serialized string, or an object read through
    [?.year], [?.month], [?.day] (a [Date] object or a missing [start] has
    none of them). *)
Inductive StartField : Type :=
| StartString (s : string)
| StartFields (o : YMD).

Record SourceWeek : Type := {
  sw_start : StartField;
  sw_weekKey : option string;
  sw_key : option string;
  sw_startDate : YMD;
  sw_price : value
}.

(** An anchor of the settings.  A date field holds the time value that
    [new Date(...)] reads from the stored date string, [None] when the
    field is empty or missing. *)
Record Anchor : Type := {
  a_id : string;
  a_name : string;
  a_type : string;
  a_enabled : bool;
  a_sourceDate : option Z;
  a_targetDate : option Z
}.

(** A mapping object.  [None] in [m_source], [m_sourceStart], [m_target]
    is [null]; in the other fields it is an absent property. *)
Record Mapping : Type := {
  m_source : option SourceWeek;
  m_sourceStart : option Date;
  m_sourceRange : option string;
  m_target : option Week;
  m_targetRange : option string;
  m_relationship : option string;
  m_holidayKey : option string;
  m_weeksAway : option Z;
  m_proposedPrice : option value;
  m_error : option string;
  m_isGapFill : bool
}.

Record CollisionEntry : Type := {
  ce_sourceRange : option string;
  ce_price : value;
  ce_relationship : option string
}.

Record ConflictOption : Type := {
  o_label : string;
  o_value : value;
  o_sourceIndex : option Z;
  o_interpolatedPrice : option value
}.

(** What the caller writes back: a copy of the chosen option, with the
    custom price when one was entered. *)
Record Resolution : Type := {
  r_value : value;
  r_customPrice : option value;
  r_sourceIndex : option Z;
  r_interpolatedPrice : option value
}.

Record Neighbor : Type := {
  n_range : option string;
  n_price : value
}.

Inductive ConflictBody : Type :=
| Collision (targetWeek : string) (targetRange : option string)
            (mappings : list CollisionEntry)
| Gap (targetWeek : string) (targetRange : option string)
      (relationship : option string)
      (nearestBefore nearestAfter : option Neighbor)
| StrategyReversal (sourceRange targetRange : option string) (price : value)
                   (sourcePattern targetPattern : string).

Record Conflict : Type := {
  body : ConflictBody;
  description : string;
  options : list ConflictOption;
  resolved : bool;
  resolution : option Resolution
}.

Definition conflict_type (c : Conflict) : string :=
  match body c with
  | Collision _ _ _ => "collision"
  | Gap _ _ _ _ _ => "gap"
  | StrategyReversal _ _ _ _ _ => "strategy_reversal"
  end.

(** ** generateWeeksForYear *)

(** The [while] loop; [fuel] bounds the number of tests of its condition. *)
Fixpoint weeks_loop (fuel : nat) (year : Z) (current : Date) : list Week :=
  match fuel with
  | O => []
  | S f =>
      match getFullYear current with
      | Num y =>
          if y <=? year then
            let weekStart := current in
            let weekEnd := addDays current (Num 7) in
            let rest := weeks_loop f year (addDays current (Num 7)) in
            if y =? year then
              {| start := weekStart; end_ := weekEnd; key := weekKey weekStart |}
                :: rest
            else rest
          else []
      | NaN => []
      end
  end.

Definition generateWeeksForYear_fuel (fuel : nat) (year weekStartDay : Z)
  : list Week :=
  let current := new_Date (Num year) (Num 0) (Num 1) in
  match getDay current with
  | Num dayOfWeek =>
      let daysToSubtract := Z.rem (dayOfWeek - weekStartDay + 7) 7 in
      weeks_loop fuel year (addDays current (Num (- daysToSubtract)))
  | NaN => []
  end.

(** The loop leaves by its condition after at most 55 tests, whatever the
    year ([generateWeeksForYear_enough_fuel] below). *)
Definition generateWeeksForYear (year weekStartDay : Z) : list Week :=
  generateWeeksForYear_fuel 60 year weekStartDay.

Arguments generateWeeksForYear : simpl never.

(** ** mapWeeksByHolidays *)

Definition add_anchor (dicts : Dict * Dict) (anchor : Anchor) : Dict * Dict :=
  let '(allSourceHolidays, allTargetHolidays) := dicts in
  let key := a_id anchor in
  let src :=
    match a_sourceDate anchor with
    | Some t =>
        dict_set key {| h_name := a_name anchor; h_date := Some (ValidDate t);
                        h_type := a_type anchor |} allSourceHolidays
    | None => allSourceHolidays
    end in
  let tgt :=
    match a_targetDate anchor with
    | Some t =>
        dict_set key {| h_name := a_name anchor; h_date := Some (ValidDate t);
                        h_type := a_type anchor |} allTargetHolidays
    | None => allTargetHolidays
    end in
  (src, tgt).

(** [a ?? b]. *)
Definition nullish {A} (a b : option A) : option A :=
  match a with Some x => Some x | None => b end.

(** [a || b] on string properties. *)
Definition or_string (a b : option string) : option string :=
  match a with
  | Some s => if String.eqb s EmptyString then b else Some s
  | None => b
  end.

Definition to_number (o : option Z) : number :=
  match o with Some z => Num z | None => NaN end.

Definition resolve_sourceStart (sourceWeek : SourceWeek) : Exc Date :=
  match sw_start sourceWeek with
  | StartString _ =>
      match or_string (sw_weekKey sourceWeek) (sw_key sourceWeek) with
      | Some k => Ok (parseWeekKey k)
      | None =>
          Throw "TypeError: Cannot read properties of undefined (reading 'split')"
      end
  | StartFields o =>
      let sd := sw_startDate sourceWeek in
      Ok (new_Date (to_number (nullish (year o) (year sd)))
                   (to_number (nullish (month o) (month sd)))
                   (to_number (nullish (day o) (day sd))))
  end.

Definition no_anchor_error : string := "No matching anchor in target year".

Definition mapWeek (allSourceHolidays allTargetHolidays : Dict)
           (weekStartDay : Z) (sourceWeek : SourceWeek) : Exc Mapping :=
  let! sourceStart := resolve_sourceStart sourceWeek in
  let! relationship :=
    getWeekHolidayRelationship sourceStart allSourceHolidays weekStartDay in
  match dict_get (fst (rel_holiday relationship)) allTargetHolidays with
  | None =>
      Ok {| m_source := Some sourceWeek;
            m_sourceStart := Some sourceStart;
            m_sourceRange := None;
            m_target := None;
            m_targetRange := None;
            m_relationship := Some (rel_relationship relationship);
            m_holidayKey := Some (fst (rel_holiday relationship));
            m_weeksAway := Some (rel_weeksAway relationship);
            m_proposedPrice := None;
            m_error := Some no_anchor_error;
            m_isGapFill := false |}
  | Some targetHoliday =>
      let targetHolidayWeek :=
        getWeekContainingDate (h_date targetHoliday) weekStartDay in
      let targetWeekStart :=
        addDays (span_start targetHolidayWeek)
                (Num (rel_weeksAway relationship * 7)) in
      let targetWeekEnd := addDays targetWeekStart (Num 7) in
      let sourceEnd :=
        match getTime sourceStart with
        | Num t => ValidDate (t + 7 * 24 * 60 * 60 * 1000)
        | NaN => InvalidDate
        end in
      Ok {| m_source := Some sourceWeek;
            m_sourceStart := Some sourceStart;
            m_sourceRange := Some (formatWeekRange sourceStart sourceEnd);
            m_target := Some {| start := targetWeekStart;
                                end_ := targetWeekEnd;
                                key := weekKey targetWeekStart |};
            m_targetRange := Some (formatWeekRange targetWeekStart targetWeekEnd);
            m_relationship := Some (rel_relationship relationship);
            m_holidayKey := Some (fst (rel_holiday relationship));
            m_weeksAway := Some (rel_weeksAway relationship);
            m_proposedPrice := Some (sw_price sourceWeek);
            m_error := None;
            m_isGapFill := false |}
  end.

Definition all_holidays (sourceYear targetYear : Z) (anchors : list Anchor)
  : Dict * Dict :=
  let enabledAnchors := List.filter a_enabled anchors in
  fold_left add_anchor enabledAnchors
            (getHolidaysForYear sourceYear, getHolidaysForYear targetYear).

Definition mapWeeksByHolidays (sourceWeeks : list SourceWeek)
           (sourceYear targetYear : Z) (anchors : list Anchor)
           (weekStartDay : Z) : Exc (list Mapping) :=
  let '(allSourceHolidays, allTargetHolidays) :=
    all_holidays sourceYear targetYear anchors in
  mapM (mapWeek allSourceHolidays allTargetHolidays weekStartDay) sourceWeeks.

(** The own property names of a mapping object, in creation order. *)
Definition present {A} (name : string) (o : option A) : list string :=
  match o with Some _ => [name] | None => [] end.

Definition ownKeys (m : Mapping) : list string :=
  ["source"; "sourceStart"] ++ present "sourceRange" (m_sourceRange m)
    ++ ["target"] ++ present "targetRange" (m_targetRange m)
    ++ present "relationship" (m_relationship m)
    ++ present "holidayKey" (m_holidayKey m)
    ++ present "weeksAway" (m_weeksAway m)
    ++ present "proposedPrice" (m_proposedPrice m)
    ++ present "error" (m_error m)
    ++ (if m_isGapFill m then ["isGapFill"] else []).

(** ** Sorting by target start

    [xs.sort((a, b) => time(a) - time(b))].  A [NaN] difference counts as
    a tie.  Where the ties are transitive the comparator is consistent and
    the result is the stable ascending sort; that is the case when no time
    value is [NaN], and when every two elements tie.  With a [NaN] time
    value among different numbers the comparator is not consistent, and
    ECMAScript leaves the order to the implementation: the [Engine]. *)

Record Engine : Type := {
  implementation_defined_order :
    forall A : Type, (A -> A -> number) -> list A -> list A
}.

Section Sort.
Context {A : Type} (engine : Engine) (time : A -> number).

Definition comparator (a b : A) : number :=
  match time a, time b with
  | Num x, Num y => Num (x - y)
  | _, _ => NaN
  end.

(** [comparator a b > 0]. *)
Definition after (a b : A) : bool :=
  match time a, time b with
  | Num x, Num y => y <? x
  | _, _ => false
  end.

Definition tie (a b : A) : bool := negb (after a b) && negb (after b a).

Definition consistent (l : list A) : bool :=
  forallb (fun a => negb (isNaN (time a))) l
  || forallb (fun a => forallb (tie a) l) l.

Fixpoint insert_sorted (x : A) (l : list A) : list A :=
  match l with
  | [] => [x]
  | y :: rest =>
      if after x y then y :: insert_sorted x rest else x :: y :: rest
  end.

Definition stable_sort (l : list A) : list A := foldr insert_sorted [] l.

Definition sort_by (l : list A) : list A :=
  if consistent l then stable_sort l
  else implementation_defined_order engine A comparator l.
End Sort.

(** [m.target.start.getTime()] of a mapping that has a target. *)
Definition target_time (m : Mapping) : number :=
  match m_target m with
  | Some t => getTime (start t)
  | None => NaN
  end.

Definition has_target (m : Mapping) : bool :=
  match m_target m with Some _ => true | None => false end.

Definition target_key (m : Mapping) : option string :=
  match m_target m with Some t => Some (key t) | None => None end.

(** ** detectConflicts *)

(** The module's own [parsePrice]: [NaN] for anything that is not a
    non-zero integer. *)
Definition parsePrice (priceStr : value) : number :=
  if negb (truthy priceStr) then NaN
  else
    match parseInt (string_filter Calculations.not_dollar_comma
                                  (String_of priceStr)) with
    | Num z => if z =? 0 then NaN else Num z
    | NaN => NaN
    end.

Definition interpolatePrice (price1 price2 : value) : value :=
  match parsePrice price1, parsePrice price2 with
  | Num p1, Num p2 =>
      let avg := round_div (p1 + p2) 2 in
      Str ("$" +:+ toLocaleString avg)
  | _, _ => price1
  end.

(** The [Map] from target key to the mappings that reach it, in
    insertion order of the keys. *)
Definition Groups : Type := list (string * list Mapping).

Fixpoint group_add (k : string) (m : Mapping) (g : Groups) : Groups :=
  match g with
  | [] => [(k, [m])]
  | (k', ms) :: rest =>
      if String.eqb k k' then (k', ms ++ [m]) :: rest
      else (k', ms) :: group_add k m rest
  end.

Definition index_step (g : Groups) (mapping : Mapping) : Groups :=
  match m_target mapping with
  | Some t => group_add (key t) mapping g
  | None => g
  end.

Definition targetKeyToMappings (mappings : list Mapping) : Groups :=
  fold_left index_step mappings [].

(** The [Set] of mapped target keys; only membership is ever asked. *)
Definition mappedTargetKeys (mappings : list Mapping) : list string :=
  omap target_key mappings.

(** [m.source.price]: a [null] source throws. *)
Definition source_price (m : Mapping) : Exc value :=
  match m_source m with
  | Some sw => Ok (sw_price sw)
  | None => Throw "TypeError: Cannot read properties of null (reading 'price')"
  end.

Definition collision_entry (m : Mapping) : Exc CollisionEntry :=
  let! p := source_price m in
  Ok {| ce_sourceRange := m_sourceRange m;
        ce_price := p;
        ce_relationship := m_relationship m |}.

Definition collision_option (im : nat * Mapping) : Exc ConflictOption :=
  let '(i, m) := im in
  let! p := source_price m in
  Ok {| o_label := "Use " +:+ show (m_sourceRange m) +:+ " price ("
                     +:+ String_of p +:+ ")";
        o_value := p;
        o_sourceIndex := Some (Z.of_nat i);
        o_interpolatedPrice := None |}.

Definition custom_collision_option : ConflictOption :=
  {| o_label := "Enter custom price"; o_value := Str "custom";
     o_sourceIndex := Some (-1); o_interpolatedPrice := None |}.

Definition head_targetRange (maps : list Mapping) : option string :=
  match maps with
  | m :: _ => m_targetRange m
  | [] => None
  end.

Definition collision_conflict (targetKey : string) (maps : list Mapping)
  : Exc Conflict :=
  let! entries := mapM collision_entry maps in
  let! opts := mapM collision_option (imap pair maps) in
  Ok {| body := Collision targetKey (head_targetRange maps) entries;
        description :=
          "Both " +:+ join " and " (map (fun m => join_item (m_sourceRange m)) maps)
            +:+ " would map to " +:+ show (head_targetRange maps)
            +:+ ". Which price should apply?";
        options := opts ++ [custom_collision_option];
        resolved := false;
        resolution := None |}.

Fixpoint collisions (g : Groups) : Exc (list Conflict) :=
  match g with
  | [] => Ok []
  | (targetKey, maps) :: rest =>
      if (1 <? length maps)%nat then
        let! c := collision_conflict targetKey maps in
        let! cs := collisions rest in
        Ok (c :: cs)
      else collisions rest
  end.

Definition lt_number (a b : number) : bool :=
  match a, b with
  | Num x, Num y => x <? y
  | _, _ => false
  end.

(** One step of the nearest-mapped-week search around a gap. *)
Definition nearest_mapped_step (targetTime : number)
           (st : option Mapping * option Mapping) (m : Mapping)
  : option Mapping * option Mapping :=
  let '(nearestBefore, nearestAfter) := st in
  if negb (has_target m) then st
  else
    let mTime := target_time m in
    let nearestBefore' :=
      if lt_number mTime targetTime
         && match nearestBefore with
            | None => true
            | Some b => lt_number (target_time b) mTime
            end
      then Some m else nearestBefore in
    let nearestAfter' :=
      if lt_number targetTime mTime
         && match nearestAfter with
            | None => true
            | Some a => lt_number mTime (target_time a)
            end
      then Some m else nearestAfter in
    (nearestBefore', nearestAfter').

Definition neighbor_of (m : Mapping) : Neighbor :=
  {| n_range := m_targetRange m; n_price := read (m_proposedPrice m) |}.

Definition plain_option (label : string) (v : value) : ConflictOption :=
  {| o_label := label; o_value := v; o_sourceIndex := None;
     o_interpolatedPrice := None |}.

Definition gap_options (nearestBefore nearestAfter : option Mapping)
  : list ConflictOption :=
  match nearestBefore with
  | Some b =>
      [plain_option ("Use previous week's price ("
                       +:+ String_of (read (m_proposedPrice b)) +:+ ")")
                    (read (m_proposedPrice b))]
  | None => []
  end
  ++ match nearestAfter with
     | Some a =>
         [plain_option ("Use next week's price ("
                          +:+ String_of (read (m_proposedPrice a)) +:+ ")")
                       (read (m_proposedPrice a))]
     | None => []
     end
  ++ match nearestBefore, nearestAfter with
     | Some b, Some a =>
         [{| o_label := "Interpolate between neighbors";
             o_value := Str "interpolate";
             o_sourceIndex := None;
             o_interpolatedPrice :=
               Some (interpolatePrice (read (m_proposedPrice b))
                                      (read (m_proposedPrice a))) |}]
     | _, _ => []
     end
  ++ [plain_option "Enter custom price" (Str "custom")].

(** The off-season test [month < 3 || month > 10]. *)
Definition off_season (targetWeek : Week) : bool :=
  match getMonth (start targetWeek) with
  | Num month => (month <? 3) || (10 <? month)
  | NaN => false
  end.

Definition is_mapped (mappings : list Mapping) (k : string) : bool :=
  bool_decide (k ∈ mappedTargetKeys mappings).

Definition gap_conflict (mappings : list Mapping) (targetHolidays : Dict)
           (weekStartDay : Z) (targetWeek : Week) : Exc Conflict :=
  let! relationship :=
    getWeekHolidayRelationship (start targetWeek) targetHolidays weekStartDay in
  let targetTime := getTime (start targetWeek) in
  let '(nearestBefore, nearestAfter) :=
    fold_left (nearest_mapped_step targetTime) mappings (None, None) in
  let range := formatWeekRange (start targetWeek) (end_ targetWeek) in
  Ok {| body := Gap (key targetWeek) (Some range)
                    (Some (rel_relationship relationship))
                    (option_map neighbor_of nearestBefore)
                    (option_map neighbor_of nearestAfter);
        description :=
          "No source week maps to " +:+ range +:+ " ("
            +:+ rel_relationship relationship +:+ "). How should we price it?";
        options := gap_options nearestBefore nearestAfter;
        resolved := false;
        resolution := None |}.

(** The target weeks that get a gap conflict. *)
Definition is_gap_week (mappings : list Mapping) (targetWeek : Week) : bool :=
  negb (off_season targetWeek) && negb (is_mapped mappings (key targetWeek)).

Definition gaps (mappings : list Mapping) (targetYear weekStartDay : Z)
  : Exc (list Conflict) :=
  let allTargetWeeks := generateWeeksForYear targetYear weekStartDay in
  let targetHolidays := getHolidaysForYear targetYear in
  mapM (gap_conflict mappings targetHolidays weekStartDay)
       (List.filter (is_gap_week mappings) allTargetWeeks).

(** [a || b] on price values. *)
Definition or_value (a b : value) : value := if truthy a then a else b.

(** [m.source?.price || m.proposedPrice]. *)
Definition neighbor_price (m : Mapping) : value :=
  or_value (match m_source m with Some sw => sw_price sw | None => Undefined end)
           (read (m_proposedPrice m)).

Fixpoint findIndex {A} (p : A -> bool) (l : list A) : Z :=
  match l with
  | [] => -1
  | x :: rest =>
      if p x then 0
      else let i := findIndex p rest in if i <? 0 then -1 else i + 1
  end.

(** The reversal check of one mapping at position [idx] of the list.
    Prices are whole dollars, so [price - (p + n) / 2 > 100] is decided on
    the doubled quantities. *)
Definition reversal_at (engine : Engine) (mappings : list Mapping) (idx : nat)
           (mapping : Mapping) : option Conflict :=
  match m_target mapping with
  | None => None
  | Some target =>
  if negb (truthy (read (m_proposedPrice mapping))) then None else
  match parsePrice (read (m_proposedPrice mapping)) with
  | NaN => None
  | Num currentPrice =>
  match (match idx with O => None | S i => mappings !! i end),
        mappings !! S idx with
  | Some sourcePrev, Some sourceNext =>
  match parsePrice (neighbor_price sourcePrev),
        parsePrice (neighbor_price sourceNext) with
  | Num sourcePrevPrice, Num sourceNextPrice =>
      let wasAbove := 200 <? 2 * currentPrice - (sourcePrevPrice + sourceNextPrice) in
      let wasBelow := 2 * currentPrice - (sourcePrevPrice + sourceNextPrice) <? -200 in
      if negb wasAbove && negb wasBelow then None else
      let targetKey := key target in
      let sortedMappings :=
        sort_by engine target_time (List.filter has_target mappings) in
      let targetIdx :=
        findIndex (fun m => bool_decide (target_key m = Some targetKey))
                  sortedMappings in
      if (targetIdx <=? 0) || (Z.of_nat (length sortedMappings) - 1 <=? targetIdx)
      then None else
      match sortedMappings !! Z.to_nat (targetIdx - 1),
            sortedMappings !! Z.to_nat (targetIdx + 1) with
      | Some targetPrev, Some targetNext =>
      match parsePrice (read (m_proposedPrice targetPrev)),
            parsePrice (read (m_proposedPrice targetNext)) with
      | Num targetPrevPrice, Num targetNextPrice =>
          let isAbove := 200 <? 2 * currentPrice - (targetPrevPrice + targetNextPrice) in
          let isBelow := 2 * currentPrice - (targetPrevPrice + targetNextPrice) <? -200 in
          if (wasAbove && isBelow) || (wasBelow && isAbove) then
            let sourcePattern := if wasAbove then "higher" else "lower" in
            let targetPattern := if isAbove then "higher" else "lower" in
            let price := read (m_proposedPrice mapping) in
            Some {| body := StrategyReversal (m_sourceRange mapping)
                              (m_targetRange mapping) price
                              sourcePattern targetPattern;
                    description :=
                      show (m_sourceRange mapping) +:+ " was priced "
                        +:+ String_of price +:+ ", which was " +:+ sourcePattern
                        +:+ " than its neighbors. The proposed "
                        +:+ show (m_targetRange mapping) +:+ " at "
                        +:+ String_of price +:+ " would be " +:+ targetPattern
                        +:+ " than ITS neighbors - the opposite pattern. Is this intentional?";
                    options :=
                      [plain_option "Keep as mapped (intentional change)" (Str "keep");
                       plain_option "Adjust to maintain relative position" (Str "adjust")];
                    resolved := false;
                    resolution := None |}
          else None
      | _, _ => None
      end
      | _, _ => None
      end
  | _, _ => None
  end
  | _, _ => None
  end
  end
  end.

Definition reversals (engine : Engine) (mappings : list Mapping)
  : list Conflict :=
  omap (fun im => reversal_at engine mappings (fst im) (snd im))
       (imap pair mappings).

Definition detectConflicts (engine : Engine) (mappings : list Mapping)
           (targetYear weekStartDay : Z) : Exc (list Conflict) :=
  let! cs := collisions (targetKeyToMappings mappings) in
  let! gs := gaps mappings targetYear weekStartDay in
  Ok (cs ++ gs ++ reversals engine mappings).

(** ** applyResolutions

    Mapping objects are shared between the caller's array and the working
    copy [resolvedMappings], so they live in a heap; an array is the list
    of the locations it holds. *)

Abbreviation loc := nat (only parsing).
Abbreviation heap := (list Mapping) (only parsing).

Definition set_proposedPrice (v : value) (m : Mapping) : Mapping :=
  {| m_source := m_source m;
     m_sourceStart := m_sourceStart m;
     m_sourceRange := m_sourceRange m;
     m_target := m_target m;
     m_targetRange := m_targetRange m;
     m_relationship := m_relationship m;
     m_holidayKey := m_holidayKey m;
     m_weeksAway := m_weeksAway m;
     m_proposedPrice := Some v;
     m_error := m_error m;
     m_isGapFill := m_isGapFill m |}.

(** [obj.proposedPrice = v] on the object at [l]. *)
Definition write_price (l : loc) (v : value) (h : heap) : heap :=
  match h !! l with
  | Some m => <[ l := set_proposedPrice v m ]> h
  | None => h
  end.

Definition key_at (h : heap) (l : loc) : option string :=
  match h !! l with
  | Some m => target_key m
  | None => None
  end.

Definition sourceRange_at (h : heap) (l : loc) : option string :=
  match h !! l with
  | Some m => m_sourceRange m
  | None => None
  end.

(** The backwards [for] loop over [resolvedMappings] for one resolved
    collision; [i] is the number of indices still to visit. *)
Fixpoint collision_loop (targetKey : string) (entries : list CollisionEntry)
         (res : Resolution) (i : nat)
         (st : heap * list loc * bool) : heap * list loc * bool :=
  match i with
  | O => st
  | S i' =>
      let '(h, resolvedMappings, kept) := st in
      let st' :=
        match resolvedMappings !! i' with
        | None => st
        | Some l =>
            if bool_decide (key_at h l = Some targetKey) then
              match (if kept then None else r_sourceIndex res) with
              | Some sourceIndex =>
                  if sourceIndex =?
                     findIndex (fun e => bool_decide
                                  (ce_sourceRange e = sourceRange_at h l))
                               entries
                  then (write_price l (r_value res) h, resolvedMappings, true)
                  else (h, delete i' resolvedMappings, kept)
              | None =>
                  if bool_decide (r_value res = Str "custom")
                  then (write_price l (read (r_customPrice res)) h,
                        resolvedMappings, true)
                  else st
              end
            else st
        end in
      collision_loop targetKey entries res i' st'
  end.

Definition gap_fill (targetWeek : string) (targetRange relationship : option string)
           (res : Resolution) : Mapping :=
  let targetStart := parseWeekKey targetWeek in
  let targetEnd := addDays targetStart (Num 7) in
  let price :=
    if bool_decide (r_value res = Str "interpolate")
    then read (r_interpolatedPrice res)
    else if bool_decide (r_value res = Str "custom")
    then read (r_customPrice res)
    else r_value res in
  {| m_source := None;
     m_sourceStart := None;
     m_sourceRange := Some "N/A (gap fill)";
     m_target := Some {| start := targetStart; end_ := targetEnd;
                         key := targetWeek |};
     m_targetRange := targetRange;
     m_relationship := relationship;
     m_holidayKey := None;
     m_weeksAway := None;
     m_proposedPrice := Some price;
     m_error := None;
     m_isGapFill := true |}.

(** The state threaded through [conflicts.forEach]: the heap, the working
    array and the gap fills built so far. *)
Record ApplyState : Type := {
  st_heap : heap;
  st_resolved : list loc;
  st_additional : list Mapping
}.

Definition apply_conflict (st : ApplyState) (conflict : Conflict) : ApplyState :=
  if negb (resolved conflict) then st else
  match resolution conflict with
  | None => st
  | Some res =>
      match body conflict with
      | Collision targetKey _ entries =>
          let '(h, arr, _) :=
            collision_loop targetKey entries res (length (st_resolved st))
                           (st_heap st, st_resolved st, false) in
          {| st_heap := h; st_resolved := arr;
             st_additional := st_additional st |}
      | Gap targetWeek targetRange relationship _ _ =>
          {| st_heap := st_heap st; st_resolved := st_resolved st;
             st_additional :=
               st_additional st
                 ++ [gap_fill targetWeek targetRange relationship res] |}
      | StrategyReversal _ _ _ _ _ => st
      end
  end.

Definition time_at (h : heap) (l : loc) : number :=
  match h !! l with
  | Some m => target_time m
  | None => NaN
  end.

Definition has_target_at (h : heap) (l : loc) : bool :=
  match h !! l with
  | Some m => has_target m
  | None => false
  end.

(** The result: the heap after the call and the returned array.  The gap
    fills are new objects, allocated after the existing ones. *)
Definition applyResolutions (engine : Engine) (h : heap) (mappings : list loc)
           (conflicts : list Conflict) : heap * list loc :=
  let st := fold_left apply_conflict conflicts
              {| st_heap := h; st_resolved := mappings; st_additional := [] |} in
  let h' := st_heap st ++ st_additional st in
  let additionalWeeks := seq (length (st_heap st)) (length (st_additional st)) in
  (h',
   sort_by engine (time_at h')
           (List.filter (has_target_at h') (st_resolved st ++ additionalWeeks))).

(** The mapping objects an array holds. *)
Definition contents (h : heap) (arr : list loc) : list Mapping :=
  omap (fun l => h !! l) arr.

(** ** buildHolidayAnchorTable *)

(** A row of the anchor table. *)
Record AnchorRow : Type := {
  row_name : string;
  row_type : string;
  row_sourceDate : string;
  row_sourceWeek : string;
  row_targetDate : string;
  row_targetWeek : string;
  row_deletable : bool;
  row_anchorId : string
}.

(** The row of an anchor that has both dates. *)
Definition anchor_row (weekStartDay : Z) (anchor : Anchor) : option AnchorRow :=
  match a_sourceDate anchor, a_targetDate anchor with
  | Some s, Some t =>
      let sourceDate := ValidDate s in
      let targetDate := ValidDate t in
      let sourceWeek := getWeekContainingDate (Some sourceDate) weekStartDay in
      let targetWeek := getWeekContainingDate (Some targetDate) weekStartDay in
      Some {| row_name := a_name anchor;
              row_type := a_type anchor;
              row_sourceDate := formatDateShort sourceDate;
              row_sourceWeek :=
                formatWeekRange (span_start sourceWeek) (span_end sourceWeek);
              row_targetDate := formatDateShort targetDate;
              row_targetWeek :=
                formatWeekRange (span_start targetWeek) (span_end targetWeek);
              row_deletable := String.eqb (a_type anchor) "custom";
              row_anchorId := a_id anchor |}
  | _, _ => None
  end.

(** The two years are parameters of the function and are not used. *)
Definition buildHolidayAnchorTable (sourceYear targetYear : Z)
           (anchors : list Anchor) (weekStartDay : Z) : list AnchorRow :=
  let enabledAnchors := List.filter a_enabled anchors in
  omap (anchor_row weekStartDay) enabledAnchors.

End WeekMapping.

Import Holidays WeekMapping.

(* ================================================================== *)
(** * The calendar page of the application                             *)
(* ================================================================== *)

(** The page keeps a week generator of its own.  It moves forward to the
    first week start of the year, where the one of the mapper takes the
    week that contains the first of January and skips it when it starts
    in the year before; the key is built as [weekKey] builds it. *)
Module CalendarPage.

(** The [while] loop, with the number of weeks still to visit. *)
Fixpoint weeks_loop (fuel : nat) (year : Z) (current : Date) : list Week :=
  match fuel with
  | O => []
  | S f =>
      match getFullYear current with
      | Num y =>
          if y =? year then
            let weekStart := current in
            let weekEnd := addDays current (Num 7) in
            {| start := weekStart; end_ := weekEnd; key := weekKey weekStart |}
              :: weeks_loop f year (addDays current (Num 7))
          else []
      | NaN => []
      end
  end.

Definition generateWeeksForYear (year weekStartDay : Z) : list Week :=
  let current := new_Date (Num year) (Num 0) (Num 1) in
  match getDay current with
  | Num dayOfWeek =>
      let daysToAdd := Z.rem (weekStartDay - dayOfWeek + 7) 7 in
      let current := addDays current (Num daysToAdd) in
      let current :=
        match getFullYear current with
        | Num y => if y <? year then addDays current (Num 7) else current
        | NaN => current
        end in
      weeks_loop 60 year current
  | NaN => []
  end.

End CalendarPage.

(* ================================================================== *)
(** * Test data, after the repository's test suites                    *)
(* ================================================================== *)

Module Examples.

(** An engine that leaves an array it may order freely as it is.  The
    arrays of the examples hold valid dates only, so that no engine is
    consulted on them. *)
Definition idle_engine : Engine :=
  {| implementation_defined_order := fun A _ l => l |}.

Definition structured (y m d : Z) : YMD :=
  {| year := Some y; month := Some m; day := Some d |}.

(** [createSourceWeek] of the test suite: [start] is a [Date] object, the
    date is read from [startDate]. *)
Definition createSourceWeek (y m d : Z) (price : value) : SourceWeek :=
  {| sw_start := StartFields no_fields;
     sw_weekKey := Some (weekKey (new_Date (Num y) (Num m) (Num d)));
     sw_key := Some (weekKey (new_Date (Num y) (Num m) (Num d)));
     sw_startDate := structured y m d;
     sw_price := price |}.

(** A row with no date at all. *)
Definition undated (price : value) : SourceWeek :=
  {| sw_start := StartFields no_fields;
     sw_weekKey := None;
     sw_key := None;
     sw_startDate := no_fields;
     sw_price := price |}.

(** A generated week with a price: [start] is a [Date] object, the key is
    there, and there is no [startDate]. *)
Definition pricedWeek (k : string) (price : value) : SourceWeek :=
  {| sw_start := StartFields no_fields;
     sw_weekKey := None;
     sw_key := Some k;
     sw_startDate := no_fields;
     sw_price := price |}.

(** A row read back from JSON that kept its [start] string only. *)
Definition serialized (iso : string) (price : value) : SourceWeek :=
  {| sw_start := StartString iso;
     sw_weekKey := None;
     sw_key := None;
     sw_startDate := no_fields;
     sw_price := price |}.

(** A hand-written mapping as in the resolution tests. *)
Definition mapping_to (k : string) (sourceRange price : string) : Mapping :=
  {| m_source := Some (undated (Str price));
     m_sourceStart := Some (new_Date (Num 2026) (Num 8) (Num 5));
     m_sourceRange := Some sourceRange;
     m_target := Some {| start := parseWeekKey k;
                         end_ := addDays (parseWeekKey k) (Num 7);
                         key := k |};
     m_targetRange := Some "Sep 6 - Sep 13";
     m_relationship := None;
     m_holidayKey := None;
     m_weeksAway := None;
     m_proposedPrice := Some (Str price);
     m_error := None;
     m_isGapFill := false |}.

(** An error mapping: the week found no anchor date in the target year. *)
Definition unanchored : Mapping :=
  {| m_source := Some (undated (Str "$2,800"));
     m_sourceStart := Some (new_Date (Num 2026) (Num 3) (Num 11));
     m_sourceRange := None;
     m_target := None;
     m_targetRange := None;
     m_relationship := Some "Week of April School Break";
     m_holidayKey := Some "custom_1";
     m_weeksAway := Some 0;
     m_proposedPrice := None;
     m_error := Some no_anchor_error;
     m_isGapFill := false |}.

Definition weekA : Mapping := mapping_to "2027-09-06" "Aug 22 - Aug 29" "$3,500".
Definition weekB : Mapping := mapping_to "2027-09-06" "Aug 29 - Sep 5" "$3,200".

(** Five weeks in source order.  The third one has the second and the
    fourth as its source neighbours; in target order it stands between
    the first and the fifth. *)
Definition crossing (own sourcePrev sourceNext targetPrev targetNext : string)
  : list Mapping :=
  [mapping_to "2027-07-10" "Jul 4 - Jul 11" targetPrev;
   mapping_to "2027-07-03" "Jul 11 - Jul 18" sourcePrev;
   mapping_to "2027-07-17" "Jul 18 - Jul 25" own;
   mapping_to "2027-07-31" "Jul 25 - Aug 1" sourceNext;
   mapping_to "2027-07-24" "Aug 1 - Aug 8" targetNext].

(** The collision of [weekA] and [weekB] as [detectConflicts] reports it,
    resolved by the caller with the given choice. *)
Definition collisionAB (res : Resolution) : Conflict :=
  {| body :=
       Collision "2027-09-06" (Some "Sep 6 - Sep 13")
         [ {| ce_sourceRange := Some "Aug 22 - Aug 29"; ce_price := Str "$3,500";
              ce_relationship := None |};
           {| ce_sourceRange := Some "Aug 29 - Sep 5"; ce_price := Str "$3,200";
              ce_relationship := None |} ];
     description :=
       "Both Aug 22 - Aug 29 and Aug 29 - Sep 5 would map to Sep 6 - Sep 13. Which price should apply?";
     options :=
       [ {| o_label := "Use Aug 22 - Aug 29 price ($3,500)"; o_value := Str "$3,500";
            o_sourceIndex := Some 0; o_interpolatedPrice := None |};
         {| o_label := "Use Aug 29 - Sep 5 price ($3,200)"; o_value := Str "$3,200";
            o_sourceIndex := Some 1; o_interpolatedPrice := None |};
         custom_collision_option ];
     resolved := true;
     resolution := Some res |}.

(** The caller copies the chosen option into the resolution. *)
Definition choose (o : ConflictOption) (customPrice : option value) : Resolution :=
  {| r_value := o_value o;
     r_customPrice := customPrice;
     r_sourceIndex := o_sourceIndex o;
     r_interpolatedPrice := o_interpolatedPrice o |}.

Definition use_first : Resolution :=
  {| r_value := Str "$3,500"; r_customPrice := None;
     r_sourceIndex := Some 0; r_interpolatedPrice := None |}.

Definition use_second : Resolution :=
  {| r_value := Str "$3,200"; r_customPrice := None;
     r_sourceIndex := Some 1; r_interpolatedPrice := None |}.

(** The custom resolution of the test suite: no [sourceIndex]. *)
Definition use_custom : Resolution :=
  {| r_value := Str "custom"; r_customPrice := Some (Str "$3,300");
     r_sourceIndex := None; r_interpolatedPrice := None |}.

(** A custom anchor with a source date (15 April 2026) and no target
    date, and the source week that contains it. *)
Definition aprilBreak : Anchor :=
  {| a_id := "custom_1";
     a_name := "April School Break";
     a_type := "custom";
     a_enabled := true;
     a_sourceDate := Some (MakeDay 2026 3 15 * msPerDay);
     a_targetDate := None |}.

Definition aprilBreakWeek : SourceWeek := createSourceWeek 2026 3 11 (Str "$2,800").

(** The Labor Day week of 2026 entered twice with different prices. *)
Definition laborDayTwice : list SourceWeek :=
  [createSourceWeek 2026 8 5 (Str "$3,500");
   createSourceWeek 2026 8 5 (Str "$3,200")].

(** Only the week of July 4th 2026 is priced. *)
Definition july4thOnly : list SourceWeek :=
  [createSourceWeek 2026 6 4 (Str "$3,500")].

End Examples.

(* ================================================================== *)
(** * Vocabulary of the properties                                     *)
(* ================================================================== *)

(** The calendar fields of a holiday's date, for the test expectations. *)
Definition ymd_of (d : option Date) : number * number * number * number :=
  match d with
  | Some d => (getFullYear d, getMonth d, getDate d, getDay d)
  | None => (NaN, NaN, NaN, NaN)
  end.

(** Name, offset and label of the nearest holiday of a week start. *)
Definition relationship_of (y m d : Z) (holidays : Dict)
  : option (string * Z * string) :=
  match getWeekHolidayRelationship (new_Date (Num y) (Num m) (Num d)) holidays 6 with
  | Ok rel => Some (h_name (snd (rel_holiday rel)), rel_weeksAway rel,
                    rel_relationship rel)
  | Throw _ => None
  end.

(** The rational number a finite binary64 number stands for. *)
Definition SF2Q (x : spec_float) : Q :=
  match x with
  | S754_finite s m e =>
      if 0 <=? e then inject_Z (cond_Zopp s (Zpos m) * 2 ^ e)
      else Qmake (cond_Zopp s (Zpos m)) (Z.to_pos (2 ^ (- e)))
  | _ => 0%Q
  end.

Definition exact (x : float) : Q := SF2Q (Prim2SF x).

(** Both time values are numbers and the first is not after the second. *)
Definition time_le {A : Type} (time : A -> number) (a b : A) : Prop :=
  match time a, time b with
  | Num x, Num y => x <= y
  | _, _ => False
  end.

(** The target of the mapping object at [l], if it has one. *)
Definition target_at (h : heap) (l : loc) : option Week := h !! l ≫= m_target.

(** The time value at which the target of the object at [l] starts, if it
    has a target that starts on a valid date. *)
Definition start_at (h : heap) (l : loc) : option Z :=
  match target_at h l with
  | Some t => match start t with ValidDate ms => Some ms | InvalidDate => None end
  | None => None
  end.

(** The source-year neighbour at [idx - 1]. *)
Definition sourcePrev_of (mappings : list Mapping) (idx : nat) : option Mapping :=
  match idx with O => None | S i => mappings !! i end.

(** The mappings with a target in the order of their target start, as
    the reversal check sorts them. *)
Definition targetOrder (engine : Engine) (mappings : list Mapping)
  : list Mapping :=
  sort_by engine target_time (List.filter has_target mappings).

(** The position in that order of the first mapping with the target key
    of [mapping]. *)
Definition targetIdx_of (engine : Engine) (mappings : list Mapping)
           (mapping : Mapping) : Z :=
  match target_key mapping with
  | Some k =>
      findIndex (fun m => bool_decide (target_key m = Some k))
                (targetOrder engine mappings)
  | None => -1
  end.

(** The target-year neighbours at [targetIdx - 1] and [targetIdx + 1]. *)
Definition targetPrev_of (engine : Engine) (mappings : list Mapping)
           (mapping : Mapping) : option Mapping :=
  let i := targetIdx_of engine mappings mapping in
  if 0 <? i then targetOrder engine mappings !! Z.to_nat (i - 1) else None.

Definition targetNext_of (engine : Engine) (mappings : list Mapping)
           (mapping : Mapping) : option Mapping :=
  let i := targetIdx_of engine mappings mapping in
  if 0 <=? i then targetOrder engine mappings !! Z.to_nat (i + 1) else None.

(** One of the five prices the reversal check of [mapping] compares does
    not parse: its own, that of a source-year neighbour, or that of a
    target-year neighbour. *)
Definition unparsed_price (engine : Engine) (mappings : list Mapping)
           (idx : nat) (mapping : Mapping) : Prop :=
  WeekMapping.parsePrice (read (m_proposedPrice mapping)) = NaN
  \/ (exists sourcePrev, sourcePrev_of mappings idx = Some sourcePrev
        /\ WeekMapping.parsePrice (neighbor_price sourcePrev) = NaN)
  \/ (exists sourceNext, mappings !! S idx = Some sourceNext
        /\ WeekMapping.parsePrice (neighbor_price sourceNext) = NaN)
  \/ (exists targetPrev,
        targetPrev_of engine mappings mapping = Some targetPrev
        /\ WeekMapping.parsePrice (read (m_proposedPrice targetPrev)) = NaN)
  \/ (exists targetNext,
        targetNext_of engine mappings mapping = Some targetNext
        /\ WeekMapping.parsePrice (read (m_proposedPrice targetNext)) = NaN).

(** The object [m] with its [proposedPrice] property replaced. *)
Definition with_price (p : option value) (m : Mapping) : Mapping :=
  {| m_source := m_source m;
     m_sourceStart := m_sourceStart m;
     m_sourceRange := m_sourceRange m;
     m_target := m_target m;
     m_targetRange := m_targetRange m;
     m_relationship := m_relationship m;
     m_holidayKey := m_holidayKey m;
     m_weeksAway := m_weeksAway m;
     m_proposedPrice := p;
     m_error := m_error m;
     m_isGapFill := m_isGapFill m |}.

(** Every property other than [proposedPrice] is the same in both. *)
Definition unchanged_but_price (m m' : Mapping) : Prop :=
  m_source m' = m_source m
  /\ m_sourceStart m' = m_sourceStart m
  /\ m_sourceRange m' = m_sourceRange m
  /\ m_target m' = m_target m
  /\ m_targetRange m' = m_targetRange m
  /\ m_relationship m' = m_relationship m
  /\ m_holidayKey m' = m_holidayKey m
  /\ m_weeksAway m' = m_weeksAway m
  /\ m_error m' = m_error m
  /\ m_isGapFill m' = m_isGapFill m.

(** [h'] holds the objects of [h] with, at most, other prices; a price
    differs only at locations that satisfy [P]. *)
Definition frame (P : loc -> option string -> Prop) (h h' : heap) : Prop :=
  length h' = length h
  /\ forall l m, h !! l = Some m ->
       exists p, h' !! l = Some (with_price p m)
                 /\ (p <> m_proposedPrice m -> P l (target_key m)).

(** The locations at which a resolved collision of [conflicts] may write. *)
Definition collided (mappings : list loc) (conflicts : list Conflict)
           (l : loc) (k : option string) : Prop :=
  l ∈ mappings
  /\ exists c targetKey targetRange entries,
       c ∈ conflicts /\ resolved c = true
       /\ body c = Collision targetKey targetRange entries
       /\ k = Some targetKey.

(** A holiday whose date is not the Invalid Date. *)
Definition date_ok (entry : string * Holiday) : Prop :=
  h_date (snd entry) <> Some InvalidDate.

(** A dictionary in which the nearest-holiday search finds something. *)
Definition dict_ok (d : Dict) : Prop := d <> [] /\ Forall date_ok d.

(** A source week whose start resolves to a valid date. *)
Definition dated (sourceWeek : SourceWeek) : Prop :=
  exists t, resolve_sourceStart sourceWeek = Ok (ValidDate t).

(** What [mapWeek] emits for a source week: an error mapping when the
    nearest anchor's key is missing from the target dictionary, a complete
    mapping otherwise. *)
Definition emitted (allSourceHolidays allTargetHolidays : Dict)
           (weekStartDay : Z) (sourceWeek : SourceWeek) (m : Mapping) : Prop :=
  exists sourceStart rel,
    resolve_sourceStart sourceWeek = Ok sourceStart
    /\ getWeekHolidayRelationship sourceStart allSourceHolidays weekStartDay
       = Ok rel
    /\ m_source m = Some sourceWeek
    /\ match dict_get (fst (rel_holiday rel)) allTargetHolidays with
       | None =>
           m_target m = None /\ m_error m = Some no_anchor_error
           /\ m_sourceRange m = None /\ m_targetRange m = None
           /\ m_proposedPrice m = None
           /\ ownKeys m = ["source"; "sourceStart"; "target"; "relationship";
                           "holidayKey"; "weeksAway"; "error"]
       | Some _ =>
           is_Some (m_target m) /\ m_error m = None
           /\ is_Some (m_sourceRange m) /\ is_Some (m_targetRange m)
           /\ m_proposedPrice m = Some (sw_price sourceWeek)
           /\ ownKeys m = ["source"; "sourceStart"; "sourceRange"; "target";
                           "targetRange"; "relationship"; "holidayKey";
                           "weeksAway"; "proposedPrice"]
       end.

(** The successful mappings that reach target key [k], in list order. *)
Definition contributors (k : string) (mappings : list Mapping) : list Mapping :=
  List.filter (fun m => bool_decide (target_key m = Some k)) mappings.

(** The conflicts of [type: 'collision']. *)
Definition is_collision (c : Conflict) : bool :=
  match body c with Collision _ _ _ => true | _ => false end.

(** The conflicts of [type: 'gap']. *)
Definition is_gap (c : Conflict) : bool :=
  match body c with Gap _ _ _ _ _ => true | _ => false end.

(** The [targetWeek] of a collision or gap conflict. *)
Definition conflict_targetWeek (c : Conflict) : string :=
  match body c with
  | Collision k _ _ => k
  | Gap k _ _ _ _ => k
  | StrategyReversal _ _ _ _ _ => EmptyString
  end.

(** The [mappings] array of a collision conflict. *)
Definition collision_mappings (c : Conflict) : list CollisionEntry :=
  match body c with
  | Collision _ _ entries => entries
  | _ => []
  end.

(** The entry of a collision conflict that stands for mapping [m]. *)
Definition entry_for (m : Mapping) (e : CollisionEntry) : Prop :=
  ce_sourceRange e = m_sourceRange m
  /\ option_map sw_price (m_source m) = Some (ce_price e)
  /\ ce_relationship e = m_relationship m.

(** Every mapping with a target has a source week, as every mapping the
    mapper emits does. *)
Definition sourced (m : Mapping) : Prop :=
  m_target m <> None -> m_source m <> None.

(** [map.get(k)] on the index of mappings by target key. *)
Fixpoint group_get (k : string) (g : Groups) : option (list Mapping) :=
  match g with
  | [] => None
  | (k', ms) :: rest => if String.eqb k k' then Some ms else group_get k rest
  end.

(** The groups that become collision conflicts. *)
Definition collided_groups (g : Groups) : Groups :=
  List.filter (fun kms => (1 <? length (snd kms))%nat) g.

(** The rental season of gap detection: April to November. *)
Definition in_season (w : Week) : bool :=
  match getMonth (start w) with
  | Num month => (3 <=? month) && (month <=? 10)
  | NaN => false
  end.

(** No successful mapping has target key [k]. *)
Definition unmapped (mappings : list Mapping) (k : string) : bool :=
  forallb (fun m => negb (bool_decide (target_key m = Some k))) mappings.

(** The number of days of month [m] (0 = January) in year [y]. *)
Definition DaysInMonth (y m : Z) : Z :=
  if m =? 1 then 28 + InLeapYear y
  else if (m =? 3) || (m =? 5) || (m =? 8) || (m =? 10) then 30
  else 31.

(** The zeros that fill a group of digits up to three. *)
Definition pad3 (r : string) : string :=
  match String.length r with
  | 1%nat => "00" | 2%nat => "0" | _ => EmptyString
  end.

(** [s] is a non-empty run of decimal digits that denotes [n]. *)
Definition reads_as (n : Z) (s : string) : Prop :=
  all_digits s = true /\ s <> EmptyString
  /\ digits_prefix digit_of 10 None s = Some n.

(** The first day, on or before day [d], that falls on weekday
    [weekStartDay]. *)
Definition week_start_day (d weekStartDay : Z) : Z :=
  d - (WeekDay d - weekStartDay) mod 7.

(** The week that starts at midnight of day [d]. *)
Definition week_of_day (d : Z) : Week :=
  {| start := ValidDate (d * msPerDay);
     end_ := ValidDate ((d + 7) * msPerDay);
     key := weekKey (ValidDate (d * msPerDay)) |}.

(** [n] days, seven apart, from day [d] on. *)
Fixpoint every_seventh (n : nat) (d : Z) : list Z :=
  match n with
  | O => []
  | S n' => d :: every_seventh n' (d + 7)
  end.

(** The first day of [year] that falls on weekday [weekStartDay]. *)
Definition first_week_day (year weekStartDay : Z) : Z :=
  DayFromYear year + (weekStartDay - WeekDay (DayFromYear year)) mod 7.

(** The number of such days in [year]. *)
Definition weeks_in_year (year weekStartDay : Z) : nat :=
  Z.to_nat ((DayFromYear (year + 1) - first_week_day year weekStartDay + 6) / 7).

(** The whole weeks from the week of a holiday to the week that starts at
    time [weekStart]; nothing for a holiday without a valid date. *)
Definition weeks_from (weekStart weekStartDay : Z) (holiday : Holiday)
  : option Z :=
  match getTime (span_start (getWeekContainingDate (h_date holiday)
                                                   weekStartDay)) with
  | Num b => Some (round_div (round_div (weekStart - b) msPerDay) 7)
  | NaN => None
  end.

(** The holiday of [entry] is not nearer than [w] weeks, or is farther
    than that. *)
Definition farther (strictly : bool) (weekStart weekStartDay w : Z)
           (entry : string * Holiday) : Prop :=
  forall w', weeks_from weekStart weekStartDay (snd entry) = Some w' ->
             if strictly then Z.abs w < Z.abs w' else Z.abs w <= Z.abs w'.

(** The state of the nearest-holiday search after the entries [l]: nothing
    yet, or the first entry of least distance. *)
Definition nearest_inv (t weekStartDay : Z) (l : Dict) (st : Nearest) : Prop :=
  (nearestHoliday st = None /\ minDistance st = None
   /\ Forall (fun e => weeks_from t weekStartDay (snd e) = None) l)
  \/ exists l1 e l2 w,
       l = l1 ++ e :: l2
       /\ nearestHoliday st = Some e /\ minDistance st = Some w
       /\ weeksAway st = w
       /\ weeks_from t weekStartDay (snd e) = Some w
       /\ Forall (farther true t weekStartDay w) l1
       /\ Forall (farther false t weekStartDay w) l2.

(** An enabled anchor has the same date in both years. *)
Definition same_dates (a : Anchor) : Prop :=
  a_enabled a = true -> a_sourceDate a = a_targetDate a.

(** An enabled anchor with a source date has a target date. *)
Definition has_target_date (a : Anchor) : Prop :=
  a_enabled a = true -> a_sourceDate a <> None -> a_targetDate a <> None.

(** The conflicts of [type: 'strategy_reversal']. *)
Definition is_reversal (c : Conflict) : bool :=
  match body c with StrategyReversal _ _ _ _ _ => true | _ => false end.

(** A mapping with a target that starts before, or after, a time. *)
Definition mapped_before (targetTime : number) (m : Mapping) : bool :=
  has_target m && lt_number (target_time m) targetTime.

Definition mapped_after (targetTime : number) (m : Mapping) : bool :=
  has_target m && lt_number targetTime (target_time m).

(** [o] is the first of the mappings on one side of a gap that are nearest
    to it: no earlier one is as near, no later one is nearer; the form
    common to [latest_before] and [earliest_after] below. *)
Definition nearest_mapped (side : Mapping -> bool)
           (nearer : Mapping -> Mapping -> bool)
           (mappings : list Mapping) (o : option Mapping) : Prop :=
  match o with
  | None => Forall (fun m => side m = false) mappings
  | Some b =>
      exists l1 l2,
        mappings = l1 ++ b :: l2 /\ side b = true
        /\ Forall (fun m => side m = true -> nearer b m = true) l1
        /\ Forall (fun m => side m = true -> nearer m b = false) l2
  end.

(** A conflict as [detectConflicts] emits it: not resolved yet. *)
Definition fresh (c : Conflict) : Prop :=
  resolved c = false /\ resolution c = None.

(** The mapping whose target starts latest before time [T], the first
    such of the list, or nothing when no target starts before [T]. *)
Definition latest_before (T : number) (mappings : list Mapping)
           (o : option Mapping) : Prop :=
  match o with
  | None => Forall (fun m => mapped_before T m = false) mappings
  | Some b =>
      exists l1 l2,
        mappings = l1 ++ b :: l2 /\ mapped_before T b = true
        /\ Forall (fun m => mapped_before T m = true ->
                            lt_number (target_time m) (target_time b) = true) l1
        /\ Forall (fun m => mapped_before T m = true ->
                            lt_number (target_time b) (target_time m) = false) l2
  end.

(** The mapping whose target starts earliest after time [T], likewise. *)
Definition earliest_after (T : number) (mappings : list Mapping)
           (o : option Mapping) : Prop :=
  match o with
  | None => Forall (fun m => mapped_after T m = false) mappings
  | Some a =>
      exists l1 l2,
        mappings = l1 ++ a :: l2 /\ mapped_after T a = true
        /\ Forall (fun m => mapped_after T m = true ->
                            lt_number (target_time a) (target_time m) = true) l1
        /\ Forall (fun m => mapped_after T m = true ->
                            lt_number (target_time m) (target_time a) = false) l2
  end.

(** The values of the options a gap conflict offers, for the neighbours
    it found. *)
Definition gap_option_values (nb na : option Mapping) : list value :=
  match nb with Some b => [read (m_proposedPrice b)] | None => [] end
  ++ match na with Some a => [read (m_proposedPrice a)] | None => [] end
  ++ match nb, na with Some _, Some _ => [Str "interpolate"] | _, _ => [] end
  ++ [Str "custom"].

(** The conflict [c] after the caller has resolved it with [res]. *)
Definition resolve_with (res : Resolution) (c : Conflict) : Conflict :=
  {| body := body c; description := description c; options := options c;
     resolved := true; resolution := Some res |}.

(** The price a resolution of a gap stands for. *)
Definition chosen_price (res : Resolution) : value :=
  if bool_decide (r_value res = Str "interpolate")
  then read (r_interpolatedPrice res)
  else if bool_decide (r_value res = Str "custom")
  then read (r_customPrice res)
  else r_value res.

(** An enabled anchor with a date in both years. *)
Definition shown (a : Anchor) : bool :=
  a_enabled a && bool_decide (a_sourceDate a <> None)
  && bool_decide (a_targetDate a <> None).

(** The mean of two whole prices, halves rounded up. *)
Definition mean_price (a b : Z) : Z := (a + b + 1) / 2.

(** The object at [l] has the target key [targetKey]: it contributes to
    the collision on that key. *)
Definition contributes (h : heap) (targetKey : string) (l : loc) : bool :=
  bool_decide (key <$> target_at h l = Some targetKey).

(** The contributor at [l] is the one [sourceIndex] stands for: the first
    entry of the conflict with its [sourceRange] is at that index (-1
    when no entry has it). *)
Definition picked (h : heap) (entries : list CollisionEntry)
           (sourceIndex : Z) (l : loc) : bool :=
  sourceIndex
  =? findIndex (fun e => bool_decide (ce_sourceRange e
                                      = (h !! l ≫= m_sourceRange)))
               entries.

(** The backwards loop of a resolved collision over the locations
    [visit], the last location of the array first; [back] is the part of
    the array behind them as the loop has left it. *)
Fixpoint resolve_from_end (targetKey : string) (entries : list CollisionEntry)
         (res : Resolution) (visit : list loc)
         (st : heap * list loc * bool) : heap * list loc * bool :=
  match visit with
  | [] => st
  | l :: rest =>
      let '(h, back, kept) := st in
      let st' :=
        if bool_decide (key_at h l = Some targetKey) then
          match (if kept then None else r_sourceIndex res) with
          | Some sourceIndex =>
              if sourceIndex =?
                 findIndex (fun e => bool_decide
                              (ce_sourceRange e = sourceRange_at h l))
                           entries
              then (write_price l (r_value res) h, l :: back, true)
              else (h, back, kept)
          | None =>
              if bool_decide (r_value res = Str "custom")
              then (write_price l (read (r_customPrice res)) h, l :: back, true)
              else (h, l :: back, kept)
          end
        else (h, l :: back, kept) in
      resolve_from_end targetKey entries res rest st'
  end.

(* ================================================================== *)
(** * Properties                                                       *)
(* ================================================================== *)

Set Warnings "-inexact-float".

(** ** The calendar, and the loops that walk it *)

Lemma YearFromDay_spec (d : Z) :
  DayFromYear (YearFromDay d) <= d < DayFromYear (YearFromDay d + 1).
Proof.
  unfold YearFromDay.
  set (g := 1970 + 400 * d / 146097).
  assert (Hg : 146097 * (g - 1970) <= 400 * d < 146097 * (g - 1970) + 146097).
  { unfold g. Z.div_mod_to_equations. lia. }
  clearbody g.
  destruct (DayFromYear (g + 1) <=? d) eqn:E1;
    [apply Z.leb_le in E1 | apply Z.leb_gt in E1].
  - split; [exact E1|]. unfold DayFromYear in *. Z.div_mod_to_equations. lia.
  - destruct (d <? DayFromYear g) eqn:E2;
      [apply Z.ltb_lt in E2 | apply Z.ltb_ge in E2].
    + replace (g - 1 + 1) with g by lia. split; [|exact E2].
      unfold DayFromYear in *. Z.div_mod_to_equations. lia.
    + split; [exact E2|exact E1].
Qed.

Lemma DayFromYear_step (y : Z) :
  365 <= DayFromYear (y + 1) - DayFromYear y <= 366.
Proof. unfold DayFromYear. Z.div_mod_to_equations. lia. Qed.

Lemma DayFromYear_mono (a b : Z) : a <= b -> DayFromYear a <= DayFromYear b.
Proof. intros H. unfold DayFromYear. Z.div_mod_to_equations. lia. Qed.

(** A day on or after the first day of year [y + 1] is in a later year
    than [y]. *)
Lemma YearFromDay_after (y d : Z) :
  DayFromYear (y + 1) <= d -> y < YearFromDay d.
Proof.
  intros H. destruct (Z_lt_le_dec y (YearFromDay d)) as [Hlt|Hle]; [exact Hlt|].
  pose proof (YearFromDay_spec d) as [_ Hs].
  pose proof (DayFromYear_mono (YearFromDay d + 1) (y + 1) ltac:(lia)). lia.
Qed.

Lemma MonthFromDay_range (d : Z) : 0 <= MonthFromDay d <= 11.
Proof.
  unfold MonthFromDay.
  repeat match goal with
         | |- context [if ?b then _ else _] => destruct b
         end; lia.
Qed.

(** The calendar fields of a day, put back together with the date moved by
    [k], give the day moved by [k]. *)
Lemma MakeDay_fields (d k : Z) :
  MakeDay (YearFromDay d) (MonthFromDay d) (DateFromDay d + k) = d + k.
Proof.
  pose proof (MonthFromDay_range d) as Hm.
  unfold MakeDay, DateFromDay, DayWithinYear.
  rewrite Z.div_small, Z.mod_small, Z.add_0_r by lia. lia.
Qed.

Lemma Day_of_days (d : Z) : Day (d * msPerDay) = d.
Proof. unfold Day. apply Z.div_mul. discriminate. Qed.

Lemma addDays_valid (t k : Z) :
  addDays (ValidDate t) (Num k) = ValidDate (t + k * msPerDay).
Proof.
  unfold addDays. rewrite MakeDay_fields. f_equal.
  unfold Day, TimeWithinDay, msPerDay. Z.div_mod_to_equations. lia.
Qed.

Lemma Day_addDays (t k : Z) : Day (t + k * msPerDay) = Day t + k.
Proof. unfold Day. apply Z.div_add. discriminate. Qed.

(** Once the fuel exceeds the number of weeks left before the next year,
    more fuel changes nothing: the loop stops at its own test. *)
Lemma weeks_loop_fuel (year : Z) (n : nat) :
  forall (f : nat) (t : Z),
    DayFromYear (year + 1) - Day t <= 7 * Z.of_nat n -> (n < f)%nat ->
    weeks_loop f year (ValidDate t) = weeks_loop (S n) year (ValidDate t).
Proof.
  induction n as [|n IH]; intros f t Hd Hf;
    (destruct f as [|f]; [lia|]); cbn [weeks_loop getFullYear].
  - pose proof (YearFromDay_after year (Day t) ltac:(lia)) as Hy.
    destruct (YearFromDay (Day t) <=? year) eqn:E; [|reflexivity].
    apply Z.leb_le in E. lia.
  - destruct (YearFromDay (Day t) <=? year); [|reflexivity].
    rewrite addDays_valid.
    rewrite (IH f (t + 7 * msPerDay));
      [reflexivity | rewrite Day_addDays; lia | lia].
Qed.

Lemma MakeDay_January_first (y : Z) : MakeDay y 0 1 = DayFromYear y.
Proof.
  unfold MakeDay. change (0 / 12) with 0. change (0 mod 12) with 0.
  unfold DaysBeforeMonth. change (0 <=? 0) with true. cbv iota.
  rewrite !Z.add_0_r. lia.
Qed.

Theorem generateWeeksForYear_enough_fuel (fuel : nat) (year weekStartDay : Z) :
  (55 <= fuel)%nat ->
  generateWeeksForYear_fuel fuel year weekStartDay
  = generateWeeksForYear year weekStartDay.
Proof.
  intros Hf. unfold generateWeeksForYear, generateWeeksForYear_fuel, new_Date.
  set (y := full_year year).
  assert (Hy : year <= y).
  { unfold y, full_year. destruct ((0 <=? year) && (year <=? 99)) eqn:E; [|lia].
    apply andb_true_iff in E as [E _]. apply Z.leb_le in E. lia. }
  clearbody y. cbn [getDay]. rewrite addDays_valid.
  rewrite MakeDay_January_first, Day_of_days.
  set (dts := Z.rem (WeekDay (DayFromYear y) - weekStartDay + 7) 7).
  assert (Hd : -7 < dts < 7).
  { pose proof (Z.rem_bound_abs (WeekDay (DayFromYear y) - weekStartDay + 7) 7
                  ltac:(lia)). unfold dts. lia. }
  clearbody dts.
  assert (Hn : DayFromYear (year + 1)
               - Day (DayFromYear y * msPerDay + - dts * msPerDay)
               <= 7 * Z.of_nat 54).
  { rewrite Day_addDays, Day_of_days.
    pose proof (DayFromYear_step year).
    pose proof (DayFromYear_mono year y Hy). lia. }
  rewrite (weeks_loop_fuel year 54 fuel _ Hn) by lia.
  rewrite (weeks_loop_fuel year 54 60 _ Hn) by lia.
  reflexivity.
Qed.

(** The backwards scan for the last weekday of a month stops within seven
    steps, on the wanted weekday. *)
Lemma MakeDay_pred (y m date : Z) : MakeDay y m (date - 1) = MakeDay y m date - 1.
Proof. unfold MakeDay. lia. Qed.

Lemma scan_back_finds (year month weekday : Z) (n : nat) :
  0 <= weekday <= 6 ->
  forall (f : nat) (date : Z),
    (WeekDay (MakeDay (full_year year) month date) - weekday) mod 7 = Z.of_nat n ->
    (n < f)%nat ->
    scan_back f year month date weekday = date - Z.of_nat n.
Proof.
  intros Hw. induction n as [|n IH]; intros f date Hn Hf;
    (destruct f as [|f]; [lia|]);
    cbn [scan_back new_Date getDay]; rewrite Day_of_days.
  - destruct (Z.eqb_spec (WeekDay (MakeDay (full_year year) month date)) weekday)
      as [E|E]; [lia|].
    exfalso. unfold WeekDay in *. Z.div_mod_to_equations. lia.
  - destruct (Z.eqb_spec (WeekDay (MakeDay (full_year year) month date)) weekday)
      as [E|E].
    + exfalso. rewrite E, Z.sub_diag in Hn. change (0 mod 7) with 0 in Hn. lia.
    + rewrite (IH f (date - 1)); [lia| |lia].
      rewrite MakeDay_pred. unfold WeekDay in *. Z.div_mod_to_equations. lia.
Qed.

Theorem scan_back_enough_fuel (fuel : nat) (year month date weekday : Z) :
  0 <= weekday <= 6 -> (7 <= fuel)%nat ->
  scan_back fuel year month date weekday = scan_back 7 year month date weekday
  /\ getDay (new_Date (Num year) (Num month)
                      (Num (scan_back 7 year month date weekday)))
     = Num weekday.
Proof.
  intros Hw Hf.
  set (r := (WeekDay (MakeDay (full_year year) month date) - weekday) mod 7).
  assert (Hr : 0 <= r < 7) by (apply Z.mod_pos_bound; lia).
  assert (En : r = Z.of_nat (Z.to_nat r)) by lia.
  rewrite (scan_back_finds year month weekday (Z.to_nat r) Hw fuel date)
    by (fold r; lia).
  rewrite (scan_back_finds year month weekday (Z.to_nat r) Hw 7 date)
    by (fold r; lia).
  split; [reflexivity|].
  cbn [new_Date getDay]. rewrite Day_of_days. f_equal.
  rewrite <- En. unfold r, MakeDay, WeekDay. Z.div_mod_to_equations. lia.
Qed.

(** ** Agreement with the repository's tests of the holiday module *)

Lemma holidays_test_suite :
  map (fun e => (fst e, ymd_of (h_date (snd e)))) (getHolidaysForYear 2026)
  = [("newYearsDay", (Num 2026, Num 0, Num 1, Num 4));
     ("memorialDay", (Num 2026, Num 4, Num 25, Num 1));
     ("july4th", (Num 2026, Num 6, Num 4, Num 6));
     ("laborDay", (Num 2026, Num 8, Num 7, Num 1));
     ("thanksgiving", (Num 2026, Num 10, Num 26, Num 4));
     ("christmas", (Num 2026, Num 11, Num 25, Num 5))]%string
  /\ ymd_of (dict_get "memorialDay" (getHolidaysForYear 2027) ≫= h_date)
     = (Num 2027, Num 4, Num 31, Num 1)
  /\ ymd_of (dict_get "laborDay" (getHolidaysForYear 2027) ≫= h_date)
     = (Num 2027, Num 8, Num 6, Num 1)
  /\ ymd_of (dict_get "thanksgiving" (getHolidaysForYear 2027) ≫= h_date)
     = (Num 2027, Num 10, Num 25, Num 4)
  /\ ymd_of (dict_get "memorialDay" (getHolidaysForYear 2024) ≫= h_date)
     = (Num 2024, Num 4, Num 27, Num 1)
  /\ ymd_of (dict_get "laborDay" (getHolidaysForYear 2025) ≫= h_date)
     = (Num 2025, Num 8, Num 1, Num 1)
  /\ ymd_of (dict_get "thanksgiving" (getHolidaysForYear 2029) ≫= h_date)
     = (Num 2029, Num 10, Num 22, Num 4)
  /\ (let week := getWeekContainingDate
                    (Some (new_Date (Num 2026) (Num 6) (Num 7))) 6 in
      (weekKey (span_start week), formatWeekRange (span_start week) (span_end week))
      = ("2026-07-04", "Jul 4 - Jul 11")%string)
  /\ (let week := getWeekContainingDate
                    (Some (new_Date (Num 2026) (Num 6) (Num 4))) 0 in
      ymd_of (Some (span_start week)) = (Num 2026, Num 5, Num 28, Num 0))
  /\ relationship_of 2026 6 4 (getHolidaysForYear 2026)
     = Some ("July 4th", 0, "July 4th week")%string
  /\ relationship_of 2026 5 27 (getHolidaysForYear 2026)
     = Some ("July 4th", -1, "1 week before July 4th")%string
  /\ relationship_of 2026 6 11 (getHolidaysForYear 2026)
     = Some ("July 4th", 1, "1 week after July 4th")%string
  /\ relationship_of 2026 4 11 (getHolidaysForYear 2026)
     = Some ("Memorial Day", -2, "2 weeks before Memorial Day")%string
  /\ weekKey (new_Date (Num 2026) (Num 0) (Num 5)) = "2026-01-05"%string
  /\ ymd_of (Some (parseWeekKey "2026-07-04")) = (Num 2026, Num 6, Num 4, Num 6)
  /\ length (generateWeeksForYear 2026 6) = 52%nat.
Proof.
  split; [vm_compute; reflexivity|].
  split; [vm_compute; reflexivity|].
  split; [vm_compute; reflexivity|].
  split; [vm_compute; reflexivity|].
  split; [vm_compute; reflexivity|].
  split; [vm_compute; reflexivity|].
  split; [vm_compute; reflexivity|].
  split; [vm_compute; reflexivity|].
  split; [vm_compute; reflexivity|].
  split; [vm_compute; reflexivity|].
  split; [vm_compute; reflexivity|].
  split; [vm_compute; reflexivity|].
  split; [vm_compute; reflexivity|].
  split; [vm_compute; reflexivity|].
  split; vm_compute; reflexivity.
Qed.

(** ** Commission gross-up *)

Lemma SFcompare_flip x y :
  SFcompare y x = option_map CompOpp (SFcompare x y).
Proof.
  destruct x as [[]|[]| |[] mx ex], y as [[]|[]| |[] my ey];
    simpl; try reflexivity.
  all: rewrite (Z.compare_antisym ex ey); destruct (Z.compare ex ey);
    simpl; try reflexivity.
  all: change (Pos.compare_cont Eq my mx) with (Pos.compare my mx);
    change (Pos.compare_cont Eq mx my) with (Pos.compare mx my);
    rewrite (Pos.compare_antisym mx my); destruct (Pos.compare mx my);
    reflexivity.
Qed.

Lemma float_lt_not_ge (x y : float) :
  PrimFloat.ltb x y = true -> PrimFloat.leb y x = false.
Proof.
  rewrite ltb_spec, leb_spec. unfold SFltb, SFleb.
  rewrite (SFcompare_flip (Prim2SF x)).
  destruct (SFcompare (Prim2SF x) (Prim2SF y)) as [[]|]; simpl; congruence.
Qed.

(** [Math_ceil] is the ceiling of the number its argument stands for. *)
Lemma Math_ceil_ceiling (x : float) (s : bool) (m : positive) (e : Z) :
  Prim2SF x = S754_finite s m e ->
  Calculations.Math_ceil x = Calculations.float_of_Z s (Qceiling (exact x)).
Proof.
  intros E. unfold Calculations.Math_ceil, exact. rewrite E. f_equal.
  unfold SF2Q. destruct (0 <=? e) eqn:He.
  - apply Z.leb_le in He. rewrite Qceiling_Z, Z.shiftl_mul_pow2 by lia.
    destruct s; simpl; lia.
  - apply Z.leb_gt in He.
    change (Qceiling (cond_Zopp s (Z.pos m) # Z.to_pos (2 ^ (- e))))
      with (- (- cond_Zopp s (Z.pos m) / Z.pos (Z.to_pos (2 ^ (- e))))).
    f_equal.
    rewrite <- (Z.opp_involutive e) at 1.
    rewrite Z.shiftl_opp_r, Z.shiftr_div_pow2 by lia.
    rewrite Z2Pos.id by (apply Z.pow_pos_nonneg; lia).
    destruct s; reflexivity.
Qed.

(** [Math_ceil] on the quotients of the test suite, on integers, on
    fractions of either sign and on the largest fraction. *)
Lemma Math_ceil_samples :
  Calculations.Math_ceil (3500 / (1 - 0.155))%float = 4143%float
  /\ Calculations.Math_ceil (3000 / (1 - 0.08))%float = 3261%float
  /\ Calculations.Math_ceil (3000 / (1 - 0.15))%float = 3530%float
  /\ Calculations.Math_ceil 3000%float = 3000%float
  /\ Calculations.Math_ceil (-1.5)%float = (-1)%float
  /\ Calculations.Math_ceil 0.25%float = 1%float
  /\ Calculations.Math_ceil (-0.25)%float = (-0)%float
  /\ Calculations.Math_ceil 4503599627370495.5%float = 4503599627370496%float
  /\ Calculations.Math_ceil 9007199254740992%float = 9007199254740992%float
  /\ PrimFloat.ltb 4142 (3500 / (1 - 0.155))%float = true.
Proof. repeat split; vm_compute; reflexivity. Qed.

(** C3 fails on the code.  [calculateListPrice] returns the net price for
    a rate of 1 or more and otherwise the ceiling of a binary64 quotient:
    the difference [1 - rate] is rounded, and so is the quotient.  On
    the inputs of the scenario the result is the one of the formula.  But a
    net price of 2800 at a rate of 0.3 asks for 4000 exactly, whether
    0.3 is read as three tenths or as the binary64 number nearest to it;
    the rounded quotient lies above 4000 and the code returns 4001.
    Likewise 465 at 0.07 asks for 500 and 3807 at 0.06 for 4050. *)
Theorem calculateListPrice_rounds_the_quotient
        (netPrice rate highRate : float) (s : bool) (m : positive) (e : Z) :
  PrimFloat.ltb rate 1 = true ->
  PrimFloat.leb 1 highRate = true ->
  Prim2SF (netPrice / (1 - rate))%float = S754_finite s m e ->
  Calculations.calculateListPrice netPrice rate
    = Calculations.float_of_Z s (Qceiling (exact (netPrice / (1 - rate))%float))
  /\ Calculations.calculateListPrice netPrice highRate = netPrice
  /\ Calculations.calculateListPrice 3500 0.155 = 4143%float
  /\ Qceiling (3500 / (1 - (155 # 1000)))%Q = 4143
  /\ Calculations.calculateListPrice 3000 0 = 3000%float
  /\ (Calculations.calculateListPrice 2800 0.3 = 4001%float
      /\ Qceiling (2800 / (1 - (3 # 10)))%Q = 4000
      /\ Qceiling (exact 2800 / (1 - exact 0.3))%Q = 4000
      /\ (4000 < exact (2800 / (1 - 0.3))%float)%Q)
  /\ (Calculations.calculateListPrice 465 0.07 = 501%float
      /\ Qceiling (465 / (1 - (7 # 100)))%Q = 500)
  /\ (Calculations.calculateListPrice 3807 0.06 = 4051%float
      /\ Qceiling (3807 / (1 - (6 # 100)))%Q = 4050
      /\ Qceiling (exact 3807 / (1 - exact 0.06))%Q = 4050).
Proof.
  intros Hlt Hge E. unfold Calculations.calculateListPrice at 1 2.
  rewrite (float_lt_not_ge _ _ Hlt), Hge.
  split; [exact (Math_ceil_ceiling _ s m e E)|].
  split; [reflexivity|].
  repeat split; vm_compute; reflexivity.
Qed.

Lemma calculateListPrice_rounds_the_quotient_witness :
  PrimFloat.ltb 0.155 1 = true /\ PrimFloat.leb 1 1.5 = true
  /\ Prim2SF (3500 / (1 - 0.155))%float
     = S754_finite false 4554190174220118 (-40)
  /\ Calculations.calculateListPrice 3500 0.155
     = Calculations.float_of_Z false
         (Qceiling (exact (3500 / (1 - 0.155))%float))
  /\ Calculations.calculateListPrice 3500 1.5 = 3500%float.
Proof.
  split; [reflexivity|]. split; [reflexivity|].
  split; [vm_compute; reflexivity|].
  pose proof (calculateListPrice_rounds_the_quotient
                3500 0.155 1.5 false 4554190174220118 (-40)
                eq_refl eq_refl eq_refl) as H.
  split; [exact (proj1 H) | exact (proj1 (proj2 H))].
Defined.

(** ** Resolution of a collision: the contributors that survive *)

(** C1 fails on the code.  [weekA] and [weekB] collide on 2027-09-06 and
    [detectConflicts] reports the collision with one "use this price"
    option per contributor.  When the caller picks the second option, the
    backwards loop keeps [weekB] first and then no longer removes
    [weekA]: both come back with the same target key.  A custom price
    given without [sourceIndex] is written to both and removes none; given
    with the [sourceIndex: -1] of the custom option it removes both. *)
Theorem applyResolutions_collision_survivors (engine : Engine) :
  (exists rest,
      detectConflicts engine [Examples.weekA; Examples.weekB] 2027 6
      = Ok ({| body := body (Examples.collisionAB Examples.use_second);
               description := description (Examples.collisionAB Examples.use_second);
               options := options (Examples.collisionAB Examples.use_second);
               resolved := false; resolution := None |} :: rest))
  /\ Examples.use_second
     = Examples.choose
         {| o_label := "Use Aug 29 - Sep 5 price ($3,200)"; o_value := Str "$3,200";
            o_sourceIndex := Some 1; o_interpolatedPrice := None |} None
  /\ (let '(h, out) :=
        applyResolutions engine [Examples.weekA; Examples.weekB] [0; 1]%nat
                         [Examples.collisionAB Examples.use_second] in
      map target_key (contents h out)
      = [Some "2027-09-06"; Some "2027-09-06"]
      /\ map m_sourceRange (contents h out)
         = [Some "Aug 22 - Aug 29"; Some "Aug 29 - Sep 5"])
  /\ (let '(h, out) :=
        applyResolutions engine [Examples.weekA; Examples.weekB] [0; 1]%nat
                         [Examples.collisionAB Examples.use_custom] in
      map target_key (contents h out)
      = [Some "2027-09-06"; Some "2027-09-06"]
      /\ map m_proposedPrice (contents h out)
         = [Some (Str "$3,300"); Some (Str "$3,300")])
  /\ (let '(h, out) :=
        applyResolutions engine [Examples.weekA; Examples.weekB] [0; 1]%nat
          [Examples.collisionAB
             (Examples.choose custom_collision_option (Some (Str "$3,300")))] in
      contents h out = [])
  /\ (let '(h, out) :=
        applyResolutions engine [Examples.weekA; Examples.weekB] [0; 1]%nat
                         [Examples.collisionAB Examples.use_first] in
      map m_sourceRange (contents h out) = [Some "Aug 22 - Aug 29"]).
Proof.
  split.
  { eexists. vm_compute. reflexivity. }
  repeat split; vm_compute; reflexivity.
Qed.

(** ** The final sort *)

Section SortFacts.
Context {A : Type} (time : A -> number).

Lemma insert_sorted_perm (x : A) (l : list A) :
  Permutation (insert_sorted time x l) (x :: l).
Proof.
  induction l as [|y l IH]; simpl; [reflexivity|].
  destruct (after time x y); [|reflexivity].
  rewrite IH. apply perm_swap.
Qed.

Lemma stable_sort_perm (l : list A) : Permutation (stable_sort time l) l.
Proof.
  induction l as [|x l IH]; simpl; [reflexivity|].
  rewrite insert_sorted_perm. now constructor.
Qed.

Lemma insert_sorted_sorted (x : A) (l : list A) :
  time x <> NaN -> Forall (fun a => time a <> NaN) l ->
  StronglySorted (time_le time) l -> StronglySorted (time_le time) (insert_sorted time x l).
Proof.
  intros Hx Hl Hs. induction Hs as [|y l Hs IH Hy]; simpl.
  - repeat constructor.
  - inversion Hl as [|? ? Hyn Hl']; subst.
    unfold after. destruct (time x) as [tx|] eqn:Ex; [|congruence].
    destruct (time y) as [ty|] eqn:Ey; [|congruence].
    destruct (ty <? tx) eqn:Hlt.
    + constructor; [now apply IH|].
      eapply Permutation_Forall; [symmetry; apply insert_sorted_perm|].
      constructor; [|exact Hy].
      unfold time_le. rewrite Ex, Ey. lia.
    + constructor; [now constructor|].
      constructor.
      * unfold time_le. rewrite Ex, Ey. lia.
      * eapply Forall_impl; [exact Hy|]. intros a Ha. simpl in Ha.
        unfold time_le in *. rewrite Ex. rewrite Ey in Ha.
        destruct (time a); [lia|exact Ha].
Qed.

Lemma stable_sort_sorted (l : list A) :
  Forall (fun a => time a <> NaN) l ->
  StronglySorted (time_le time) (stable_sort time l).
Proof.
  induction 1 as [|x l Hx Hl IH]; simpl; [constructor|].
  apply insert_sorted_sorted; [exact Hx| |exact IH].
  eapply Permutation_Forall; [symmetry; apply stable_sort_perm|exact Hl].
Qed.

(** The sort is stable: elements with one time value keep their order. *)
Lemma insert_sorted_stable (p : A -> bool) (x : A) (l : list A) :
  (forall y, p x = true -> p y = true -> after time x y = false) ->
  List.filter p (insert_sorted time x l) = List.filter p (x :: l).
Proof.
  intros Hp. induction l as [|y l IH]; [reflexivity|].
  simpl. destruct (after time x y) eqn:Ha; [|reflexivity].
  simpl in *. rewrite IH.
  destruct (p x) eqn:Hx, (p y) eqn:Hy; try reflexivity.
  rewrite (Hp y eq_refl Hy) in Ha. discriminate.
Qed.

Lemma stable_sort_stable (t : Z) (l : list A) :
  let same a := match time a with Num x => x =? t | NaN => false end in
  List.filter same (stable_sort time l) = List.filter same l.
Proof.
  intros same. induction l as [|x l IH]; [reflexivity|].
  simpl stable_sort. rewrite insert_sorted_stable.
  - simpl. now rewrite IH.
  - intros y Hx Hy. unfold same, after in *.
    destruct (time x), (time y); try discriminate. lia.
Qed.

(** No engine is consulted on time values that are all numbers. *)
Lemma sort_by_numbers (engine : Engine) (l : list A) :
  Forall (fun a => time a <> NaN) l ->
  sort_by engine time l = stable_sort time l.
Proof.
  intros H. unfold sort_by, consistent.
  replace (forallb (fun a => negb (isNaN (time a))) l) with true; [reflexivity|].
  symmetry. apply forallb_forall. rewrite List.Forall_forall in H.
  intros a Ha. specialize (H a Ha). now destruct (time a).
Qed.

End SortFacts.

Lemma StronglySorted_weaken {A : Type} (R R' : A -> A -> Prop) (l : list A) :
  (forall a b, a ∈ l -> b ∈ l -> R a b -> R' a b) ->
  StronglySorted R l -> StronglySorted R' l.
Proof.
  intros HR Hs. induction Hs as [|x l Hs IH Hx]; constructor.
  - apply IH. intros a b Ha Hb. apply HR; now right.
  - rewrite List.Forall_forall in *. intros b Hb.
    apply HR; [left|right; now apply list_elem_of_In|now apply Hx].
Qed.

(** ** Resolution with nothing resolved *)

Lemma apply_conflict_unresolved (st : ApplyState) (c : Conflict) :
  resolved c = false -> apply_conflict st c = st.
Proof. intros H. unfold apply_conflict. now rewrite H. Qed.

Lemma fold_apply_unresolved (conflicts : list Conflict) (st : ApplyState) :
  Forall (fun c => resolved c = false) conflicts ->
  fold_left apply_conflict conflicts st = st.
Proof.
  intros H. revert st. induction H as [|c cs Hc _ IH]; intros st; simpl.
  - reflexivity.
  - now rewrite apply_conflict_unresolved, IH.
Qed.

Lemma time_at_start_at (h : heap) (l : loc) (x : Z) :
  time_at h l = Num x <-> start_at h l = Some x.
Proof.
  unfold time_at, start_at, target_at, target_time.
  destruct (h !! l) as [m|]; simpl; [|split; discriminate].
  destruct (m_target m) as [t|]; [|split; discriminate].
  destruct (start t); simpl; split; congruence.
Qed.

Lemma has_target_at_target_at (h : heap) (l : loc) :
  has_target_at h l = bool_decide (is_Some (target_at h l)).
Proof.
  unfold has_target_at, target_at, has_target.
  destruct (h !! l) as [m|]; simpl; [|reflexivity].
  destruct (m_target m); reflexivity.
Qed.

Lemma filter_time_has_target (h : heap) (t : Z) (mappings : list loc) :
  let same l := match time_at h l with Num x => x =? t | NaN => false end in
  List.filter same (List.filter (has_target_at h) mappings)
  = List.filter same mappings.
Proof.
  intros same. induction mappings as [|l ls IH]; [reflexivity|]. simpl.
  destruct (has_target_at h l) eqn:Ht; simpl; rewrite IH; [reflexivity|].
  replace (same l) with false; [reflexivity|].
  unfold same, has_target_at, time_at, target_time, has_target in *.
  destruct (h !! l) as [m|]; [|reflexivity].
  destruct (m_target m); [discriminate|reflexivity].
Qed.

(** C9. With no resolved conflict, [applyResolutions] changes no mapping
    object: no price changes.  Where every target of an input mapping
    starts on a valid date, the returned array holds exactly the input
    mappings that have a target, none added and none removed, in ascending
    order of target start, those of one start in their input order. *)
Theorem applyResolutions_unresolved_inert (engine : Engine)
        (h : heap) (mappings : list loc) (conflicts : list Conflict) :
  Forall (fun c => resolved c = false) conflicts ->
  fst (applyResolutions engine h mappings conflicts) = h
  /\ ((forall l t, l ∈ mappings -> target_at h l = Some t ->
                   start t <> InvalidDate) ->
      Permutation (snd (applyResolutions engine h mappings conflicts))
                  (List.filter (fun l => bool_decide (is_Some (target_at h l)))
                               mappings)
      /\ StronglySorted
           (fun a b => exists x y,
                start_at h a = Some x /\ start_at h b = Some y /\ x <= y)
           (snd (applyResolutions engine h mappings conflicts))
      /\ forall t,
           List.filter (fun l => bool_decide (start_at h l = Some t))
                       (snd (applyResolutions engine h mappings conflicts))
           = List.filter (fun l => bool_decide (start_at h l = Some t))
                         mappings).
Proof.
  intros H.
  assert (E : applyResolutions engine h mappings conflicts
              = (h, sort_by engine (time_at h)
                            (List.filter (has_target_at h) mappings))).
  { unfold applyResolutions. rewrite (fold_apply_unresolved _ _ H). simpl.
    now rewrite !app_nil_r. }
  rewrite E. simpl. split; [reflexivity|]. intros Hv.
  assert (Hn : Forall (fun l => time_at h l <> NaN)
                      (List.filter (has_target_at h) mappings)).
  { apply List.Forall_forall. intros l Hl. apply filter_In in Hl as [Hl Ht].
    apply list_elem_of_In in Hl.
    rewrite has_target_at_target_at in Ht. apply bool_decide_eq_true_1 in Ht.
    destruct Ht as [t Ht]. specialize (Hv l t Hl Ht).
    unfold time_at, target_time. unfold target_at in Ht.
    destruct (h !! l) as [m|]; [|discriminate]. simpl in Ht. rewrite Ht.
    destruct (start t); [discriminate|congruence]. }
  rewrite (sort_by_numbers _ _ _ Hn).
  split; [|split].
  - rewrite stable_sort_perm.
    erewrite filter_ext; [reflexivity|].
    intros l. apply has_target_at_target_at.
  - eapply StronglySorted_weaken; [|apply stable_sort_sorted, Hn].
    intros a b _ _. unfold time_le.
    destruct (time_at h a) as [x|] eqn:Ea; [|tauto].
    destruct (time_at h b) as [y|] eqn:Eb; [|tauto].
    intros Hle. exists x, y.
    now rewrite <- !time_at_start_at.
  - intros t.
    assert (Hs : forall l, bool_decide (start_at h l = Some t)
                           = match time_at h l with
                             | Num x => x =? t
                             | NaN => false
                             end).
    { intros l. destruct (time_at h l) as [x|] eqn:El.
      - apply time_at_start_at in El. rewrite El.
        destruct (x =? t) eqn:Ex.
        + apply Z.eqb_eq in Ex. subst. now apply bool_decide_eq_true_2.
        + apply Z.eqb_neq in Ex. apply bool_decide_eq_false_2. congruence.
      - apply bool_decide_eq_false_2. intros Hc.
        apply time_at_start_at in Hc. congruence. }
    rewrite !(filter_ext _ _ Hs).
    rewrite (stable_sort_stable (time_at h) t).
    apply filter_time_has_target.
Qed.

Lemma applyResolutions_unresolved_inert_witness :
  let h := [Examples.mapping_to "2027-08-01" "Aug 1 - Aug 8" "$3,200";
            Examples.unanchored;
            Examples.mapping_to "2027-07-01" "Jul 1 - Jul 8" "$3,000"] in
  let conflicts :=
    [ {| body := Collision "2027-08-01" None []; description := "";
         options := []; resolved := false; resolution := None |} ] in
  let result := applyResolutions Examples.idle_engine h [0; 1; 2]%nat conflicts in
  Forall (fun c => resolved c = false) conflicts
  /\ (forall l t, l ∈ [0; 1; 2]%nat -> target_at h l = Some t ->
                  start t <> InvalidDate)
  /\ fst result = h
  /\ Permutation (snd result)
                 (List.filter (fun l => bool_decide (is_Some (target_at h l)))
                              [0; 1; 2]%nat)
  /\ StronglySorted
       (fun a b => exists x y,
            start_at h a = Some x /\ start_at h b = Some y /\ x <= y)
       (snd result)
  /\ snd result = [2; 0]%nat.
Proof.
  intros h conflicts result.
  assert (H1 : Forall (fun c => resolved c = false) conflicts)
    by (repeat constructor).
  assert (H2 : forall l t, l ∈ [0; 1; 2]%nat -> target_at h l = Some t ->
                           start t <> InvalidDate).
  { intros l t Hl Ht.
    assert (Hc : l = 0%nat \/ l = 1%nat \/ l = 2%nat).
    { apply list_elem_of_In in Hl. simpl in Hl. intuition. }
    destruct Hc as [-> | [-> | ->]]; vm_compute in Ht; inversion Ht;
      discriminate. }
  destruct (applyResolutions_unresolved_inert Examples.idle_engine h
              [0; 1; 2]%nat conflicts H1) as (E & Hr).
  destruct (Hr H2) as (P & S & _).
  split; [exact H1|]. split; [exact H2|]. split; [exact E|].
  split; [exact P|]. split; [exact S|]. vm_compute. reflexivity.
Defined.

(** ** What [applyResolutions] writes to the caller's objects *)

Lemma with_price_unchanged (p : option value) (m : Mapping) :
  unchanged_but_price m (with_price p m).
Proof. repeat split. Qed.

Lemma with_price_same (m : Mapping) : with_price (m_proposedPrice m) m = m.
Proof. now destruct m. Qed.

Lemma with_price_twice (p q : option value) (m : Mapping) :
  with_price q (with_price p m) = with_price q m.
Proof. reflexivity. Qed.

Lemma frame_refl P (h : heap) : frame P h h.
Proof.
  split; [reflexivity|]. intros l m Hl. exists (m_proposedPrice m).
  rewrite with_price_same. split; [exact Hl|congruence].
Qed.

Lemma frame_trans P (h1 h2 h3 : heap) :
  frame P h1 h2 -> frame P h2 h3 -> frame P h1 h3.
Proof.
  intros [L12 F12] [L23 F23]. split; [congruence|].
  intros l m Hl. destruct (F12 l m Hl) as (p & Hp & Pp).
  destruct (F23 l _ Hp) as (q & Hq & Pq).
  exists q. rewrite with_price_twice in Hq. split; [exact Hq|].
  intros Hne. destruct (decide (q = p)) as [->|Hqp].
  - now apply Pp.
  - apply Pq. exact Hqp.
Qed.

Lemma frame_weaken (P Q : loc -> option string -> Prop) (h h' : heap) :
  (forall l k, P l k -> Q l k) -> frame P h h' -> frame Q h h'.
Proof.
  intros HPQ [L F]. split; [exact L|].
  intros l m Hl. destruct (F l m Hl) as (p & Hp & Pp).
  exists p. split; [exact Hp|]. intros Hne. apply HPQ, Pp, Hne.
Qed.

Lemma write_price_frame (P : loc -> option string -> Prop)
      (l : loc) (v : value) (h : heap) :
  P l (key_at h l) -> frame P h (write_price l v h).
Proof.
  intros HP. unfold write_price, key_at in *.
  destruct (h !! l) as [m|] eqn:Hl; [|apply frame_refl].
  split; [apply length_insert|].
  intros l' m' Hl'. destruct (decide (l' = l)) as [->|Hne].
  - rewrite Hl in Hl'. injection Hl' as <-.
    exists (Some v). split; [|intros _; exact HP].
    apply list_lookup_insert_eq. eapply lookup_lt_Some, Hl.
  - exists (m_proposedPrice m'). rewrite with_price_same.
    split; [|congruence].
    rewrite list_lookup_insert_ne by congruence. exact Hl'.
Qed.

Lemma key_at_frame P (h h' : heap) (l : loc) :
  frame P h h' -> key_at h' l = key_at h l.
Proof.
  intros [L F]. unfold key_at. destruct (h !! l) as [m|] eqn:Hl.
  - destruct (F l m Hl) as (p & -> & _). reflexivity.
  - apply lookup_ge_None in Hl.
    rewrite (proj2 (lookup_ge_None h' l)); [reflexivity|lia].
Qed.

(** One resolved collision touches only objects of the working array whose
    target key is the collided one, and only removes from the array. *)
Lemma collision_loop_frame (targetKey : string) (entries : list CollisionEntry)
      (res : Resolution) (i : nat) :
  forall h arr kept h' arr' kept',
    collision_loop targetKey entries res i (h, arr, kept) = (h', arr', kept') ->
    frame (fun l k => l ∈ arr /\ k = Some targetKey) h h'
    /\ (forall l, l ∈ arr' -> l ∈ arr).
Proof.
  induction i as [|i IH]; intros h arr kept h' arr' kept' E; simpl in E.
  - injection E as <- <- <-. split; [apply frame_refl|auto].
  - destruct (arr !! i) as [l|] eqn:Hi; [|now apply IH in E].
    assert (Hin : l ∈ arr) by (eapply list_elem_of_lookup_2, Hi).
    destruct (bool_decide (key_at h l = Some targetKey)) eqn:Hk;
      [apply bool_decide_eq_true in Hk | now apply IH in E].
    assert (W : forall v, frame (fun l k => l ∈ arr /\ k = Some targetKey)
                                h (write_price l v h))
      by (intros v; apply write_price_frame; auto).
    destruct (if kept then None else r_sourceIndex res) as [sourceIndex|].
    + destruct (sourceIndex =? _).
      * apply IH in E as [F S]. split; [|exact S].
        eapply frame_trans; [apply W|exact F].
      * apply IH in E as [F S]. split.
        -- eapply frame_weaken; [|exact F]. intros l0 k [Hl0 ->].
           split; [|reflexivity]. eapply list_elem_of_delete_inv, Hl0.
        -- intros l0 Hl0. apply S in Hl0.
           eapply list_elem_of_delete_inv, Hl0.
    + destruct (bool_decide (r_value res = Str "custom")).
      * apply IH in E as [F S]. split; [|exact S].
        eapply frame_trans; [apply W|exact F].
      * now apply IH in E.
Qed.

Lemma apply_conflict_frame (st : ApplyState) (c : Conflict) :
  frame (collided (st_resolved st) [c]) (st_heap st)
        (st_heap (apply_conflict st c))
  /\ (forall l, l ∈ st_resolved (apply_conflict st c) -> l ∈ st_resolved st).
Proof.
  unfold apply_conflict.
  destruct (resolved c) eqn:Hr; simpl; [|split; [apply frame_refl|auto]].
  destruct (resolution c) as [res|]; [|split; [apply frame_refl|auto]].
  destruct (body c) as [targetKey targetRange entries| |] eqn:Hb;
    simpl; try (split; [apply frame_refl|auto]).
  destruct (collision_loop _ _ _ _ _) as [[h' arr'] kept'] eqn:E.
  apply collision_loop_frame in E as [F S]. simpl. split; [|exact S].
  eapply frame_weaken; [|exact F]. intros l k [Hl ->].
  split; [exact Hl|]. exists c, targetKey, targetRange, entries.
  repeat split; auto. apply list_elem_of_singleton. reflexivity.
Qed.

Lemma fold_apply_frame (conflicts : list Conflict) (st : ApplyState) :
  frame (collided (st_resolved st) conflicts) (st_heap st)
        (st_heap (fold_left apply_conflict conflicts st))
  /\ (forall l, l ∈ st_resolved (fold_left apply_conflict conflicts st) ->
                l ∈ st_resolved st).
Proof.
  revert st. induction conflicts as [|c cs IH]; intros st; simpl.
  - split; [apply frame_refl|auto].
  - destruct (apply_conflict_frame st c) as [F1 S1].
    destruct (IH (apply_conflict st c)) as [F2 S2].
    split; [|auto].
    eapply frame_trans.
    + eapply frame_weaken; [|exact F1].
      intros l k (Hl & c' & tk & tr & es & Hc & Hres & Hb & Hk).
      split; [exact Hl|]. exists c', tk, tr, es.
      apply list_elem_of_singleton in Hc. subst c'.
      repeat split; auto. left.
    + eapply frame_weaken; [|exact F2].
      intros l k (Hl & c' & tk & tr & es & Hc & Hres & Hb & Hk).
      split; [auto|]. exists c', tk, tr, es.
      repeat split; auto. now right.
Qed.

(** C2 fails on the code: the custom resolution of the test suite writes
    the custom price into the caller's own mapping object. *)
Lemma applyResolutions_overwrites_input_price :
  let h := [Examples.weekA; Examples.weekB] in
  let h' := fst (applyResolutions Examples.idle_engine h [0; 1]%nat
                   [Examples.collisionAB Examples.use_custom]) in
  m_proposedPrice <$> h !! 0%nat = Some (Some (Str "$3,500"))
  /\ m_proposedPrice <$> h' !! 0%nat = Some (Some (Str "$3,300")).
Proof. split; vm_compute; reflexivity. Qed.

(** C2, as the code has it.  [applyResolutions] works on a copy of the
    array but on the caller's mapping objects: after the call every input
    object has all its properties other than [proposedPrice] as before,
    and its [proposedPrice] differs only if the object is in the input
    array and its target key is the target week of a resolved collision
    conflict. *)
Theorem applyResolutions_frame (engine : Engine)
        (h : heap) (mappings : list loc) (conflicts : list Conflict)
        (l : loc) (m : Mapping) :
  h !! l = Some m ->
  exists m',
    fst (applyResolutions engine h mappings conflicts) !! l = Some m'
    /\ unchanged_but_price m m'
    /\ (m_proposedPrice m' <> m_proposedPrice m ->
        l ∈ mappings
        /\ exists c targetKey targetRange entries,
             c ∈ conflicts /\ resolved c = true
             /\ body c = Collision targetKey targetRange entries
             /\ target_key m = Some targetKey).
Proof.
  intros Hl. unfold applyResolutions. simpl.
  destruct (fold_apply_frame conflicts
              {| st_heap := h; st_resolved := mappings; st_additional := [] |})
    as [[L F] _]. simpl in *.
  destruct (F l m Hl) as (p & Hp & HP).
  exists (with_price p m). split; [|split].
  - rewrite lookup_app_l; [exact Hp|]. eapply lookup_lt_Some, Hp.
  - apply with_price_unchanged.
  - simpl. intros Hne. exact (HP Hne).
Qed.

Lemma applyResolutions_frame_witness :
  [Examples.weekA; Examples.weekB] !! 0%nat = Some Examples.weekA
  /\ exists m',
       fst (applyResolutions Examples.idle_engine [Examples.weekA; Examples.weekB] [0; 1]%nat
              [Examples.collisionAB Examples.use_custom]) !! 0%nat = Some m'
       /\ unchanged_but_price Examples.weekA m'.
Proof.
  split; [reflexivity|].
  destruct (applyResolutions_frame Examples.idle_engine
              [Examples.weekA; Examples.weekB] [0; 1]%nat
              [Examples.collisionAB Examples.use_custom] 0%nat Examples.weekA
              eq_refl) as (m' & H1 & H2 & _).
  exists m'. split; [exact H1|exact H2].
Defined.

(** ** The week mapper *)

(** A row with a complete structured date, in [start] or in [startDate],
    is dated; so is every row the application builds. *)
Lemma dated_of_fields (sourceWeek : SourceWeek) (o : YMD) (y m d : Z) :
  sw_start sourceWeek = StartFields o ->
  nullish (year o) (year (sw_startDate sourceWeek)) = Some y ->
  nullish (month o) (month (sw_startDate sourceWeek)) = Some m ->
  nullish (day o) (day (sw_startDate sourceWeek)) = Some d ->
  dated sourceWeek.
Proof.
  intros Hs Hy Hm Hd. unfold dated, resolve_sourceStart.
  rewrite Hs, Hy, Hm, Hd. cbn [to_number new_Date]. eexists. reflexivity.
Qed.

Lemma new_Date_valid (y m d : Z) :
  exists t, new_Date (Num y) (Num m) (Num d) = ValidDate t.
Proof. unfold new_Date. eexists. reflexivity. Qed.

Lemma span_start_valid (date : option Date) (weekStartDay : Z) :
  date <> Some InvalidDate ->
  exists t, span_start (getWeekContainingDate date weekStartDay) = ValidDate t.
Proof.
  intros H. destruct date as [[t|]|]; [|congruence|];
    unfold getWeekContainingDate, Date_copy, getDay, addDays, setHours0;
    eexists; reflexivity.
Qed.

Lemma nearest_step_keeps (weekStart : Date) (weekStartDay : Z)
      (st : Nearest) (entry : string * Holiday) :
  nearestHoliday st <> None ->
  nearestHoliday (nearest_step weekStart weekStartDay st entry) <> None.
Proof.
  intros H. unfold nearest_step. destruct entry as [k hol].
  destruct (getTime weekStart); [|exact H].
  destruct (getTime _); [|exact H].
  destruct (match minDistance st with None => true | Some m => _ end);
    [discriminate|exact H].
Qed.

Lemma nearest_step_finds (t : Z) (weekStartDay : Z)
      (st : Nearest) (entry : string * Holiday) :
  minDistance st = None -> date_ok entry ->
  nearestHoliday (nearest_step (ValidDate t) weekStartDay st entry) <> None.
Proof.
  intros Hm Hok. unfold nearest_step. destruct entry as [k hol].
  destruct (span_start_valid (h_date hol) weekStartDay Hok) as [b ->].
  simpl. rewrite Hm. discriminate.
Qed.

Lemma fold_nearest_keeps (weekStart : Date) (weekStartDay : Z) (d : Dict) :
  forall st, nearestHoliday st <> None ->
    nearestHoliday (fold_left (nearest_step weekStart weekStartDay) d st) <> None.
Proof.
  induction d as [|e d IH]; intros st H; simpl; [exact H|].
  apply IH, nearest_step_keeps, H.
Qed.

Lemma getWeekHolidayRelationship_returns (t : Z) (holidays : Dict)
      (weekStartDay : Z) :
  dict_ok holidays ->
  exists rel,
    getWeekHolidayRelationship (ValidDate t) holidays weekStartDay = Ok rel.
Proof.
  intros [Hne Hok]. unfold getWeekHolidayRelationship.
  destruct holidays as [|e d]; [congruence|].
  inversion Hok as [|? ? He _]; subst. simpl fold_left.
  pose proof (fold_nearest_keeps (ValidDate t) weekStartDay d _
                (nearest_step_finds t weekStartDay
                   {| nearestHoliday := None; minDistance := None;
                      weeksAway := 0 |} e eq_refl He)) as H.
  destruct (nearestHoliday _) as [[k hol]|]; [|congruence].
  eexists. reflexivity.
Qed.

Lemma scan_forward_valid (days : list Z) (year month weekday n count : Z) (d : Date) :
  scan_forward days year month weekday n count = Some d -> d <> InvalidDate.
Proof.
  revert count. induction days as [|day days IH]; intros count;
    cbn [scan_forward]; [discriminate|].
  destruct (new_Date_valid year month day) as [t ->].
  cbn [getMonth getDay].
  destruct (negb (MonthFromDay (Day t) =? month)); [discriminate|].
  destruct (WeekDay (Day t) =? weekday).
  - destruct (count + 1 =? n); [|apply IH].
    intros [= <-]. discriminate.
  - apply IH.
Qed.

Lemma getNthWeekdayOfMonth_valid (year month weekday n : Z) :
  getNthWeekdayOfMonth year month weekday n <> Some InvalidDate.
Proof.
  unfold getNthWeekdayOfMonth. destruct (n =? -1).
  - unfold new_Date at 1. unfold getDate. discriminate.
  - intros H. now apply scan_forward_valid in H.
Qed.

Lemma getHolidaysForYear_ok (year : Z) : dict_ok (getHolidaysForYear year).
Proof.
  split; [discriminate|].
  unfold getHolidaysForYear.
  repeat (apply Forall_cons; split;
          [unfold date_ok; simpl;
           first [apply getNthWeekdayOfMonth_valid | discriminate]|]).
  constructor.
Qed.

Lemma dict_set_ok (k : string) (hol : Holiday) (d : Dict) :
  h_date hol <> Some InvalidDate -> Forall date_ok d ->
  dict_set k hol d <> [] /\ Forall date_ok (dict_set k hol d).
Proof.
  intros Hh Hd. induction Hd as [|[k' h'] d He Hd IH]; simpl.
  - split; [discriminate|]. repeat constructor. exact Hh.
  - destruct (String.eqb k k').
    + split; [discriminate|]. constructor; [exact Hh|exact Hd].
    + split; [discriminate|]. constructor; [exact He|apply IH].
Qed.

Lemma add_anchor_ok (dicts : Dict * Dict) (anchor : Anchor) :
  dict_ok (fst dicts) -> dict_ok (snd dicts) ->
  dict_ok (fst (add_anchor dicts anchor))
  /\ dict_ok (snd (add_anchor dicts anchor)).
Proof.
  destruct dicts as [src tgt]. intros [Hs1 Hs2] [Ht1 Ht2].
  unfold add_anchor. simpl.
  split.
  - destruct (a_sourceDate anchor); [|now split].
    apply dict_set_ok; [discriminate|exact Hs2].
  - destruct (a_targetDate anchor); [|now split].
    apply dict_set_ok; [discriminate|exact Ht2].
Qed.

Lemma all_holidays_ok (sourceYear targetYear : Z) (anchors : list Anchor) :
  dict_ok (fst (all_holidays sourceYear targetYear anchors))
  /\ dict_ok (snd (all_holidays sourceYear targetYear anchors)).
Proof.
  unfold all_holidays.
  generalize (List.filter a_enabled anchors) as enabled.
  assert (H0 : dict_ok (fst (getHolidaysForYear sourceYear,
                             getHolidaysForYear targetYear))
               /\ dict_ok (snd (getHolidaysForYear sourceYear,
                                getHolidaysForYear targetYear)))
    by (split; apply getHolidaysForYear_ok).
  revert H0.
  generalize (getHolidaysForYear sourceYear, getHolidaysForYear targetYear).
  intros dicts H0 enabled. revert dicts H0.
  induction enabled as [|a l IH]; intros dicts H0; simpl; [exact H0|].
  apply IH. now apply add_anchor_ok.
Qed.

Lemma mapWeek_emits (allSourceHolidays allTargetHolidays : Dict)
      (weekStartDay : Z) (sourceWeek : SourceWeek) :
  dict_ok allSourceHolidays -> dated sourceWeek ->
  exists m,
    mapWeek allSourceHolidays allTargetHolidays weekStartDay sourceWeek = Ok m.
Proof.
  intros Hd [t Ht].
  destruct (getWeekHolidayRelationship_returns t _ weekStartDay Hd) as [rel Hr].
  unfold mapWeek. rewrite Ht. simpl. rewrite Hr. simpl.
  destruct (dict_get _ allTargetHolidays); eexists; reflexivity.
Qed.

(** No holiday is nearest to the Invalid Date: every distance is [NaN]. *)
Lemma getWeekHolidayRelationship_invalid (holidays : Dict) (weekStartDay : Z) :
  getWeekHolidayRelationship InvalidDate holidays weekStartDay
  = Throw "TypeError: Cannot read properties of null (reading 'name')".
Proof.
  unfold getWeekHolidayRelationship.
  assert (F : forall st, fold_left (nearest_step InvalidDate weekStartDay)
                                   holidays st = st).
  { induction holidays as [|[k hol] d IH]; intros st; [reflexivity|].
    simpl fold_left. rewrite IH. reflexivity. }
  rewrite F. reflexivity.
Qed.

(** A mapping is returned only for a dated week, and is then the one
    described by [emitted]. *)
Lemma mapWeek_inv (allSourceHolidays allTargetHolidays : Dict)
      (weekStartDay : Z) (sourceWeek : SourceWeek) (m : Mapping) :
  mapWeek allSourceHolidays allTargetHolidays weekStartDay sourceWeek = Ok m ->
  dated sourceWeek
  /\ emitted allSourceHolidays allTargetHolidays weekStartDay sourceWeek m.
Proof.
  unfold mapWeek.
  destruct (resolve_sourceStart sourceWeek) as [ss|] eqn:Hs; simpl;
    [|discriminate].
  destruct (getWeekHolidayRelationship ss allSourceHolidays weekStartDay)
    as [rel|] eqn:Hr; simpl; [|discriminate].
  intros H. split.
  - destruct ss as [t|]; [now exists t|].
    rewrite getWeekHolidayRelationship_invalid in Hr. discriminate.
  - exists ss, rel. split; [exact Hs|]. split; [exact Hr|].
    destruct (dict_get _ allTargetHolidays); injection H as <-;
      simpl; unfold ownKeys; simpl; repeat split; eauto.
Qed.

Lemma mapM_Forall2 {A B} (f : A -> Exc B) (R : A -> B -> Prop) (l : list A) :
  Forall (fun x => exists y, f x = Ok y /\ R x y) l ->
  exists ys, mapM f l = Ok ys /\ Forall2 R l ys.
Proof.
  induction 1 as [|x l (y & Hy & HR) _ (ys & Hys & HF)]; simpl.
  - exists []. split; [reflexivity|constructor].
  - exists (y :: ys). rewrite Hy. simpl. rewrite Hys. simpl.
    split; [reflexivity|now constructor].
Qed.

Lemma mapM_inv {A B} (f : A -> Exc B) (l : list A) (ys : list B) :
  mapM f l = Ok ys -> Forall2 (fun x y => f x = Ok y) l ys.
Proof.
  revert ys. induction l as [|x l IH]; intros ys; simpl.
  - intros [= <-]. constructor.
  - destruct (f x) as [y|e] eqn:Ex; simpl; [|discriminate].
    destruct (mapM f l) as [ys'|e] eqn:El; simpl; [|discriminate].
    intros [= <-]. constructor; [exact Ex|now apply IH].
Qed.

(** The mapper returns on dated weeks. *)
Lemma mapWeeksByHolidays_returns (sourceWeeks : list SourceWeek)
      (sourceYear targetYear : Z) (anchors : list Anchor) (weekStartDay : Z) :
  Forall dated sourceWeeks ->
  exists mappings,
    mapWeeksByHolidays sourceWeeks sourceYear targetYear anchors weekStartDay
    = Ok mappings.
Proof.
  intros H. unfold mapWeeksByHolidays.
  pose proof (all_holidays_ok sourceYear targetYear anchors) as [Hs _].
  destruct (all_holidays sourceYear targetYear anchors) as [src tgt].
  simpl in *.
  destruct (mapM_Forall2 (mapWeek src tgt weekStartDay) (fun _ _ => True)
                         sourceWeeks) as (mappings & E & _); [|eauto].
  eapply Forall_impl; [exact H|]. intros sw Hsw.
  destruct (mapWeek_emits src tgt weekStartDay sw Hs Hsw) as [m Hm]. eauto.
Qed.

(** Whatever the mapper returns, it returns for dated weeks only, one
    mapping per week, each as described by [emitted]. *)
Lemma mapWeeksByHolidays_inv (sourceWeeks : list SourceWeek)
      (sourceYear targetYear : Z) (anchors : list Anchor) (weekStartDay : Z)
      (mappings : list Mapping) :
  mapWeeksByHolidays sourceWeeks sourceYear targetYear anchors weekStartDay
  = Ok mappings ->
  Forall dated sourceWeeks
  /\ Forall2 (emitted (fst (all_holidays sourceYear targetYear anchors))
                      (snd (all_holidays sourceYear targetYear anchors))
                      weekStartDay)
             sourceWeeks mappings.
Proof.
  unfold mapWeeksByHolidays.
  destruct (all_holidays sourceYear targetYear anchors) as [src tgt].
  cbn [fst snd]. intros H. apply mapM_inv in H.
  induction H as [|sw m sws ms Hm _ [IH1 IH2]]; [split; constructor|].
  apply mapWeek_inv in Hm as [Hd He].
  split; constructor; assumption.
Qed.

Lemma dict_get_set (k k' : string) (hol : Holiday) (d : Dict) :
  dict_get k (dict_set k' hol d)
  = if String.eqb k k' then Some hol else dict_get k d.
Proof.
  induction d as [|[k0 h0] d IH]; simpl.
  - reflexivity.
  - destruct (String.eqb k' k0) eqn:E0; simpl.
    + apply String.eqb_eq in E0. subst k0.
      destruct (String.eqb k k'); reflexivity.
    + destruct (String.eqb k k0) eqn:E1.
      * apply String.eqb_eq in E1. subst k0.
        destruct (String.eqb k k') eqn:E2; [|reflexivity].
        apply String.eqb_eq in E2. subst k'.
        rewrite String.eqb_refl in E0. discriminate.
      * exact IH.
Qed.

(** A key is missing from the target-year dictionary exactly when it is
    no standard holiday and no enabled anchor with that identifier has a
    target date. *)
Lemma target_dict_absent (k : string) (sourceYear targetYear : Z)
      (anchors : list Anchor) :
  dict_get k (snd (all_holidays sourceYear targetYear anchors)) = None
  <-> dict_get k (getHolidaysForYear targetYear) = None
      /\ forall a, In a anchors -> a_enabled a = true -> a_id a = k ->
                   a_targetDate a = None.
Proof.
  unfold all_holidays.
  assert (G : forall l dicts,
             dict_get k (snd (fold_left add_anchor l dicts)) = None
             <-> dict_get k (snd dicts) = None
                 /\ forall a, In a l -> a_id a = k -> a_targetDate a = None).
  { induction l as [|a l IH]; intros [src tgt]; simpl.
    - split; [intros H; split; [exact H|tauto]|tauto].
    - rewrite IH. simpl. destruct (a_targetDate a) as [t|] eqn:Et.
      + rewrite dict_get_set.
        destruct (String.eqb k (a_id a)) eqn:Ek.
        * apply String.eqb_eq in Ek. split; [intros [H _]; discriminate|].
          intros [_ H]. specialize (H a (or_introl eq_refl) (eq_sym Ek)).
          congruence.
        * apply String.eqb_neq in Ek. split.
          -- intros [H1 H2]. split; [exact H1|].
             intros a' [<-|Hin] Hid; [congruence|auto].
          -- intros [H1 H2]. split; [exact H1|]. intros a' Hin. auto.
      + split.
        * intros [H1 H2]. split; [exact H1|].
          intros a' [<-|Hin] Hid; [exact Et|auto].
        * intros [H1 H2]. split; [exact H1|]. intros a' Hin. auto. }
  rewrite G. simpl. split; intros [H1 H2]; (split; [exact H1|]).
  - intros a Hin Hen. apply H2. apply filter_In. auto.
  - intros a Hin. apply filter_In in Hin as [Hin Hen]. auto.
Qed.

(** C5. [mapWeeksByHolidays] returns exactly for the lists of source weeks
    whose start dates all resolve to a valid date.  What it returns has one
    mapping per input week, in the input order, each successful one
    carrying the week's price unchanged as [proposedPrice]; the empty list
    maps to the empty list. *)
Theorem mapWeeksByHolidays_total_on_dated
        (sourceWeeks : list SourceWeek) (sourceYear targetYear : Z)
        (anchors : list Anchor) (weekStartDay : Z) :
  ((exists mappings,
       mapWeeksByHolidays sourceWeeks sourceYear targetYear anchors weekStartDay
       = Ok mappings)
   <-> Forall dated sourceWeeks)
  /\ (forall mappings,
         mapWeeksByHolidays sourceWeeks sourceYear targetYear anchors
                            weekStartDay = Ok mappings ->
         length mappings = length sourceWeeks
         /\ map m_source mappings = map Some sourceWeeks
         /\ Forall2 (fun sourceWeek m =>
                       m_target m <> None ->
                       m_proposedPrice m = Some (sw_price sourceWeek))
                    sourceWeeks mappings)
  /\ mapWeeksByHolidays [] sourceYear targetYear anchors weekStartDay = Ok [].
Proof.
  split; [split|split].
  - intros [mappings E]. now apply mapWeeksByHolidays_inv in E.
  - apply mapWeeksByHolidays_returns.
  - intros mappings E. apply mapWeeksByHolidays_inv in E as [_ F].
    induction F as [|sw m sws ms (ss & rel & _ & _ & Hs & Hm) F IH]; simpl.
    + repeat split; constructor.
    + destruct IH as (IH1 & IH2 & IH3).
      split; [now rewrite IH1|]. split; [now rewrite Hs, IH2|].
      constructor; [|exact IH3].
      destruct (dict_get _ _); intros Ht; [tauto|].
      destruct Hm as [Hm _]. congruence.
  - unfold mapWeeksByHolidays.
    destruct (all_holidays sourceYear targetYear anchors). reflexivity.
Qed.

Lemma mapWeeksByHolidays_total_on_dated_witness :
  Forall dated [Examples.createSourceWeek 2026 8 5 (Str "$3,500")]
  /\ exists mappings,
       mapWeeksByHolidays [Examples.createSourceWeek 2026 8 5 (Str "$3,500")]
                          2026 2027 [] 6 = Ok mappings
       /\ length mappings = 1%nat.
Proof.
  assert (D : Forall dated [Examples.createSourceWeek 2026 8 5 (Str "$3,500")]).
  { repeat constructor. eexists. reflexivity. }
  split; [exact D|].
  destruct (mapWeeksByHolidays_total_on_dated
              [Examples.createSourceWeek 2026 8 5 (Str "$3,500")]
              2026 2027 [] 6) as ([_ R] & L & _).
  destruct (R D) as [mappings E].
  exists mappings. split; [exact E|]. exact (proj1 (L mappings E)).
Defined.

(** The mapper is not total.  A week object with a price, whose [start] is
    a [Date] and which has no [startDate], makes the whole call throw, and
    so does a row without any date and a row whose [start] is a serialized
    string and which has no key; the dated week in front of it gets no
    mapping either. *)
Lemma mapWeeksByHolidays_not_total :
  mapWeeksByHolidays [Examples.createSourceWeek 2026 8 5 (Str "$3,500");
                      Examples.pricedWeek "2026-09-12" (Str "$3,000")]
                     2026 2027 [] 6
  = Throw "TypeError: Cannot read properties of null (reading 'name')"
  /\ mapWeeksByHolidays [Examples.undated (Str "$3,000")] 2026 2027 [] 6
     = Throw "TypeError: Cannot read properties of null (reading 'name')"
  /\ mapWeeksByHolidays [Examples.serialized "2026-09-05T04:00:00.000Z"
                                             (Str "$3,000")] 2026 2027 [] 6
     = Throw "TypeError: Cannot read properties of undefined (reading 'split')"
  /\ ~ exists mappings,
         mapWeeksByHolidays [Examples.createSourceWeek 2026 8 5 (Str "$3,500");
                             Examples.pricedWeek "2026-09-12" (Str "$3,000")]
                            2026 2027 [] 6 = Ok mappings
         /\ length mappings = 2%nat.
Proof.
  split; [vm_compute; reflexivity|].
  split; [vm_compute; reflexivity|].
  split; [vm_compute; reflexivity|].
  intros (mappings & E & _). vm_compute in E. discriminate.
Qed.

(** C4. Whatever [mapWeeksByHolidays] returns, the mapping of a week has
    [target = null] and the error "No matching anchor in target year"
    exactly when the key of the week's nearest source-year anchor has no
    entry in the target-year anchor set, that is, when it is no standard
    holiday and no enabled anchor of that identifier has a target date;
    such a week is not skipped, its mapping stands at its position, and on
    dated weeks the call does not throw.  A custom anchor with a source
    date and no target date is the example. *)
Theorem unresolvable_anchor_is_flagged
        (sourceWeeks : list SourceWeek) (sourceYear targetYear : Z)
        (anchors : list Anchor) (weekStartDay : Z) :
  (forall mappings,
      mapWeeksByHolidays sourceWeeks sourceYear targetYear anchors weekStartDay
      = Ok mappings ->
      Forall2
        (fun sourceWeek m =>
           m_source m = Some sourceWeek
           /\ exists sourceStart rel,
                resolve_sourceStart sourceWeek = Ok sourceStart
                /\ getWeekHolidayRelationship sourceStart
                     (fst (all_holidays sourceYear targetYear anchors))
                     weekStartDay = Ok rel
                /\ ((m_target m = None
                     /\ m_error m = Some "No matching anchor in target year")
                    <-> dict_get (fst (rel_holiday rel))
                          (snd (all_holidays sourceYear targetYear anchors))
                        = None)
                /\ (m_target m = None <-> m_error m <> None)
                /\ (dict_get (fst (rel_holiday rel))
                      (snd (all_holidays sourceYear targetYear anchors)) = None
                    <-> dict_get (fst (rel_holiday rel))
                          (getHolidaysForYear targetYear) = None
                        /\ forall a, In a anchors -> a_enabled a = true ->
                             a_id a = fst (rel_holiday rel) ->
                             a_targetDate a = None))
        sourceWeeks mappings)
  /\ (Forall dated sourceWeeks ->
      exists mappings,
        mapWeeksByHolidays sourceWeeks sourceYear targetYear anchors
                           weekStartDay = Ok mappings)
  /\ (exists m,
         mapWeeksByHolidays [Examples.aprilBreakWeek] 2026 2027
                            [Examples.aprilBreak] 6 = Ok [m]
         /\ m_target m = None
         /\ m_error m = Some "No matching anchor in target year"
         /\ m_holidayKey m = Some "custom_1").
Proof.
  split; [|split].
  - intros mappings E. apply mapWeeksByHolidays_inv in E as [_ F].
    eapply Forall2_impl; [exact F|].
    intros sw m (ss & rel & Hs & Hr & Hsrc & Hm).
    split; [exact Hsrc|]. exists ss, rel.
    split; [exact Hs|]. split; [exact Hr|].
    split; [|split; [|apply target_dict_absent]].
    + destruct (dict_get _ _).
      * destruct Hm as ([w Hw] & He & _). split; [|discriminate].
        intros [Ht _]. congruence.
      * destruct Hm as (Ht & He & _). tauto.
    + destruct (dict_get _ _).
      * destruct Hm as ([w Hw] & He & _). split; congruence.
      * destruct Hm as (Ht & He & _). split; [congruence|tauto].
  - apply mapWeeksByHolidays_returns.
  - eexists. vm_compute. repeat split; reflexivity.
Qed.

Lemma unresolvable_anchor_is_flagged_witness :
  Forall dated [Examples.aprilBreakWeek]
  /\ exists mappings,
       mapWeeksByHolidays [Examples.aprilBreakWeek] 2026 2027
                          [Examples.aprilBreak] 6 = Ok mappings
       /\ Forall2 (fun sourceWeek m => m_source m = Some sourceWeek)
                  [Examples.aprilBreakWeek] mappings.
Proof.
  assert (D : Forall dated [Examples.aprilBreakWeek]).
  { repeat constructor. eexists. reflexivity. }
  split; [exact D|].
  destruct (unresolvable_anchor_is_flagged [Examples.aprilBreakWeek]
              2026 2027 [Examples.aprilBreak] 6) as (P & R & _).
  destruct (R D) as [mappings E].
  exists mappings. split; [exact E|].
  eapply Forall2_impl; [exact (P mappings E)|]. intros sw m [Hs _]. exact Hs.
Defined.

(** C10. Whatever [mapWeeksByHolidays] returns, an error mapping in it
    consists of [source], [sourceStart], [target], [relationship],
    [holidayKey], [weeksAway] and [error] only: it has no [sourceRange], no
    [targetRange] and no [proposedPrice], so the week's price is not on it;
    a successful mapping has all three, and its [proposedPrice] is the
    week's price.  On dated weeks the call returns. *)
Theorem error_mapping_shape
        (sourceWeeks : list SourceWeek) (sourceYear targetYear : Z)
        (anchors : list Anchor) (weekStartDay : Z) :
  (forall mappings,
      mapWeeksByHolidays sourceWeeks sourceYear targetYear anchors weekStartDay
      = Ok mappings ->
      Forall2
        (fun sourceWeek m =>
           (m_target m = None ->
            ownKeys m = ["source"; "sourceStart"; "target"; "relationship";
                         "holidayKey"; "weeksAway"; "error"]
            /\ m_sourceRange m = None /\ m_targetRange m = None
            /\ m_proposedPrice m = None)
           /\ (m_target m <> None ->
               ownKeys m = ["source"; "sourceStart"; "sourceRange"; "target";
                            "targetRange"; "relationship"; "holidayKey";
                            "weeksAway"; "proposedPrice"]
               /\ is_Some (m_sourceRange m) /\ is_Some (m_targetRange m)
               /\ m_proposedPrice m = Some (sw_price sourceWeek)))
        sourceWeeks mappings)
  /\ (Forall dated sourceWeeks ->
      exists mappings,
        mapWeeksByHolidays sourceWeeks sourceYear targetYear anchors
                           weekStartDay = Ok mappings).
Proof.
  split; [|apply mapWeeksByHolidays_returns].
  intros mappings E. apply mapWeeksByHolidays_inv in E as [_ F].
  eapply Forall2_impl; [exact F|].
  intros sw m (ss & rel & _ & _ & _ & Hm).
  destruct (dict_get _ _).
  - destruct Hm as ([w Hw] & He & Hsr & Htr & Hp & Hk).
    split; [congruence|]. intros _. auto.
  - destruct Hm as (Ht & He & Hsr & Htr & Hp & Hk).
    split; [auto|congruence].
Qed.

Lemma error_mapping_shape_witness :
  Forall dated [Examples.aprilBreakWeek]
  /\ exists mappings,
       mapWeeksByHolidays [Examples.aprilBreakWeek] 2026 2027
                          [Examples.aprilBreak] 6 = Ok mappings
       /\ Forall2 (fun sourceWeek m => m_target m = None -> m_proposedPrice m = None)
                  [Examples.aprilBreakWeek] mappings.
Proof.
  assert (D : Forall dated [Examples.aprilBreakWeek]).
  { repeat constructor. eexists. reflexivity. }
  split; [exact D|].
  destruct (error_mapping_shape [Examples.aprilBreakWeek]
              2026 2027 [Examples.aprilBreak] 6) as (P & R).
  destruct (R D) as [mappings E].
  exists mappings. split; [exact E|].
  eapply Forall2_impl; [exact (P mappings E)|]. intros sw m [H1 _] Ht.
  destruct (H1 Ht) as (_ & _ & _ & Hp). exact Hp.
Defined.

(** ** Conflict detection *)

Lemma group_get_add (k k' : string) (m : Mapping) (g : Groups) :
  group_get k' (group_add k m g)
  = if String.eqb k' k
    then Some (match group_get k g with Some ms => ms | None => [] end ++ [m])
    else group_get k' g.
Proof.
  induction g as [|[k0 ms] g IH]; simpl.
  - reflexivity.
  - destruct (String.eqb k k0) eqn:E0; simpl.
    + apply String.eqb_eq in E0. subst k0.
      destruct (String.eqb k' k); reflexivity.
    + rewrite IH. destruct (String.eqb k' k0) eqn:E1; [|reflexivity].
      apply String.eqb_eq in E1. subst k0.
      destruct (String.eqb k' k) eqn:E2; [|reflexivity].
      apply String.eqb_eq in E2. subst k'.
      rewrite String.eqb_refl in E0. discriminate.
Qed.

Lemma group_get_None (k : string) (g : Groups) :
  group_get k g = None <-> ~ In k (map fst g).
Proof.
  induction g as [|[k0 ms] g IH]; simpl; [tauto|].
  destruct (String.eqb k k0) eqn:E.
  - apply String.eqb_eq in E. split; [discriminate|]. intros H. destruct H. auto.
  - apply String.eqb_neq in E. rewrite IH. split; [intros H [H'|H']; auto|tauto].
Qed.

Lemma group_get_In (k : string) (ms : list Mapping) (g : Groups) :
  List.NoDup (map fst g) -> In (k, ms) g -> group_get k g = Some ms.
Proof.
  induction g as [|[k0 ms0] g IH]; simpl; [tauto|].
  intros Hnd [H|H].
  - injection H as -> ->. now rewrite String.eqb_refl.
  - inversion Hnd as [|? ? Hni Hnd']; subst.
    destruct (String.eqb k k0) eqn:E; [|auto].
    apply String.eqb_eq in E. subst k0. destruct Hni.
    apply (in_map fst) in H. exact H.
Qed.

Lemma group_add_NoDup (k : string) (m : Mapping) (g : Groups) :
  List.NoDup (map fst g) -> List.NoDup (map fst (group_add k m g)).
Proof.
  induction g as [|[k0 ms] g IH]; simpl; intros Hnd.
  - repeat constructor. simpl. tauto.
  - inversion Hnd as [|? ? Hni Hnd']; subst.
    destruct (String.eqb k k0) eqn:E; simpl; [now constructor|].
    constructor; [|auto].
    intros Hin. apply group_get_None in Hni.
    assert (G : group_get k0 (group_add k m g) <> None)
      by (intros G; apply group_get_None in G; auto).
    rewrite group_get_add in G.
    destruct (String.eqb k0 k) eqn:E'; [|congruence].
    apply String.eqb_eq in E'. subst k0.
    rewrite String.eqb_refl in E. discriminate.
Qed.

Lemma contributors_app (k : string) (l1 l2 : list Mapping) :
  contributors k (l1 ++ l2) = contributors k l1 ++ contributors k l2.
Proof. apply List.filter_app. Qed.

(** The index built by [detectConflicts]: distinct keys, and under each
    key the mappings that reach it. *)
Lemma targetKeyToMappings_spec (mappings : list Mapping) :
  List.NoDup (map fst (targetKeyToMappings mappings))
  /\ forall k,
       group_get k (targetKeyToMappings mappings)
       = match contributors k mappings with
         | [] => None
         | ms => Some ms
         end.
Proof.
  unfold targetKeyToMappings.
  induction mappings as [|m mappings [IH1 IH2]] using rev_ind; simpl.
  - split; [constructor|reflexivity].
  - rewrite fold_left_app. simpl.
    assert (C : forall k, contributors k (mappings ++ [m])
                = contributors k mappings
                    ++ (if bool_decide (target_key m = Some k) then [m] else []))
      by (intros k; now rewrite contributors_app).
    unfold index_step at 1 3.
    destruct (m_target m) as [t|] eqn:Et.
    + assert (Hk : target_key m = Some (key t))
        by (unfold target_key; now rewrite Et).
      split; [now apply group_add_NoDup|].
      intros k. rewrite C, group_get_add.
      destruct (String.eqb k (key t)) eqn:E.
      * apply String.eqb_eq in E. subst k.
        rewrite bool_decide_eq_true_2 by exact Hk.
        rewrite IH2. destruct (contributors (key t) mappings); reflexivity.
      * apply String.eqb_neq in E.
        rewrite bool_decide_eq_false_2 by (rewrite Hk; congruence).
        rewrite app_nil_r. apply IH2.
    + assert (Hk : target_key m = None)
        by (unfold target_key; now rewrite Et).
      split; [exact IH1|].
      intros k. rewrite C.
      rewrite bool_decide_eq_false_2 by (rewrite Hk; discriminate).
      rewrite app_nil_r. apply IH2.
Qed.

Lemma group_get_Some_In (k : string) (ms : list Mapping) (g : Groups) :
  group_get k g = Some ms -> In (k, ms) g.
Proof.
  induction g as [|[k0 ms0] g IH]; simpl; [discriminate|].
  destruct (String.eqb k k0) eqn:E.
  - apply String.eqb_eq in E. subst k0. intros [= <-]. now left.
  - intros H. right. auto.
Qed.

Lemma collisions_mapM (g : Groups) :
  collisions g
  = mapM (fun kms => collision_conflict (fst kms) (snd kms)) (collided_groups g).
Proof.
  induction g as [|[k maps] g IH]; simpl; [reflexivity|].
  destruct (1 <? length maps)%nat; simpl; now rewrite IH.
Qed.

Lemma mapM_returns {A B} (f : A -> Exc B) (l : list A) :
  (forall x, In x l -> exists y, f x = Ok y) -> exists ys, mapM f l = Ok ys.
Proof.
  intros H.
  destruct (mapM_Forall2 f (fun _ _ => True) l) as (ys & E & _); [|eauto].
  apply List.Forall_forall. intros x Hx. destruct (H x Hx) as [y Hy]. eauto.
Qed.

Lemma collision_conflict_returns (k : string) (maps : list Mapping) :
  Forall (fun m => m_source m <> None) maps ->
  exists c, collision_conflict k maps = Ok c.
Proof.
  intros H. unfold collision_conflict.
  destruct (mapM_returns collision_entry maps) as (entries & E).
  { intros m Hm. rewrite List.Forall_forall in H. apply H in Hm.
    unfold collision_entry, source_price.
    destruct (m_source m) as [sw|] eqn:Es; [|congruence].
    simpl. eexists. reflexivity. }
  destruct (mapM_returns collision_option (imap pair maps)) as (opts & O).
  { intros [i m] Hin. apply list_elem_of_In, elem_of_lookup_imap in Hin.
    destruct Hin as (i' & m' & [= -> ->] & Hl).
    apply list_elem_of_lookup_2 in Hl.
    rewrite List.Forall_forall in H. apply list_elem_of_In, H in Hl.
    unfold collision_option, source_price.
    destruct (m_source m') as [sw|] eqn:Es; [|congruence].
    simpl. eexists. reflexivity. }
  rewrite E, O. simpl. eexists. reflexivity.
Qed.

Lemma weeks_loop_valid (fuel : nat) (year : Z) (current : Date) :
  Forall (fun w => exists t, start w = ValidDate t)
         (weeks_loop fuel year current).
Proof.
  revert current. induction fuel as [|fuel IH]; intros current; simpl;
    [constructor|].
  destruct current as [t|]; simpl; [|constructor].
  destruct (_ <=? year); [|constructor].
  destruct (_ =? year); [|apply IH].
  constructor; [simpl; eauto|apply IH].
Qed.

Lemma generateWeeksForYear_valid (year weekStartDay : Z) :
  Forall (fun w => exists t, start w = ValidDate t)
         (generateWeeksForYear year weekStartDay).
Proof.
  unfold generateWeeksForYear, generateWeeksForYear_fuel.
  destruct (getDay _); [apply weeks_loop_valid|constructor].
Qed.

Lemma gap_conflict_returns (mappings : list Mapping) (targetHolidays : Dict)
      (weekStartDay : Z) (targetWeek : Week) :
  dict_ok targetHolidays ->
  (exists t, start targetWeek = ValidDate t) ->
  exists c,
    gap_conflict mappings targetHolidays weekStartDay targetWeek = Ok c
    /\ is_gap c = true
    /\ conflict_targetWeek c = key targetWeek.
Proof.
  intros Hd [t Ht]. unfold gap_conflict. rewrite Ht.
  destruct (getWeekHolidayRelationship_returns t _ weekStartDay Hd) as [rel ->].
  simpl. destruct (fold_left _ _ _) as [nb na].
  eexists. split; [reflexivity|]. split; reflexivity.
Qed.

Lemma gaps_return (mappings : list Mapping) (targetYear weekStartDay : Z) :
  exists gs,
    gaps mappings targetYear weekStartDay = Ok gs
    /\ Forall2 (fun w c => is_gap c = true /\ conflict_targetWeek c = key w)
               (List.filter (is_gap_week mappings)
                            (generateWeeksForYear targetYear weekStartDay))
               gs.
Proof.
  unfold gaps. apply mapM_Forall2.
  apply List.Forall_forall. intros w Hw. apply filter_In in Hw as [Hw _].
  apply gap_conflict_returns; [apply getHolidaysForYear_ok|].
  pose proof (generateWeeksForYear_valid targetYear weekStartDay) as V.
  rewrite List.Forall_forall in V. exact (V w Hw).
Qed.

Lemma reversal_at_type (engine : Engine) (mappings : list Mapping) (idx : nat)
      (mapping : Mapping) (c : Conflict) :
  reversal_at engine mappings idx mapping = Some c ->
  is_collision c = false /\ is_gap c = false.
Proof.
  unfold reversal_at. intros H.
  repeat case_match; try discriminate;
    injection H as <-; split; reflexivity.
Qed.

Lemma reversals_type (engine : Engine) (mappings : list Mapping) :
  Forall (fun c => is_collision c = false /\ is_gap c = false)
         (reversals engine mappings).
Proof.
  unfold reversals. apply List.Forall_forall. intros c Hc.
  apply list_elem_of_In, list_elem_of_omap in Hc.
  destruct Hc as ([i m] & _ & Hc). eapply reversal_at_type, Hc.
Qed.

Lemma filter_keep_all {A} (p : A -> bool) (l : list A) :
  Forall (fun x => p x = true) l -> List.filter p l = l.
Proof. induction 1 as [|x l Hx _ IH]; simpl; [|rewrite Hx, IH]; reflexivity. Qed.

Lemma filter_drop_all {A} (p : A -> bool) (l : list A) :
  Forall (fun x => p x = false) l -> List.filter p l = [].
Proof. induction 1 as [|x l Hx _ IH]; simpl; [|rewrite Hx, IH]; reflexivity. Qed.

(** [detectConflicts] returns on mappings that carry their source week. *)
Lemma detectConflicts_returns (engine : Engine) (mappings : list Mapping)
      (targetYear weekStartDay : Z) :
  Forall sourced mappings ->
  exists conflicts,
    detectConflicts engine mappings targetYear weekStartDay = Ok conflicts.
Proof.
  intros Hs. unfold detectConflicts. rewrite collisions_mapM.
  destruct (targetKeyToMappings_spec mappings) as [Hnd Hget].
  destruct (mapM_returns
              (fun kms => collision_conflict (fst kms) (snd kms))
              (collided_groups (targetKeyToMappings mappings)))
    as (cs & Ec).
  { intros [k maps] Hin.
    apply filter_In in Hin as [Hin _]. cbn [fst snd].
    apply collision_conflict_returns.
    apply (group_get_In _ _ _ Hnd) in Hin. rewrite Hget in Hin.
    assert (maps = contributors k mappings)
      by (destruct (contributors k mappings); congruence).
    subst maps. apply List.Forall_forall. intros m Hm.
    apply filter_In in Hm as [Hm Hk]. apply bool_decide_eq_true in Hk.
    rewrite List.Forall_forall in Hs. apply (Hs m Hm).
    unfold target_key in Hk. destruct (m_target m); congruence. }
  destruct (gaps_return mappings targetYear weekStartDay) as (gs & Eg & Fg).
  rewrite Ec, Eg. cbn [JS.bind]. eauto.
Qed.

Lemma collision_conflict_inv (k : string) (maps : list Mapping) (c : Conflict) :
  collision_conflict k maps = Ok c ->
  is_collision c = true
  /\ conflict_targetWeek c = k
  /\ Forall2 entry_for maps (collision_mappings c).
Proof.
  unfold collision_conflict.
  destruct (mapM collision_entry maps) as [entries|] eqn:E; cbn [JS.bind];
    [|discriminate].
  destruct (mapM collision_option _) as [opts|]; cbn [JS.bind]; [|discriminate].
  intros [= <-]. split; [reflexivity|]. split; [reflexivity|].
  unfold collision_mappings. cbn [body].
  apply mapM_inv in E. eapply Forall2_impl; [exact E|].
  intros m e He. unfold collision_entry, source_price in He.
  unfold entry_for. destruct (m_source m) as [sw|]; simpl in He; [|discriminate].
  injection He as <-. simpl. auto.
Qed.

(** Whatever [detectConflicts] returns is the collisions, then the gaps,
    then the strategy reversals. *)
Lemma detectConflicts_inv (engine : Engine) (mappings : list Mapping)
      (targetYear weekStartDay : Z) (conflicts : list Conflict) :
  detectConflicts engine mappings targetYear weekStartDay = Ok conflicts ->
  exists cs gs,
    conflicts = cs ++ gs ++ reversals engine mappings
    /\ Forall2 (fun kms c =>
                  is_collision c = true
                  /\ conflict_targetWeek c = fst kms
                  /\ Forall2 entry_for (snd kms) (collision_mappings c))
               (collided_groups (targetKeyToMappings mappings)) cs
    /\ Forall2 (fun w c => is_gap c = true /\ conflict_targetWeek c = key w)
               (List.filter (is_gap_week mappings)
                            (generateWeeksForYear targetYear weekStartDay))
               gs.
Proof.
  unfold detectConflicts. rewrite collisions_mapM.
  destruct (mapM _ (collided_groups _)) as [cs|] eqn:Ec; cbn [JS.bind];
    [|discriminate].
  destruct (gaps_return mappings targetYear weekStartDay) as (gs & Eg & Fg).
  rewrite Eg. cbn [JS.bind]. intros [= <-].
  exists cs, gs. split; [reflexivity|]. split; [|exact Fg].
  apply mapM_inv in Ec. eapply Forall2_impl; [exact Ec|].
  intros kms c Hc. now apply collision_conflict_inv in Hc.
Qed.

Lemma Forall2_right_In {A B} (R : A -> B -> Prop) (P : B -> Prop)
      (l : list A) (k : list B) :
  Forall2 R l k -> (forall x y, In x l -> R x y -> P y) -> Forall P k.
Proof.
  induction 1 as [|x y l k HR _ IH]; intros HP; constructor.
  - apply (HP x y); [now left|exact HR].
  - apply IH. intros x' y' Hin. apply HP. now right.
Qed.

Lemma detected_collisions (cs gs rs : list Conflict) :
  Forall (fun c => is_collision c = true) cs ->
  Forall (fun c => is_gap c = true) gs ->
  Forall (fun c => is_collision c = false /\ is_gap c = false) rs ->
  List.filter is_collision (cs ++ gs ++ rs) = cs
  /\ List.filter is_gap (cs ++ gs ++ rs) = gs.
Proof.
  intros Hc Hg Hr. rewrite !List.filter_app. split.
  - rewrite (filter_keep_all _ _ Hc), !filter_drop_all, !app_nil_r;
      [reflexivity| |].
    + eapply Forall_impl; [exact Hr|]. now intros c [H _].
    + eapply Forall_impl; [exact Hg|]. intros c H.
      unfold is_gap, is_collision in *. now destruct (body c).
  - rewrite (filter_keep_all _ _ Hg), !filter_drop_all, app_nil_r;
      [reflexivity| |].
    + eapply Forall_impl; [exact Hr|]. now intros c [_ H].
    + eapply Forall_impl; [exact Hc|]. intros c H.
      unfold is_gap, is_collision in *. now destruct (body c).
Qed.

(** Two gap fills on one target week carry no source week: they make
    the collision pass throw before any conflict is returned. *)
Lemma detectConflicts_unsourced_throws :
  detectConflicts Examples.idle_engine
    [gap_fill "2027-06-26" (Some "Jun 26 - Jul 3") None Examples.use_custom;
     gap_fill "2027-06-26" (Some "Jun 26 - Jul 3") None Examples.use_custom]
    2027 6
  = Throw "TypeError: Cannot read properties of null (reading 'price')".
Proof. vm_compute. reflexivity. Qed.

Lemma NoDup_map_filter {A B} (f : A -> B) (p : A -> bool) (l : list A) :
  List.NoDup (map f l) -> List.NoDup (map f (List.filter p l)).
Proof.
  induction l as [|x l IH]; simpl; intros H; [constructor|].
  inversion H as [|? ? Hni Hnd]; subst.
  destruct (p x); simpl; [|auto].
  constructor; [|auto]. intros Hin. apply Hni.
  apply in_map_iff in Hin as (y & Hy & Hin).
  apply filter_In in Hin as [Hin _]. rewrite <- Hy. now apply in_map.
Qed.

Lemma Forall2_map_eq {A B C} (f : A -> C) (g : B -> C) (l : list A) (k : list B) :
  Forall2 (fun x y => g y = f x) l k -> map g k = map f l.
Proof. induction 1 as [|x y l k H _ IH]; simpl; [|rewrite H, IH]; reflexivity. Qed.

Lemma filter_and {A} (p q : A -> bool) (l : list A) :
  List.filter (fun x => p x && q x) l = List.filter q (List.filter p l).
Proof.
  induction l as [|x l IH]; simpl; [reflexivity|].
  destruct (p x); simpl; [destruct (q x)|]; now rewrite IH.
Qed.

Lemma filter_unique {A} (f : A -> string) (k : string) (l : list A) :
  List.NoDup (map f l) -> In k (map f l) ->
  exists c, List.filter (fun c => String.eqb (f c) k) l = [c] /\ In c l /\ f c = k.
Proof.
  induction l as [|x l IH]; simpl; intros Hnd Hin; [tauto|].
  inversion Hnd as [|? ? Hni Hnd']; subst.
  destruct (String.eqb (f x) k) eqn:E.
  - apply String.eqb_eq in E. exists x. split; [|auto].
    f_equal. apply filter_drop_all. apply List.Forall_forall.
    intros y Hy. apply String.eqb_neq. intros Ey. apply Hni.
    rewrite E, <- Ey. now apply in_map.
  - apply String.eqb_neq in E. destruct Hin as [Hin|Hin]; [congruence|].
    destruct (IH Hnd' Hin) as (c & Hc & Hc' & Hk). exists c. auto.
Qed.

Lemma mapWeeksByHolidays_sourced (sourceWeeks : list SourceWeek)
      (sourceYear targetYear : Z) (anchors : list Anchor) (weekStartDay : Z)
      (mappings : list Mapping) :
  mapWeeksByHolidays sourceWeeks sourceYear targetYear anchors weekStartDay
  = Ok mappings ->
  Forall sourced mappings.
Proof.
  intros E. apply mapWeeksByHolidays_inv in E as [_ F].
  eapply Forall2_right_In; [exact F|].
  intros sw m _ (ss & rel & _ & _ & Hs & _) _. congruence.
Qed.

(** C7. Whatever [detectConflicts] returns, the collisions in it have
    distinct target weeks, there is one for a target key exactly when two
    or more successful mappings reach that key, and its [mappings] array
    has one entry per contributing mapping, in order; so a key reached by
    exactly two mappings gets exactly one collision conflict, with two
    entries.  The call returns on mappings that carry their source week,
    as all mappings of the mapper do.  The scenario of the test suite, two
    source rows for one week, is the instance. *)
Theorem one_collision_per_shared_target (engine : Engine)
        (mappings : list Mapping) (targetYear weekStartDay : Z) :
  (forall conflicts,
      detectConflicts engine mappings targetYear weekStartDay = Ok conflicts ->
      List.NoDup (map conflict_targetWeek (List.filter is_collision conflicts))
      /\ (forall k,
            In k (map conflict_targetWeek (List.filter is_collision conflicts))
            <-> (2 <= length (contributors k mappings))%nat)
      /\ Forall (fun c =>
                   Forall2 entry_for
                           (contributors (conflict_targetWeek c) mappings)
                           (collision_mappings c))
                (List.filter is_collision conflicts)
      /\ (forall k,
            length (contributors k mappings) = 2%nat ->
            exists c,
              List.filter (fun c => is_collision c
                                    && String.eqb (conflict_targetWeek c) k)
                          conflicts = [c]
              /\ length (collision_mappings c) = 2%nat))
  /\ (Forall sourced mappings ->
      exists conflicts,
        detectConflicts engine mappings targetYear weekStartDay = Ok conflicts)
  /\ (forall sourceWeeks sourceYear anchors,
         mapWeeksByHolidays sourceWeeks sourceYear targetYear anchors
                            weekStartDay = Ok mappings ->
         Forall sourced mappings)
  /\ (exists emitted conflicts c,
         mapWeeksByHolidays Examples.laborDayTwice 2026 2027 [] 6 = Ok emitted
         /\ detectConflicts engine emitted 2027 6 = Ok conflicts
         /\ List.filter is_collision conflicts = [c]
         /\ length (collision_mappings c) = 2%nat).
Proof.
  split; [|split; [apply detectConflicts_returns|split]].
  - intros conflicts E.
    apply detectConflicts_inv in E as (cs & gs & -> & Fc & Fg).
    destruct (targetKeyToMappings_spec mappings) as [Hnd Hget].
    destruct (detected_collisions cs gs (reversals engine mappings)) as [Hcol _].
    { eapply Forall2_right_In; [exact Fc|]. now intros x y _ [H _]. }
    { eapply Forall2_right_In; [exact Fg|]. now intros x y _ [H _]. }
    { apply reversals_type. }
    clear Fg.
    assert (Hgrp : forall k maps,
               In (k, maps) (collided_groups (targetKeyToMappings mappings)) ->
               maps = contributors k mappings /\ (2 <= length maps)%nat).
    { intros k maps Hin. apply filter_In in Hin as [Hin Hlen].
      apply (group_get_In _ _ _ Hnd) in Hin. rewrite Hget in Hin.
      apply Nat.ltb_lt in Hlen. cbn [snd] in Hlen.
      split; [|lia]. destruct (contributors k mappings); congruence. }
    assert (Ek : map conflict_targetWeek cs
                 = map fst (collided_groups (targetKeyToMappings mappings))).
    { apply Forall2_map_eq. eapply Forall2_impl; [exact Fc|].
      now intros x y (_ & H & _). }
    assert (Hin : forall k,
               In k (map conflict_targetWeek cs)
               <-> (2 <= length (contributors k mappings))%nat).
    { intros k. rewrite Ek, in_map_iff. split.
      - intros ([k' maps] & <- & Hin). cbn [fst].
        destruct (Hgrp _ _ Hin) as [-> Hlen]. exact Hlen.
      - intros Hlen. exists (k, contributors k mappings). split; [reflexivity|].
        apply filter_In. split; [|apply Nat.ltb_lt; cbn [snd]; lia].
        apply group_get_Some_In. rewrite Hget.
        destruct (contributors k mappings); [cbn [length] in Hlen; lia|reflexivity]. }
    assert (Hent : Forall (fun c =>
                             Forall2 entry_for
                               (contributors (conflict_targetWeek c) mappings)
                               (collision_mappings c)) cs).
    { eapply Forall2_right_In; [exact Fc|].
      intros [k maps] c Hin' (_ & Hk & Hf). cbn [fst snd] in *.
      destruct (Hgrp _ _ Hin') as [-> _]. now rewrite Hk. }
    assert (Hnd' : List.NoDup (map conflict_targetWeek cs))
      by (rewrite Ek; now apply NoDup_map_filter).
    rewrite Hcol. split; [exact Hnd'|]. split; [exact Hin|].
    split; [exact Hent|].
    intros k Hk.
    destruct (filter_unique conflict_targetWeek k cs Hnd') as (c & Hc & Hc' & Ek').
    { apply Hin. lia. }
    exists c. rewrite filter_and, Hcol. split; [exact Hc|].
    rewrite List.Forall_forall in Hent. apply Hent in Hc'.
    apply Forall2_length in Hc'. rewrite Ek' in Hc'. lia.
  - intros sourceWeeks sourceYear anchors. apply mapWeeksByHolidays_sourced.
  - eexists _, _, _.
    split; [vm_compute; reflexivity|].
    split; [vm_compute; reflexivity|].
    split; vm_compute; reflexivity.
Qed.

Lemma one_collision_per_shared_target_witness :
  Forall sourced [Examples.weekA; Examples.weekB]
  /\ exists conflicts,
       detectConflicts Examples.idle_engine [Examples.weekA; Examples.weekB] 2027 6 = Ok conflicts
       /\ In "2027-09-06"%string
             (map conflict_targetWeek (List.filter is_collision conflicts)).
Proof.
  assert (S : Forall sourced [Examples.weekA; Examples.weekB])
    by (repeat constructor; intros _; discriminate).
  split; [exact S|].
  destruct (one_collision_per_shared_target Examples.idle_engine
              [Examples.weekA; Examples.weekB] 2027 6) as (P & R & _).
  destruct (R S) as [conflicts E].
  exists conflicts. split; [exact E|].
  destruct (P conflicts E) as (_ & Hin & _). apply Hin.
  vm_compute. lia.
Defined.

Lemma in_season_spec (w : Week) :
  in_season w = true
  <-> exists month, getMonth (start w) = Num month /\ 3 <= month <= 10.
Proof.
  unfold in_season. destruct (getMonth (start w)) as [month|].
  - rewrite andb_true_iff, !Z.leb_le. split.
    + intros H. exists month. auto.
    + intros (m & [= <-] & H). exact H.
  - split; [discriminate|]. intros (m & H & _). discriminate.
Qed.

Lemma unmapped_spec (mappings : list Mapping) (k : string) :
  unmapped mappings k = true
  <-> forall m, In m mappings -> target_key m <> Some k.
Proof.
  unfold unmapped. rewrite forallb_forall. split; intros H m Hm.
  - specialize (H m Hm). apply negb_true_iff, bool_decide_eq_false in H. exact H.
  - apply negb_true_iff, bool_decide_eq_false. auto.
Qed.

Lemma is_mapped_spec (mappings : list Mapping) (k : string) :
  is_mapped mappings k = true
  <-> exists m, In m mappings /\ target_key m = Some k.
Proof.
  unfold is_mapped, mappedTargetKeys.
  rewrite bool_decide_eq_true, list_elem_of_omap. split.
  - intros (m & Hm & Hk). exists m. split; [now apply list_elem_of_In|exact Hk].
  - intros (m & Hm & Hk). exists m. split; [now apply list_elem_of_In|exact Hk].
Qed.

Lemma is_gap_week_spec (mappings : list Mapping) (w : Week) :
  (exists t, start w = ValidDate t) ->
  is_gap_week mappings w = in_season w && unmapped mappings (key w).
Proof.
  intros [t Ht]. unfold is_gap_week, off_season, in_season. rewrite Ht.
  cbn [getMonth]. f_equal.
  - destruct (_ <? 3) eqn:E1, (10 <? _) eqn:E2, (3 <=? _) eqn:E3,
      (_ <=? 10) eqn:E4; try reflexivity; lia.
  - apply eq_iff_eq_true. rewrite negb_true_iff, unmapped_spec.
    rewrite <- not_true_iff_false, is_mapped_spec. split.
    + intros H m Hm Hk. apply H. eauto.
    + intros H (m & Hm & Hk). exact (H m Hm Hk).
Qed.

(** C6. Whatever [detectConflicts] returns, the gap conflicts in it
    correspond one to one, in order, to the generated target-year weeks
    whose start month is 3 to 10 and whose key is the target key of no
    successful mapping.  The call returns on mappings that carry their
    source week.  With only the week of July 4th priced, the unmapped July
    week of 2027-07-10 gets exactly one gap conflict, the mapped week
    2027-07-03 none, and no January week any. *)
Theorem gap_per_unmapped_season_week (engine : Engine)
        (mappings : list Mapping) (targetYear weekStartDay : Z) :
  (forall conflicts,
      detectConflicts engine mappings targetYear weekStartDay = Ok conflicts ->
      Forall2 (fun w c => conflict_targetWeek c = key w)
              (List.filter (fun w => in_season w && unmapped mappings (key w))
                           (generateWeeksForYear targetYear weekStartDay))
              (List.filter is_gap conflicts))
  /\ (Forall sourced mappings ->
      exists conflicts,
        detectConflicts engine mappings targetYear weekStartDay = Ok conflicts)
  /\ (forall w, in_season w = true
                <-> exists month, getMonth (start w) = Num month
                                  /\ 3 <= month <= 10)
  /\ (forall k, unmapped mappings k = true
                <-> forall m, In m mappings -> target_key m <> Some k)
  /\ (exists emitted conflicts,
         mapWeeksByHolidays Examples.july4thOnly 2026 2027 [] 6 = Ok emitted
         /\ map target_key emitted = [Some "2027-07-03"%string]
         /\ detectConflicts engine emitted 2027 6 = Ok conflicts
         /\ length (List.filter
                      (fun c => is_gap c
                                && String.eqb (conflict_targetWeek c) "2027-07-10")
                      conflicts) = 1%nat
         /\ List.filter
              (fun c => is_gap c
                        && String.eqb (conflict_targetWeek c) "2027-07-03")
              conflicts = []
         /\ map key (List.filter (fun w => negb (in_season w))
                                 (generateWeeksForYear 2027 6))
            = ["2027-01-02"; "2027-01-09"; "2027-01-16"; "2027-01-23";
               "2027-01-30"; "2027-02-06"; "2027-02-13"; "2027-02-20";
               "2027-02-27"; "2027-03-06"; "2027-03-13"; "2027-03-20";
               "2027-03-27"; "2027-12-04"; "2027-12-11"; "2027-12-18";
               "2027-12-25"]%string
         /\ List.filter
              (fun c => is_gap c
                        && existsb (String.eqb (conflict_targetWeek c))
                                   (map key (List.filter
                                               (fun w => negb (in_season w))
                                               (generateWeeksForYear 2027 6))))
              conflicts = []).
Proof.
  split; [|split; [apply detectConflicts_returns|
                   split; [exact in_season_spec|split; [apply unmapped_spec|]]]].
  - intros conflicts E.
    apply detectConflicts_inv in E as (cs & gs & -> & Fc & Fg).
    destruct (detected_collisions cs gs (reversals engine mappings)) as [_ Hgap].
    { eapply Forall2_right_In; [exact Fc|]. now intros x y _ [H _]. }
    { eapply Forall2_right_In; [exact Fg|]. now intros x y _ [H _]. }
    { apply reversals_type. }
    rewrite Hgap.
    replace (List.filter (fun w => in_season w && unmapped mappings (key w))
                         (generateWeeksForYear targetYear weekStartDay))
      with (List.filter (is_gap_week mappings)
                        (generateWeeksForYear targetYear weekStartDay)).
    + eapply Forall2_impl; [exact Fg|]. now intros w c [_ H].
    + apply List.filter_ext_in. intros w Hw.
      apply is_gap_week_spec.
      pose proof (generateWeeksForYear_valid targetYear weekStartDay) as V.
      rewrite List.Forall_forall in V. exact (V w Hw).
  - eexists _, _.
    split; [vm_compute; reflexivity|].
    split; [vm_compute; reflexivity|].
    split; [vm_compute; reflexivity|].
    split; [vm_compute; reflexivity|].
    split; [vm_compute; reflexivity|].
    split; vm_compute; reflexivity.
Qed.

Lemma gap_per_unmapped_season_week_witness :
  Forall sourced [Examples.weekA; Examples.weekB]
  /\ exists conflicts,
       detectConflicts Examples.idle_engine [Examples.weekA; Examples.weekB] 2027 6 = Ok conflicts
       /\ Forall2 (fun w c => conflict_targetWeek c = key w)
              (List.filter
                 (fun w => in_season w
                           && unmapped [Examples.weekA; Examples.weekB] (key w))
                 (generateWeeksForYear 2027 6))
              (List.filter is_gap conflicts).
Proof.
  assert (S : Forall sourced [Examples.weekA; Examples.weekB])
    by (repeat constructor; intros _; discriminate).
  split; [exact S|].
  destruct (gap_per_unmapped_season_week Examples.idle_engine
              [Examples.weekA; Examples.weekB] 2027 6) as (P & R & _).
  destruct (R S) as [conflicts E].
  exists conflicts. split; [exact E|exact (P conflicts E)].
Defined.

(** ** Price parsing *)

Lemma calc_parsePrice_never_NaN (v : value) : Calculations.parsePrice v <> NaN.
Proof.
  unfold Calculations.parsePrice.
  destruct (negb (truthy v)); [discriminate|].
  destruct (parseInt _) as [z|]; [|discriminate].
  destruct (z =? 0); discriminate.
Qed.

(** Neither price parser is the one C8 describes: the exported one gives 0
    where C8 expects [NaN], the mapper's own gives [NaN] where C8 expects 0. *)
Lemma parsePrice_not_zero_then_NaN :
  ~ (Calculations.parsePrice (Str "") = Num 0
     /\ Calculations.parsePrice Null = Num 0
     /\ Calculations.parsePrice (Str "abc") = NaN)
  /\ ~ (WeekMapping.parsePrice (Str "") = Num 0
        /\ WeekMapping.parsePrice Null = Num 0
        /\ WeekMapping.parsePrice (Str "abc") = NaN).
Proof.
  split; intros (H1 & H2 & H3); vm_compute in H1, H2, H3; discriminate.
Qed.

(** The reversal check of a mapping emits nothing when one of the five
    prices it compares does not parse. *)
Lemma reversal_at_skips (engine : Engine)
      (mappings : list Mapping) (idx : nat) (mapping : Mapping) :
  unparsed_price engine mappings idx mapping ->
  reversal_at engine mappings idx mapping = None.
Proof.
  intros H.
  unfold reversal_at.
  unfold unparsed_price, targetPrev_of, targetNext_of, targetIdx_of,
    target_key, sourcePrev_of in H.
  destruct (m_target mapping) as [target|]; [|reflexivity].
  destruct (negb (truthy (read (m_proposedPrice mapping)))); [reflexivity|].
  destruct (WeekMapping.parsePrice (read (m_proposedPrice mapping)))
    as [currentPrice|] eqn:Ec; [|reflexivity].
  destruct (match idx with O => None | S i => mappings !! i end)
    as [sourcePrev|] eqn:Ep; [|reflexivity].
  destruct (mappings !! S idx) as [sourceNext|] eqn:En; [|reflexivity].
  destruct (WeekMapping.parsePrice (neighbor_price sourcePrev))
    as [sourcePrevPrice|] eqn:Epp; [|reflexivity].
  destruct (WeekMapping.parsePrice (neighbor_price sourceNext))
    as [sourceNextPrice|] eqn:Enp; [|reflexivity].
  cbv zeta.
  fold (targetOrder engine mappings) in *.
  destruct (negb _ && negb _); [reflexivity|].
  set (targetIdx := findIndex _ (targetOrder engine mappings)) in *.
  destruct ((targetIdx <=? 0) || _) eqn:Eb; [reflexivity|].
  apply orb_false_elim in Eb as [Eb1 Eb2].
  apply Z.leb_gt in Eb1.
  destruct (targetOrder engine mappings !! Z.to_nat (targetIdx - 1))
    as [targetPrev|] eqn:Etp; [|reflexivity].
  destruct (targetOrder engine mappings !! Z.to_nat (targetIdx + 1))
    as [targetNext|] eqn:Etn; [|reflexivity].
  destruct (WeekMapping.parsePrice (read (m_proposedPrice targetPrev)))
    as [targetPrevPrice|] eqn:Etpp; [|reflexivity].
  destruct (WeekMapping.parsePrice (read (m_proposedPrice targetNext)))
    as [targetNextPrice|] eqn:Etnp; [|reflexivity].
  exfalso.
  replace (0 <? targetIdx) with true in H by (symmetry; apply Z.ltb_lt; lia).
  replace (0 <=? targetIdx) with true in H by (symmetry; apply Z.leb_le; lia).
  destruct H as [H | [(p & Hp & H) | [(n & Hn & H)
                | [(p & Hp & H) | (n & Hn & H)]]]]; congruence.
Qed.

(** C8, as the code has it.  The exported [parsePrice] gives 0 for empty,
    null and non-numeric input alike and never [NaN]; the parser local to
    the mapper gives [NaN] for all three.  The arithmetic of conflict
    detection skips a price that did not parse: the strategy-reversal
    check emits nothing for a mapping when its own price, the price of a
    source-year neighbour or the price of a target-year neighbour is
    [NaN], the interpolation of a gap returns its first price as it is,
    and whatever the prices are [detectConflicts] returns on mappings that
    carry their source week.  In the example the check reports the week
    priced above its source neighbours and below its target neighbours,
    and nothing once one of the five prices is not a number. *)
Theorem parsePrice_invalid_input (engine : Engine)
        (mappings : list Mapping) (idx : nat) (mapping : Mapping)
        (price1 price2 : value) (targetYear weekStartDay : Z) :
  (Calculations.parsePrice (Str "") = Num 0
   /\ Calculations.parsePrice Null = Num 0
   /\ Calculations.parsePrice (Str "abc") = Num 0
   /\ forall v, Calculations.parsePrice v <> NaN)
  /\ (WeekMapping.parsePrice (Str "") = NaN
      /\ WeekMapping.parsePrice Null = NaN
      /\ WeekMapping.parsePrice (Str "abc") = NaN)
  /\ (unparsed_price engine mappings idx mapping ->
      reversal_at engine mappings idx mapping = None)
  /\ (WeekMapping.parsePrice price1 = NaN
      \/ WeekMapping.parsePrice price2 = NaN ->
      interpolatePrice price1 price2 = price1)
  /\ (Forall sourced mappings ->
      exists conflicts,
        detectConflicts engine mappings targetYear weekStartDay = Ok conflicts)
  /\ (map conflict_type
          (reversals engine
             (Examples.crossing "$2,000" "$1,000" "$1,000" "$3,000" "$3,000"))
      = ["strategy_reversal"]
      /\ reversals engine
           (Examples.crossing "abc" "$1,000" "$1,000" "$3,000" "$3,000") = []
      /\ reversals engine
           (Examples.crossing "$2,000" "abc" "$1,000" "$3,000" "$3,000") = []
      /\ reversals engine
           (Examples.crossing "$2,000" "$1,000" "abc" "$3,000" "$3,000") = []
      /\ reversals engine
           (Examples.crossing "$2,000" "$1,000" "$1,000" "abc" "$3,000") = []
      /\ reversals engine
           (Examples.crossing "$2,000" "$1,000" "$1,000" "$3,000" "abc") = []).
Proof.
  split.
  { do 3 (split; [reflexivity|]). exact calc_parsePrice_never_NaN. }
  split; [repeat split; reflexivity|].
  split; [apply reversal_at_skips|].
  split.
  { unfold interpolatePrice. intros [H|H]; rewrite H; [reflexivity|].
    destruct (WeekMapping.parsePrice price1); reflexivity. }
  split; [apply detectConflicts_returns|].
  repeat split; vm_compute; reflexivity.
Qed.

Lemma parsePrice_invalid_input_witness :
  let mappings :=
    Examples.crossing "$2,000" "$1,000" "$1,000" "abc" "$3,000" in
  let mapping := Examples.mapping_to "2027-07-17" "Jul 18 - Jul 25" "$2,000" in
  unparsed_price Examples.idle_engine mappings 2 mapping
  /\ reversal_at Examples.idle_engine mappings 2 mapping = None
  /\ WeekMapping.parsePrice (Str "abc") = NaN
  /\ interpolatePrice (Str "abc") (Str "$3,000") = Str "abc"
  /\ Forall sourced mappings
  /\ exists conflicts,
       detectConflicts Examples.idle_engine mappings 2027 6 = Ok conflicts.
Proof.
  intros mappings mapping.
  assert (U : unparsed_price Examples.idle_engine mappings 2 mapping).
  { do 3 right. left. eexists. split; vm_compute; reflexivity. }
  assert (S : Forall sourced mappings)
    by (repeat constructor; intros _; discriminate).
  destruct (parsePrice_invalid_input Examples.idle_engine mappings 2 mapping
              (Str "abc") (Str "$3,000") 2027 6) as (_ & _ & R & I & D & _).
  split; [exact U|]. split; [exact (R U)|]. split; [reflexivity|].
  split; [exact (I (or_introl eq_refl))|]. split; [exact S|exact (D S)].
Defined.

(* ================================================================== *)
(** * Further properties of the calendar, the keys and the mapper       *)
(* ================================================================== *)

(** ** The calendar *)

Lemma DayFromYear_next (y : Z) : DayFromYear (y + 1) = DayFromYear y + DaysInYear y.
Proof.
  unfold DayFromYear, DaysInYear.
  destruct (Z.eqb_spec (y mod 4) 0), (Z.eqb_spec (y mod 100) 0),
    (Z.eqb_spec (y mod 400) 0); cbn [negb]; Z.div_mod_to_equations; lia.
Qed.

Lemma DaysInYear_leap (y : Z) : DaysInYear y = 365 + InLeapYear y.
Proof.
  unfold InLeapYear, DaysInYear.
  destruct (negb (y mod 4 =? 0)); [reflexivity|].
  destruct (negb (y mod 100 =? 0)); [reflexivity|].
  destruct (negb (y mod 400 =? 0)); reflexivity.
Qed.

Lemma InLeapYear_range (y : Z) : 0 <= InLeapYear y <= 1.
Proof. unfold InLeapYear. destruct (_ =? _); lia. Qed.

Lemma YearFromDay_unique (y d : Z) :
  DayFromYear y <= d < DayFromYear (y + 1) -> YearFromDay d = y.
Proof.
  intros H. pose proof (YearFromDay_spec d) as Hs.
  destruct (Z.lt_trichotomy (YearFromDay d) y) as [Hlt|[Heq|Hgt]]; [|exact Heq|].
  - pose proof (DayFromYear_mono (YearFromDay d + 1) y ltac:(lia)). lia.
  - pose proof (DayFromYear_mono (y + 1) (YearFromDay d) ltac:(lia)). lia.
Qed.

Lemma DayWithinYear_range (d : Z) :
  0 <= DayWithinYear d < 365 + InLeapYear (YearFromDay d).
Proof.
  unfold DayWithinYear. pose proof (YearFromDay_spec d) as Hs.
  rewrite DayFromYear_next, DaysInYear_leap in Hs. lia.
Qed.

Lemma DateFromDay_range (d : Z) : 1 <= DateFromDay d <= 31.
Proof.
  pose proof (DayWithinYear_range d) as Hk.
  pose proof (InLeapYear_range (YearFromDay d)) as Hl.
  unfold DateFromDay, MonthFromDay.
  set (k := DayWithinYear d) in *. set (leap := InLeapYear (YearFromDay d)) in *.
  clearbody k leap.
  repeat match goal with
         | |- context [if ?a <? ?b then _ else _] =>
             destruct (Z.ltb_spec a b)
         end; cbn; lia.
Qed.

(** The calendar fields of the day that [MakeDay] builds from a month and
    a date within that month. *)
Lemma MakeDay_inverse (y m k : Z) :
  0 <= m <= 11 -> 1 <= k <= DaysInMonth y m ->
  YearFromDay (MakeDay y m k) = y
  /\ MonthFromDay (MakeDay y m k) = m
  /\ DateFromDay (MakeDay y m k) = k.
Proof.
  intros Hm Hk.
  pose proof (InLeapYear_range y) as Hl.
  assert (Ey : YearFromDay (MakeDay y m k) = y).
  { apply YearFromDay_unique. rewrite DayFromYear_next, DaysInYear_leap.
    unfold MakeDay. rewrite Z.div_small, Z.mod_small, Z.add_0_r by lia.
    unfold DaysInMonth, DaysBeforeMonth in *.
    assert (m = 0 \/ m = 1 \/ m = 2 \/ m = 3 \/ m = 4 \/ m = 5 \/ m = 6 \/ m = 7
            \/ m = 8 \/ m = 9 \/ m = 10 \/ m = 11) as Hc by lia.
    repeat (destruct Hc as [->|Hc]; [cbn in *; lia|]). subst m. cbn in *. lia. }
  split; [exact Ey|].
  unfold DateFromDay, MonthFromDay, DayWithinYear. rewrite Ey.
  unfold MakeDay. rewrite Z.div_small, Z.mod_small, Z.add_0_r by lia.
  replace (DayFromYear y + DaysBeforeMonth (InLeapYear y) m + k - 1 - DayFromYear y)
    with (DaysBeforeMonth (InLeapYear y) m + k - 1) by lia.
  unfold DaysInMonth in Hk.
  set (leap := InLeapYear y) in *. clearbody leap.
  assert (m = 0 \/ m = 1 \/ m = 2 \/ m = 3 \/ m = 4 \/ m = 5 \/ m = 6 \/ m = 7
          \/ m = 8 \/ m = 9 \/ m = 10 \/ m = 11) as Hc by lia.
  assert (leap = 0 \/ leap = 1) as [-> | ->] by lia;
  repeat (destruct Hc as [->|Hc];
          [cbn in Hk; cbn [DaysBeforeMonth Z.leb Z.eqb Z.compare Pos.compare Pos.compare_cont Pos.eqb];
           repeat match goal with
                  | |- context [if ?a <? ?b then _ else _] =>
                      destruct (Z.ltb_spec a b); try lia
                  end; cbn; lia|]);
  subst m; cbn in Hk; cbn [DaysBeforeMonth Z.leb Z.eqb Z.compare Pos.compare Pos.compare_cont Pos.eqb];
           repeat match goal with
                  | |- context [if ?a <? ?b then _ else _] =>
                      destruct (Z.ltb_spec a b); try lia
                  end; cbn; lia.
Qed.

(** ** Decimal strings *)

Lemma app_String (c : ascii) (s1 s2 : string) :
  String c s1 +:+ s2 = String c (s1 +:+ s2).
Proof. reflexivity. Qed.

Lemma app_Empty (s : string) : EmptyString +:+ s = s.
Proof. reflexivity. Qed.

Lemma app_assoc_string (s1 s2 s3 : string) :
  (s1 +:+ s2) +:+ s3 = s1 +:+ (s2 +:+ s3).
Proof.
  induction s1 as [|c s1 IH]; [reflexivity|].
  rewrite !app_String. now rewrite IH.
Qed.

Lemma digits_uint_acc (u : Decimal.uint) (acc : positive) :
  digits_prefix digit_of 10 (Some (Z.pos acc)) (NilEmpty.string_of_uint u)
  = Some (Z.pos (Pos.of_uint_acc u acc)).
Proof.
  revert acc. induction u; intros acc; cbn [NilEmpty.string_of_uint digits_prefix Pos.of_uint_acc];
    [reflexivity|..];
    (change (digit_of _) with (Some 0) || change (digit_of _) with (Some 1)
     || change (digit_of _) with (Some 2) || change (digit_of _) with (Some 3)
     || change (digit_of _) with (Some 4) || change (digit_of _) with (Some 5)
     || change (digit_of _) with (Some 6) || change (digit_of _) with (Some 7)
     || change (digit_of _) with (Some 8) || change (digit_of _) with (Some 9));
    cbv iota beta; rewrite <- IHu; do 2 f_equal; lia.
Qed.

Lemma digits_uint_zero (u : Decimal.uint) :
  digits_prefix digit_of 10 (Some 0) (NilEmpty.string_of_uint u)
  = Some (Z.of_N (Pos.of_uint u)).
Proof.
  induction u; cbn [NilEmpty.string_of_uint digits_prefix Pos.of_uint];
    [reflexivity|..];
    (change (digit_of _) with (Some 0) || change (digit_of _) with (Some 1)
     || change (digit_of _) with (Some 2) || change (digit_of _) with (Some 3)
     || change (digit_of _) with (Some 4) || change (digit_of _) with (Some 5)
     || change (digit_of _) with (Some 6) || change (digit_of _) with (Some 7)
     || change (digit_of _) with (Some 8) || change (digit_of _) with (Some 9));
    cbv iota beta; cbn [Z.mul Z.add]; [exact IHu|..]; apply digits_uint_acc.
Qed.

Lemma digits_uint (u : Decimal.uint) :
  u <> Decimal.Nil ->
  digits_prefix digit_of 10 None (NilEmpty.string_of_uint u)
  = Some (Z.of_N (Pos.of_uint u)).
Proof.
  intros Hu. rewrite <- digits_uint_zero.
  destruct u; [congruence|reflexivity..].
Qed.

Lemma all_digits_uint (u : Decimal.uint) :
  all_digits (NilEmpty.string_of_uint u) = true.
Proof. induction u; cbn; auto. Qed.

Lemma to_uint_not_Nil (p : positive) : Pos.to_uint p <> Decimal.Nil.
Proof.
  intros H. pose proof (Unsigned.of_to p) as E. rewrite H in E. discriminate.
Qed.

Lemma string_of_Z_pos (p : positive) :
  string_of_Z (Z.pos p) = NilEmpty.string_of_uint (Pos.to_uint p).
Proof.
  unfold string_of_Z. cbn [Z.to_int NilZero.string_of_int NilZero.string_of_uint].
  pose proof (to_uint_not_Nil p). destruct (Pos.to_uint p); first [congruence|reflexivity].
Qed.

Lemma string_of_Z_neg (p : positive) :
  string_of_Z (Z.neg p) = String "-" (string_of_Z (Z.pos p)).
Proof.
  rewrite string_of_Z_pos.
  unfold string_of_Z. cbn [Z.to_int NilZero.string_of_int NilZero.string_of_uint].
  pose proof (to_uint_not_Nil p). destruct (Pos.to_uint p); first [congruence|reflexivity].
Qed.

(** The decimal string of a natural number consists of digits and reads
    back as that number. *)
Lemma string_of_Z_digits (z : Z) :
  0 <= z ->
  all_digits (string_of_Z z) = true
  /\ string_of_Z z <> EmptyString
  /\ digits_prefix digit_of 10 None (string_of_Z z) = Some z.
Proof.
  intros Hz. destruct z as [|p|p]; [repeat split; discriminate| |lia].
  rewrite string_of_Z_pos. split; [apply all_digits_uint|]. split.
  - pose proof (to_uint_not_Nil p). destruct (Pos.to_uint p); cbn; congruence.
  - rewrite digits_uint by apply to_uint_not_Nil.
    rewrite Unsigned.of_to. reflexivity.
Qed.

(** Reading a run of digits after an accumulator shifts the accumulator by
    the length of the run. *)
Lemma digits_prefix_shift (s : string) :
  all_digits s = true ->
  exists v, 0 <= v
    /\ digits_prefix digit_of 10 (Some 0) s = Some v
    /\ forall a, digits_prefix digit_of 10 (Some a) s
                 = Some (a * 10 ^ Z.of_nat (String.length s) + v).
Proof.
  induction s as [|c s IH]; cbn [all_digits digits_prefix String.length]; intros H.
  - exists 0. split; [lia|]. split; [reflexivity|]. intros a. f_equal. cbn. lia.
  - destruct (digit_of c) as [d|] eqn:Ed; [|discriminate].
    assert (Hd : 0 <= d).
    { unfold digit_of in Ed. destruct (_ && _) eqn:E; [|discriminate].
      injection Ed as <-. apply andb_true_iff in E as [E _]. lia. }
    destruct (IH H) as (v & Hv & _ & Hs).
    exists (d * 10 ^ Z.of_nat (String.length s) + v).
    split; [nia|]. split.
    + rewrite Hs. f_equal; lia.
    + intros a. rewrite Hs. f_equal.
      rewrite Nat2Z.inj_succ, Z.pow_succ_r by lia. lia.
Qed.

Lemma digits_prefix_None (s : string) :
  all_digits s = true -> s <> EmptyString ->
  digits_prefix digit_of 10 None s = digits_prefix digit_of 10 (Some 0) s.
Proof.
  destruct s as [|c s]; [congruence|]. cbn. now destruct (digit_of c).
Qed.

Lemma all_digits_app (s1 s2 : string) :
  all_digits (s1 +:+ s2) = all_digits s1 && all_digits s2.
Proof.
  induction s1 as [|c s1 IH]; [reflexivity|].
  rewrite app_String. cbn [all_digits].
  destruct (digit_of c); [exact IH|reflexivity].
Qed.

Lemma digits_prefix_app (acc : option Z) (s1 s2 : string) :
  all_digits s1 = true ->
  digits_prefix digit_of 10 acc (s1 +:+ s2)
  = digits_prefix digit_of 10 (digits_prefix digit_of 10 acc s1) s2.
Proof.
  revert acc. induction s1 as [|c s1 IH]; intros acc; [reflexivity|].
  rewrite app_String. cbn [all_digits digits_prefix].
  destruct (digit_of c); [|discriminate]. intros H. now apply IH.
Qed.

(** A digit is no white space, no sign, no separator. *)
Lemma digit_of_char (c : ascii) (d : Z) :
  digit_of c = Some d ->
  is_space c = false /\ c <> "-"%char /\ c <> "+"%char /\ c <> "x"%char
  /\ c <> "X"%char /\ c <> "$"%char /\ c <> ","%char.
Proof.
  destruct c as [[] [] [] [] [] [] [] []]; cbv; intros H;
    try discriminate; repeat split; discriminate.
Qed.

(** On a non-empty run of digits [parseInt] reads the whole number. *)
Lemma parseInt_digits (s : string) :
  all_digits s = true -> s <> EmptyString ->
  parseInt s = match digits_prefix digit_of 10 None s with
               | Some z => Num z
               | None => NaN
               end.
Proof.
  destruct s as [|c s]; [congruence|]. intros H _.
  cbn [all_digits] in H. destruct (digit_of c) as [d|] eqn:Ed; [|discriminate].
  destruct (digit_of_char c d Ed) as (Hs & Hm & Hp & _).
  unfold parseInt. cbn [trim_start]. rewrite Hs.
  assert (E : match String c s with
              | String "-" rest => (-1, rest)
              | String "+" rest => (1, rest)
              | _ => (1, String c s)
              end = (1, String c s)).
  { destruct c as [[] [] [] [] [] [] [] []]; try reflexivity; congruence. }
  rewrite E. clear E.
  assert (E : match String c s with
              | String "0" (String "x" rest) | String "0" (String "X" rest) =>
                  digits_prefix hex_digit_of 16 None rest
              | _ => digits_prefix digit_of 10 None (String c s)
              end = digits_prefix digit_of 10 None (String c s)).
  { destruct s as [|c' s]; [destruct c as [[] [] [] [] [] [] [] []]; reflexivity|].
    cbn [all_digits] in H. destruct (digit_of c') as [d'|] eqn:Ed'; [|discriminate].
    destruct (digit_of_char c' d' Ed') as (_ & _ & _ & Hx & HX & _).
    destruct c as [[] [] [] [] [] [] [] []]; try reflexivity.
    destruct c' as [[] [] [] [] [] [] [] []]; try reflexivity; congruence. }
  rewrite E. destruct (digits_prefix _ _ _ _) as [z|]; [|reflexivity].
  f_equal. lia.
Qed.

Lemma string_filter_digits (keep : ascii -> bool) (s : string) :
  (forall c d, digit_of c = Some d -> keep c = true) ->
  all_digits s = true -> string_filter keep s = s.
Proof.
  intros Hk. induction s as [|c s IH]; cbn; [reflexivity|].
  destruct (digit_of c) as [d|] eqn:Ed; [|discriminate].
  intros H. rewrite (Hk c d Ed), IH by exact H. reflexivity.
Qed.

Lemma string_filter_app (keep : ascii -> bool) (s1 s2 : string) :
  string_filter keep (s1 +:+ s2) = string_filter keep s1 +:+ string_filter keep s2.
Proof.
  induction s1 as [|c s1 IH]; [reflexivity|].
  rewrite app_String. cbn [string_filter].
  destruct (keep c); [rewrite app_String|]; now rewrite IH.
Qed.

Lemma not_dollar_comma_digit (c : ascii) (d : Z) :
  digit_of c = Some d -> Calculations.not_dollar_comma c = true.
Proof.
  intros H. destruct (digit_of_char c d H) as (_ & _ & _ & _ & _ & H1 & H2).
  unfold Calculations.not_dollar_comma.
  destruct (Ascii.eqb_spec c "$"); [congruence|].
  destruct (Ascii.eqb_spec c ","); [congruence|]. reflexivity.
Qed.

Lemma no_radix_prefix (s : string) :
  all_digits s = true ->
  match s with
  | String "0" (String "x" rest) | String "0" (String "X" rest) =>
      digits_prefix hex_digit_of 16 None rest
  | _ => digits_prefix digit_of 10 None s
  end = digits_prefix digit_of 10 None s.
Proof.
  destruct s as [|c [|c' s]]; intros H;
    [reflexivity|destruct c as [[] [] [] [] [] [] [] []]; reflexivity|].
  cbn [all_digits] in H. destruct (digit_of c); [|discriminate].
  destruct (digit_of c') as [d'|] eqn:Ed'; [|discriminate].
  destruct (digit_of_char c' d' Ed') as (_ & _ & _ & Hx & HX & _).
  destruct c as [[] [] [] [] [] [] [] []]; try reflexivity.
  destruct c' as [[] [] [] [] [] [] [] []]; try reflexivity; congruence.
Qed.

Lemma parseInt_minus (n : Z) (s : string) :
  reads_as n s -> parseInt (String "-" s) = Num (- n).
Proof.
  intros (Ha & _ & Hv). unfold parseInt.
  change (trim_start (String "-" s)) with (String "-" s). cbv iota beta.
  rewrite (no_radix_prefix s Ha), Hv. f_equal; lia.
Qed.

Lemma parseInt_reads (n : Z) (s : string) :
  reads_as n s -> parseInt s = Num n.
Proof.
  intros (Ha & Hne & Hv). rewrite parseInt_digits, Hv by assumption. reflexivity.
Qed.

Lemma tail3_check :
  forallb (fun r =>
             let t := pad3 (string_of_Z r) +:+ string_of_Z r in
             all_digits t && (Z.of_nat (String.length t) =? 3)
             && match digits_prefix digit_of 10 (Some 0) t with
                | Some v => v =? r
                | None => false
                end)
          (seqZ 0 1000) = true.
Proof. vm_compute. reflexivity. Qed.

Lemma tail3 (r : Z) :
  0 <= r < 1000 ->
  let t := pad3 (string_of_Z r) +:+ string_of_Z r in
  all_digits t = true /\ String.length t = 3%nat
  /\ digits_prefix digit_of 10 (Some 0) t = Some r.
Proof.
  intros Hr. pose proof tail3_check as H.
  rewrite forallb_forall in H. specialize (H r).
  assert (Hin : In r (seqZ 0 1000)) by (apply list_elem_of_In, elem_of_seqZ; lia).
  apply H in Hin. cbv zeta in *.
  apply andb_true_iff in Hin as [Hin H3]. apply andb_true_iff in Hin as [H1 H2].
  split; [exact H1|]. split; [lia|].
  destruct (digits_prefix _ _ _ _); [|discriminate]. f_equal. lia.
Qed.

(** The grouped digits of a natural number, without the commas, read as
    that number. *)
Lemma group3_reads (fuel : nat) (n : Z) :
  0 <= n ->
  reads_as n (string_filter Calculations.not_dollar_comma (group3 fuel n)).
Proof.
  assert (Base : forall n, 0 <= n ->
            reads_as n (string_filter Calculations.not_dollar_comma (string_of_Z n))).
  { intros m Hm. destruct (string_of_Z_digits m Hm) as (H1 & H2 & H3).
    rewrite (string_filter_digits _ _ not_dollar_comma_digit H1).
    repeat split; assumption. }
  revert n. induction fuel as [|f IH]; intros n Hn; cbn [group3]; [now apply Base|].
  destruct (Z.ltb_spec n 1000) as [Hlt|Hge]; [now apply Base|].
  fold (pad3 (string_of_Z (n mod 1000))).
  destruct (IH (n / 1000)) as (H1 & H2 & H3); [Z.div_mod_to_equations; lia|].
  destruct (tail3 (n mod 1000)) as (T1 & T2 & T3); [Z.div_mod_to_equations; lia|].
  set (t := pad3 (string_of_Z (n mod 1000)) +:+ string_of_Z (n mod 1000)) in *.
  replace (group3 f (n / 1000) +:+ "," +:+ pad3 (string_of_Z (n mod 1000))
             +:+ string_of_Z (n mod 1000))
    with (group3 f (n / 1000) +:+ ("," +:+ t)).
  2: { unfold t. reflexivity. }
  rewrite string_filter_app.
  change (string_filter Calculations.not_dollar_comma ("," +:+ t))
    with (string_filter Calculations.not_dollar_comma t).
  rewrite (string_filter_digits _ t not_dollar_comma_digit T1).
  set (s := string_filter Calculations.not_dollar_comma (group3 f (n / 1000))) in *.
  split; [rewrite all_digits_app, H1, T1; reflexivity|]. split.
  - destruct s; [congruence|discriminate].
  - rewrite digits_prefix_app, H3 by exact H1.
    destruct (digits_prefix_shift t T1) as (v & _ & Hv & Hs).
    rewrite Hs, T2. rewrite T3 in Hv. injection Hv as <-.
    f_equal. change (10 ^ Z.of_nat 3) with 1000. Z.div_mod_to_equations. lia.
Qed.

Lemma formatted_filter (n : Z) :
  string_filter Calculations.not_dollar_comma (Calculations.formatPrice (Num n))
  = string_filter Calculations.not_dollar_comma (toLocaleString n).
Proof. reflexivity. Qed.

Lemma parseInt_formatted (n : Z) :
  parseInt (string_filter Calculations.not_dollar_comma (Calculations.formatPrice (Num n)))
  = Num n.
Proof.
  rewrite formatted_filter. unfold toLocaleString.
  destruct (Z.ltb_spec n 0) as [Hneg|Hpos].
  - rewrite string_filter_app.
    change (string_filter Calculations.not_dollar_comma "-") with "-"%string.
    change ("-" +:+ ?x) with (String "-" x).
    rewrite (parseInt_minus (- n)); [f_equal; lia|].
    apply group3_reads. lia.
  - apply parseInt_reads, group3_reads. exact Hpos.
Qed.

Lemma parseInt_string_of_Z (n : Z) :
  parseInt (string_filter Calculations.not_dollar_comma (string_of_Z n)) = Num n.
Proof.
  destruct n as [|p|p]; [reflexivity| |].
  - destruct (string_of_Z_digits (Z.pos p)) as (H1 & H2 & H3); [lia|].
    rewrite (string_filter_digits _ _ not_dollar_comma_digit H1).
    now apply parseInt_reads.
  - rewrite string_of_Z_neg.
    destruct (string_of_Z_digits (Z.pos p)) as (H1 & H2 & H3); [lia|].
    cbn [string_filter]. change (Calculations.not_dollar_comma "-") with true.
    cbv iota. rewrite (string_filter_digits _ _ not_dollar_comma_digit H1).
    now rewrite (parseInt_minus (Z.pos p)).
Qed.

(** X1. [parsePrice] undoes [formatPrice] on every whole amount, zero and
    the negative ones included, and reads a number as itself; the parser
    of the mapping module does the same except that it has no zero. *)
Theorem parsePrice_formatPrice (n : Z) :
  Calculations.parsePrice (Str (Calculations.formatPrice (Num n))) = Num n
  /\ Calculations.parsePrice (Int n) = Num n
  /\ WeekMapping.parsePrice (Str (Calculations.formatPrice (Num n)))
     = (if n =? 0 then NaN else Num n).
Proof.
  split; [|split].
  - unfold Calculations.parsePrice. cbn [truthy String_of].
    change (negb (negb (Calculations.formatPrice (Num n) =? ""))%string) with false.
    cbv iota. rewrite parseInt_formatted. now destruct (Z.eqb_spec n 0) as [->|].
  - unfold Calculations.parsePrice. cbn [truthy String_of].
    rewrite parseInt_string_of_Z.
    destruct (Z.eqb_spec n 0) as [->|Hn]; reflexivity.
  - unfold WeekMapping.parsePrice. cbn [truthy String_of].
    change (negb (negb (Calculations.formatPrice (Num n) =? ""))%string) with false.
    cbv iota. rewrite parseInt_formatted. reflexivity.
Qed.

(** ** Week keys *)

Lemma digits2_pos_bounds (p : positive) :
  2 ^ (Zpos (digits2_pos p) - 1) <= Zpos p < 2 ^ Zpos (digits2_pos p).
Proof.
  induction p as [p IH|p IH|]; cbn [digits2_pos].
  - rewrite Pos2Z.inj_succ, Z.pow_succ_r by lia.
    replace (Z.succ (Zpos (digits2_pos p)) - 1)
      with (Z.succ (Zpos (digits2_pos p) - 1)) by lia.
    rewrite Z.pow_succ_r by lia. lia.
  - rewrite Pos2Z.inj_succ, Z.pow_succ_r by lia.
    replace (Z.succ (Zpos (digits2_pos p)) - 1)
      with (Z.succ (Zpos (digits2_pos p) - 1)) by lia.
    rewrite Z.pow_succ_r by lia. lia.
  - cbn. lia.
Qed.

Lemma iter_xO (p k : positive) :
  Zpos (Pos.iter xO p k) = Zpos p * 2 ^ Zpos k
  /\ digits2_pos (Pos.iter xO p k) = (digits2_pos p + k)%positive.
Proof.
  induction k as [|k IH] using Pos.peano_ind.
  - cbn [Pos.iter]. split; [lia|]. cbn [digits2_pos]. lia.
  - rewrite Pos.iter_succ. destruct IH as [IH1 IH2]. split.
    + rewrite Pos2Z.inj_xO, IH1, Pos2Z.inj_succ, Z.pow_succ_r by lia. lia.
    + cbn [digits2_pos]. rewrite IH2. lia.
Qed.

(** An integer below 2^53 is a binary64 number, and the [Date]
    constructor reads it as itself. *)
Lemma integer_of_normalize (n : Z) :
  0 <= n < 2 ^ 53 ->
  integer_of (binary_normalize prec emax n 0 false) = Num n.
Proof.
  intros Hn. destruct n as [|p|p]; [reflexivity| |lia].
  pose proof (digits2_pos_bounds p) as Hd.
  set (d := digits2_pos p) in *.
  assert (Hd53 : Zpos d <= 53).
  { destruct (Z.le_gt_cases (Zpos d) 53) as [H|H]; [exact H|exfalso].
    assert (2 ^ 53 <= 2 ^ (Zpos d - 1)) by (apply Z.pow_le_mono_r; lia). lia. }
  unfold binary_normalize, binary_round. fold d.
  assert (Ef : fexp prec emax (Zpos d + 0) = Zpos d - 53).
  { unfold fexp, emin, prec, emax. lia. }
  rewrite Ef. unfold shl_align.
  destruct (Zpos d - 53 - 0) as [|k|k] eqn:Ek; [|lia|].
  - (* d = 53 *)
    unfold binary_round_aux, shr_fexp. cbn [Zdigits2]. fold d.
    replace (fexp prec emax (Zpos d + 0) - 0) with 0 by lia.
    cbn [shr shr_record_of_loc shr_m loc_of_shr_record round_nearest_even].
    cbn [Zdigits2]. fold d.
    replace (fexp prec emax (Zpos d + 0) - 0) with 0 by lia.
    cbn [shr shr_record_of_loc shr_m]. cbn. reflexivity.
  - destruct (iter_xO p k) as [Hv Hg]. fold d in Hg.
    set (mz := Pos.iter xO p k) in *.
    assert (Ee : fexp prec emax (Zpos (digits2_pos mz) + (Zpos d - 53))
                 - (Zpos d - 53) = 0).
    { rewrite Hg. unfold fexp, emin, prec, emax. lia. }
    unfold binary_round_aux, shr_fexp. cbn [Zdigits2].
    rewrite Ee.
    cbn [shr shr_record_of_loc shr_m loc_of_shr_record round_nearest_even].
    cbn [Zdigits2]. rewrite Ee.
    cbn [shr shr_record_of_loc shr_m].
    replace (Zpos d - 53 <=? emax - prec) with true
      by (symmetry; apply Z.leb_le; unfold emax, prec; lia).
    cbn [integer_of cond_Zopp]. f_equal.
    replace (Zpos d - 53) with (- Zpos k) by lia.
    rewrite Z.shiftl_opp_r, Z.shiftr_div_pow2, Hv by lia.
    apply Z.div_mul. apply Z.pow_nonzero; lia.
Qed.

Lemma app_Empty_r (s : string) : s +:+ EmptyString = s.
Proof.
  induction s as [|c s IH]; [reflexivity|]. now rewrite app_String, IH.
Qed.

Lemma trim_start_digits (s : string) :
  all_digits s = true -> trim_start s = s.
Proof.
  destruct s as [|c s]; [reflexivity|]. cbn [all_digits trim_start].
  destruct (digit_of c) as [d|] eqn:Ed; [|discriminate]. intros _.
  now destruct (digit_of_char c d Ed) as [-> _].
Qed.

Lemma trim_end_digits (s : string) :
  all_digits s = true -> trim_end s = s.
Proof.
  induction s as [|c s IH]; [reflexivity|]. cbn [all_digits trim_end].
  destruct (digit_of c) as [d|] eqn:Ed; [|discriminate]. intros H.
  rewrite (IH H). destruct s; [|reflexivity].
  now destruct (digit_of_char c d Ed) as [-> _].
Qed.

Lemma span_digits_all (s : string) :
  all_digits s = true -> span_digits s = (s, EmptyString).
Proof.
  induction s as [|c s IH]; [reflexivity|]. cbn [all_digits span_digits].
  destruct (digit_of c); [|discriminate]. intros H. now rewrite (IH H).
Qed.

Lemma digit_not_letter (c : ascii) (d : Z) :
  digit_of c = Some d ->
  c <> "x"%char /\ c <> "X"%char /\ c <> "o"%char /\ c <> "O"%char
  /\ c <> "b"%char /\ c <> "B"%char /\ c <> "I"%char.
Proof.
  destruct c as [[] [] [] [] [] [] [] []]; cbv; intros H;
    try discriminate; repeat split; discriminate.
Qed.

(** [Number] reads a run of digits as the binary64 number nearest to the
    integer it denotes. *)
Lemma Number_of_string_reads (n : Z) (s : string) :
  reads_as n s ->
  Number_of_string s = binary_normalize prec emax n 0 false.
Proof.
  intros (Ha & Hne & Hv). unfold Number_of_string.
  rewrite (trim_start_digits s Ha), (trim_end_digits s Ha).
  assert (E : unsigned_decimal false s = binary_normalize prec emax n 0 false).
  { unfold unsigned_decimal.
    replace (String.eqb s "Infinity") with false.
    2:{ destruct s as [|c s]; [reflexivity|]. cbn [all_digits] in Ha.
        destruct (digit_of c) as [d|] eqn:Ed; [|discriminate].
        destruct (digit_not_letter c d Ed) as (_ & _ & _ & _ & _ & _ & HI).
        symmetry. apply String.eqb_neq. congruence. }
    rewrite (span_digits_all s Ha). cbv iota beta.
    rewrite app_Empty_r.
    destruct s as [|c s]; [congruence|].
    cbn [exponent_part String.length]. rewrite Hv.
    unfold round64. rewrite Z.sub_0_r. cbn [Z.leb Z.compare].
    destruct (Z.eqb_spec n 0) as [->|Hn0]; [reflexivity|].
    cbn [Z.pow cond_Zopp]. now rewrite Z.mul_1_r. }
  destruct s as [|c [|c' s]]; [congruence| |].
  - cbn [all_digits] in Ha. destruct (digit_of c) as [d|] eqn:Ed; [|discriminate].
    destruct (digit_of_char c d Ed) as (_ & Hm & Hp & _).
    destruct c as [[] [] [] [] [] [] [] []]; try exact E; congruence.
  - cbn [all_digits] in Ha. destruct (digit_of c) as [d|] eqn:Ed; [|discriminate].
    destruct (digit_of c') as [d'|] eqn:Ed'; [|discriminate].
    destruct (digit_of_char c d Ed) as (_ & Hm & Hp & _).
    destruct (digit_not_letter c' d' Ed') as (H1 & H2 & H3 & H4 & H5 & H6 & _).
    destruct c as [[] [] [] [] [] [] [] []]; try exact E; try congruence.
    destruct c' as [[] [] [] [] [] [] [] []]; try exact E; congruence.
Qed.

Lemma month_before (m : Z) :
  0 <= m <= 11 ->
  integer_of (SFsub prec emax (binary_normalize prec emax (m + 1) 0 false)
                    (SFone prec emax)) = Num m.
Proof.
  intros H.
  assert (E : m = 0 \/ m = 1 \/ m = 2 \/ m = 3 \/ m = 4 \/ m = 5 \/ m = 6
              \/ m = 7 \/ m = 8 \/ m = 9 \/ m = 10 \/ m = 11) by lia.
  repeat (destruct E as [->|E]; [vm_compute; reflexivity|]).
  subst. vm_compute. reflexivity.
Qed.

Lemma split_on_digits (s : string) :
  all_digits s = true -> split_on "-" s = [s].
Proof.
  induction s as [|c s IH]; cbn [all_digits split_on]; [reflexivity|].
  destruct (digit_of c) as [d|] eqn:Ed; [|discriminate]. intros H.
  destruct (digit_of_char c d Ed) as (_ & Hm & _).
  destruct (Ascii.eqb_spec c "-"); [congruence|]. now rewrite IH.
Qed.

Lemma split_on_digits_app (s1 s2 : string) :
  all_digits s1 = true ->
  split_on "-" (s1 +:+ String "-" s2) = s1 :: split_on "-" s2.
Proof.
  induction s1 as [|c s1 IH]; [reflexivity|].
  rewrite app_String. cbn [all_digits split_on].
  destruct (digit_of c) as [d|] eqn:Ed; [|discriminate]. intros H.
  destruct (digit_of_char c d Ed) as (_ & Hm & _).
  destruct (Ascii.eqb_spec c "-"); [congruence|]. now rewrite IH.
Qed.

Lemma padStart2_reads (n : Z) (s : string) :
  reads_as n s -> reads_as n (padStart2 s).
Proof.
  intros (H1 & H2 & H3). destruct s as [|c [|c' s]]; [congruence| |repeat split; assumption].
  cbn [padStart2]. cbn [all_digits] in H1.
  destruct (digit_of c) as [d|] eqn:Ed; [|discriminate].
  split; [cbn; now rewrite Ed|]. split; [discriminate|].
  cbn in *. rewrite Ed in *. exact H3.
Qed.

Lemma string_of_Z_reads (n : Z) : 0 <= n -> reads_as n (string_of_Z n).
Proof. intros H. destruct (string_of_Z_digits n H) as (? & ? & ?). now repeat split. Qed.

(** The key of a date in the range of the [Date] type is read back as
    midnight of the day it names, for years of three digits and more. *)
Lemma weekKey_parses (t : Z) :
  100 <= YearFromDay (Day t) < 2 ^ 53 ->
  parseWeekKey (weekKey (ValidDate t)) = setHours0 (ValidDate t).
Proof.
  intros Hy. unfold weekKey, parseWeekKey.
  pose proof (MonthFromDay_range (Day t)) as Hm.
  pose proof (DateFromDay_range (Day t)) as Hd.
  pose proof (string_of_Z_reads (YearFromDay (Day t)) ltac:(lia)) as RY.
  pose proof (padStart2_reads _ _ (string_of_Z_reads (MonthFromDay (Day t) + 1)
                                     ltac:(lia))) as RM.
  pose proof (padStart2_reads _ _ (string_of_Z_reads (DateFromDay (Day t))
                                     ltac:(lia))) as RD.
  set (Y := string_of_Z (YearFromDay (Day t))) in *.
  set (M := padStart2 (string_of_Z (MonthFromDay (Day t) + 1))) in *.
  set (D := padStart2 (string_of_Z (DateFromDay (Day t)))) in *.
  change (Y +:+ "-" +:+ M +:+ "-" +:+ D)
    with (Y +:+ String "-" (M +:+ String "-" D)).
  rewrite (split_on_digits_app Y) by apply RY.
  rewrite (split_on_digits_app M) by apply RM.
  rewrite (split_on_digits D) by apply RD.
  cbn [map lookup list_lookup].
  rewrite (Number_of_string_reads _ _ RY), (Number_of_string_reads _ _ RM),
    (Number_of_string_reads _ _ RD).
  rewrite (integer_of_normalize (YearFromDay (Day t))) by lia.
  rewrite (integer_of_normalize (DateFromDay (Day t))) by lia.
  rewrite (month_before (MonthFromDay (Day t))) by lia.
  cbn [new_Date setHours0]. f_equal. f_equal.
  replace (full_year (YearFromDay (Day t))) with (YearFromDay (Day t)).
  2: { unfold full_year. destruct (Z.leb_spec (YearFromDay (Day t)) 99);
       [lia|now rewrite andb_false_r]. }
  pose proof (MakeDay_fields (Day t) 0) as E. rewrite !Z.add_0_r in E. exact E.
Qed.

(** X2. [parseWeekKey] undoes [weekKey]: the key of a date is read back as
    midnight of the day it names, for the years from 100 to the last one
    of the [Date] type; the key of the Invalid Date is read back as the
    Invalid Date. *)
Theorem parseWeekKey_weekKey (t : Z) :
  100 <= YearFromDay (Day t) <= 275760 ->
  parseWeekKey (weekKey (ValidDate t)) = setHours0 (ValidDate t)
  /\ parseWeekKey (weekKey InvalidDate) = InvalidDate.
Proof.
  intros H. split; [apply weekKey_parses; lia|reflexivity].
Qed.

Lemma parseWeekKey_weekKey_witness :
  100 <= YearFromDay (Day (MakeDay 2027 6 4 * msPerDay + 3600000)) <= 275760
  /\ weekKey (ValidDate (MakeDay 2027 6 4 * msPerDay + 3600000)) = "2027-07-04"
  /\ parseWeekKey (weekKey (ValidDate (MakeDay 2027 6 4 * msPerDay + 3600000)))
     = ValidDate (MakeDay 2027 6 4 * msPerDay).
Proof.
  assert (H : 100 <= YearFromDay (Day (MakeDay 2027 6 4 * msPerDay + 3600000))
              <= 275760) by (vm_compute; split; discriminate).
  split; [exact H|]. split; [reflexivity|].
  rewrite (proj1 (parseWeekKey_weekKey _ H)). reflexivity.
Defined.

(** lemmas *)
Lemma WeekDay_range (d : Z) : 0 <= WeekDay d <= 6.
Proof. unfold WeekDay. pose proof (Z.mod_pos_bound (d + 4) 7). lia. Qed.

Lemma rem_week (a b : Z) :
  0 <= a <= 6 -> 0 <= b <= 6 -> Z.rem (a - b + 7) 7 = (a - b) mod 7.
Proof.
  intros Ha Hb. rewrite Z.rem_mod_nonneg by lia.
  Z.div_mod_to_equations. lia.
Qed.

Lemma getWeekContainingDate_valid (t weekStartDay : Z) :
  0 <= weekStartDay <= 6 ->
  getWeekContainingDate (Some (ValidDate t)) weekStartDay
  = {| span_start := ValidDate (week_start_day (Day t) weekStartDay * msPerDay);
       span_end := ValidDate ((week_start_day (Day t) weekStartDay + 7) * msPerDay) |}.
Proof.
  intros Hw. unfold getWeekContainingDate, Date_copy. cbn [getDay].
  rewrite (rem_week _ _ (WeekDay_range (Day t)) Hw).
  rewrite addDays_valid. cbn [setHours0]. rewrite Day_addDays, addDays_valid.
  unfold week_start_day. f_equal; f_equal; lia.
Qed.

Lemma week_start_day_spec (d weekStartDay : Z) :
  0 <= weekStartDay <= 6 ->
  WeekDay (week_start_day d weekStartDay) = weekStartDay
  /\ week_start_day d weekStartDay <= d < week_start_day d weekStartDay + 7.
Proof.
  intros Hw. unfold week_start_day, WeekDay. Z.div_mod_to_equations. lia.
Qed.

Lemma week_start_day_unique (d s weekStartDay : Z) :
  WeekDay s = weekStartDay -> s <= d < s + 7 -> week_start_day d weekStartDay = s.
Proof.
  unfold week_start_day, WeekDay. intros H1 H2. Z.div_mod_to_equations. lia.
Qed.

Lemma full_year_id (y : Z) : ~ (0 <= y <= 99) -> full_year y = y.
Proof.
  intros H. unfold full_year.
  destruct (Z.leb_spec 0 y), (Z.leb_spec y 99); cbn; lia.
Qed.

Lemma week_end (d : Z) :
  addDays (ValidDate (d * msPerDay)) (Num 7) = ValidDate ((d + 7) * msPerDay).
Proof. rewrite addDays_valid. f_equal. lia. Qed.

Lemma weeks_loop_step (f : nat) (year d : Z) :
  WeekMapping.weeks_loop (S f) year (ValidDate (d * msPerDay))
  = if YearFromDay d <=? year then
      if YearFromDay d =? year
      then week_of_day d
             :: WeekMapping.weeks_loop f year (ValidDate ((d + 7) * msPerDay))
      else WeekMapping.weeks_loop f year (ValidDate ((d + 7) * msPerDay))
    else [].
Proof.
  cbn [WeekMapping.weeks_loop getFullYear]. rewrite Day_of_days, week_end.
  reflexivity.
Qed.

Lemma page_loop_step (f : nat) (year d : Z) :
  CalendarPage.weeks_loop (S f) year (ValidDate (d * msPerDay))
  = if YearFromDay d =? year
    then week_of_day d
           :: CalendarPage.weeks_loop f year (ValidDate ((d + 7) * msPerDay))
    else [].
Proof.
  cbn [CalendarPage.weeks_loop getFullYear]. rewrite Day_of_days, week_end.
  reflexivity.
Qed.

(** From a day of the year on, the loop lists the weeks that start every
    seventh day until the year ends. *)
Lemma weeks_loop_in_year (year : Z) (n : nat) :
  forall (f : nat) (d : Z),
    DayFromYear year <= d ->
    7 * Z.of_nat n - 7 < DayFromYear (year + 1) - d <= 7 * Z.of_nat n ->
    (n < f)%nat ->
    WeekMapping.weeks_loop f year (ValidDate (d * msPerDay))
    = map week_of_day (every_seventh n d)
    /\ CalendarPage.weeks_loop f year (ValidDate (d * msPerDay))
       = map week_of_day (every_seventh n d).
Proof.
  induction n as [|n IH]; intros f d Hd Hn Hf;
    (destruct f as [|f]; [lia|]);
    rewrite weeks_loop_step, page_loop_step.
  - pose proof (YearFromDay_after year d ltac:(lia)) as Hy.
    destruct (Z.leb_spec (YearFromDay d) year); [lia|].
    destruct (Z.eqb_spec (YearFromDay d) year); [lia|]. split; reflexivity.
  - rewrite (YearFromDay_unique year d) by lia.
    rewrite Z.leb_refl, Z.eqb_refl.
    destruct (IH f (d + 7)) as [E1 E2]; [lia|lia|lia|].
    rewrite E1, E2. split; reflexivity.
Qed.

Lemma first_week_day_range (year weekStartDay : Z) :
  DayFromYear year <= first_week_day year weekStartDay < DayFromYear year + 7.
Proof.
  unfold first_week_day.
  pose proof (Z.mod_pos_bound (weekStartDay - WeekDay (DayFromYear year)) 7). lia.
Qed.

Lemma weeks_in_year_spec (year weekStartDay : Z) :
  7 * Z.of_nat (weeks_in_year year weekStartDay) - 7
  < DayFromYear (year + 1) - first_week_day year weekStartDay
  <= 7 * Z.of_nat (weeks_in_year year weekStartDay)
  /\ (52 <= weeks_in_year year weekStartDay <= 53)%nat.
Proof.
  unfold weeks_in_year.
  pose proof (first_week_day_range year weekStartDay) as Hf.
  pose proof (DayFromYear_step year) as Hs.
  set (x := DayFromYear (year + 1) - first_week_day year weekStartDay) in *.
  assert (Hx : 359 <= x <= 366) by lia. clearbody x.
  rewrite Z2Nat.id by (Z.div_mod_to_equations; lia).
  split; [Z.div_mod_to_equations; lia|].
  split.
  - apply Nat2Z.inj_le. rewrite Z2Nat.id by (Z.div_mod_to_equations; lia).
    Z.div_mod_to_equations. lia.
  - apply Nat2Z.inj_le. rewrite Z2Nat.id by (Z.div_mod_to_equations; lia).
    Z.div_mod_to_equations. lia.
Qed.

(** Both generators, in closed form. *)
Lemma generateWeeksForYear_closed (year weekStartDay : Z) :
  0 <= weekStartDay <= 6 ->
  WeekMapping.generateWeeksForYear year weekStartDay
  = (if (0 <=? year) && (year <=? 99) then []
     else map week_of_day
              (every_seventh (weeks_in_year year weekStartDay)
                             (first_week_day year weekStartDay)))
  /\ CalendarPage.generateWeeksForYear year weekStartDay
     = WeekMapping.generateWeeksForYear year weekStartDay.
Proof.
  intros Hw.
  unfold WeekMapping.generateWeeksForYear, generateWeeksForYear_fuel,
    CalendarPage.generateWeeksForYear, new_Date.
  cbn [getDay]. rewrite MakeDay_January_first, Day_of_days.
  pose proof (WeekDay_range (DayFromYear (full_year year))) as Hdow.
  rewrite !rem_week by assumption. rewrite !addDays_valid.
  cbn [getFullYear]. rewrite !Day_addDays, Day_of_days.
  destruct ((0 <=? year) && (year <=? 99)) eqn:E2.
  - (* a two-digit year is read as 19xx: no week starts in [year] *)
    apply andb_true_iff in E2 as [Ea Eb]. apply Z.leb_le in Ea, Eb.
    assert (Hf : full_year year = 1900 + year).
    { unfold full_year. destruct (Z.leb_spec 0 year), (Z.leb_spec year 99);
        cbn; lia. }
    rewrite Hf.
    set (Y := 1900 + year) in *.
    assert (Hy1 : year < YearFromDay (DayFromYear Y
                    + - ((WeekDay (DayFromYear Y) - weekStartDay) mod 7))).
    { apply YearFromDay_after.
      pose proof (DayFromYear_mono (year + 1) (Y - 1) ltac:(lia)).
      pose proof (DayFromYear_step (Y - 1)).
      replace (Y - 1 + 1) with Y in * by lia.
      pose proof (Z.mod_pos_bound (WeekDay (DayFromYear Y) - weekStartDay) 7). lia. }
    assert (Hy2 : year < YearFromDay (DayFromYear Y
                    + (weekStartDay - WeekDay (DayFromYear Y)) mod 7)).
    { apply YearFromDay_after.
      pose proof (DayFromYear_mono (year + 1) Y ltac:(lia)).
      pose proof (Z.mod_pos_bound (weekStartDay - WeekDay (DayFromYear Y)) 7). lia. }
    rewrite <- !Z.mul_add_distr_r.
    change 60%nat with (S 59). rewrite weeks_loop_step.
    destruct (Z.leb_spec (YearFromDay (DayFromYear Y
                + - ((WeekDay (DayFromYear Y) - weekStartDay) mod 7))) year); [lia|].
    split; [reflexivity|].
    destruct (Z.ltb_spec (YearFromDay (DayFromYear Y
                + (weekStartDay - WeekDay (DayFromYear Y)) mod 7)) year); [lia|].
    rewrite page_loop_step.
    destruct (Z.eqb_spec (YearFromDay (DayFromYear Y
                + (weekStartDay - WeekDay (DayFromYear Y)) mod 7)) year); [lia|].
    reflexivity.
  - rewrite full_year_id.
    2: { intros [Ha Hb]. apply Z.leb_le in Ha, Hb. now rewrite Ha, Hb in E2. }
    pose proof (weeks_in_year_spec year weekStartDay) as [Hn Hb].
    pose proof (first_week_day_range year weekStartDay) as Hfr.
    set (n := weeks_in_year year weekStartDay) in *.
    set (D := DayFromYear year) in *.
    set (r := (WeekDay D - weekStartDay) mod 7).
    assert (Hr : 0 <= r < 7) by (apply Z.mod_pos_bound; lia).
    assert (Ef : first_week_day year weekStartDay = D + (weekStartDay - WeekDay D) mod 7)
      by reflexivity.
    assert (Hfirst : (weekStartDay - WeekDay D) mod 7 = if r =? 0 then 0 else 7 - r).
    { unfold r. destruct (Z.eqb_spec ((WeekDay D - weekStartDay) mod 7) 0);
        Z.div_mod_to_equations; lia. }
    (* the calendar page: the first start is in the year already *)
    assert (Ey : YearFromDay (D + (weekStartDay - WeekDay D) mod 7) = year).
    { apply YearFromDay_unique. fold D. rewrite <- Ef.
      pose proof (DayFromYear_step year). fold D in H. lia. }
    rewrite Ey, Z.ltb_irrefl.
    rewrite <- !Z.mul_add_distr_r.
    destruct (weeks_loop_in_year year n 60 (first_week_day year weekStartDay))
      as [E1 E3]; [lia|lia|lia|].
    rewrite <- Ef, E3.
    assert (G : WeekMapping.weeks_loop 60 year (ValidDate ((D + - r) * msPerDay))
                = map week_of_day (every_seventh n (first_week_day year weekStartDay))).
    { destruct (Z.eqb_spec r 0) as [Hr0|Hr0].
      - rewrite Hr0, Z.add_0_r. rewrite Ef, Hfirst, Hr0, Z.add_0_r in *.
        exact E1.
      - change 60%nat with (S 59). rewrite weeks_loop_step.
        assert (Ep : YearFromDay (D + - r) = year - 1).
        { apply YearFromDay_unique. replace (year - 1 + 1) with year by lia.
          fold D. pose proof (DayFromYear_step (year - 1)) as Hs.
          replace (year - 1 + 1) with year in Hs by lia. fold D in Hs. lia. }
        rewrite Ep.
        destruct (Z.leb_spec (year - 1) year); [|lia].
        destruct (Z.eqb_spec (year - 1) year); [lia|].
        replace (D + - r + 7) with (first_week_day year weekStartDay)
          by (rewrite Ef, Hfirst; destruct (Z.eqb_spec r 0); lia).
        apply (weeks_loop_in_year year n 59); lia. }
    rewrite G. split; reflexivity.
Qed.

Lemma every_seventh_length (n : nat) (d : Z) : length (every_seventh n d) = n.
Proof. revert d. induction n as [|n IH]; intros d; cbn; [|rewrite IH]; reflexivity. Qed.

Lemma every_seventh_lookup (n : nat) (d : Z) (i : nat) (x : Z) :
  every_seventh n d !! i = Some x <-> (i < n)%nat /\ x = d + 7 * Z.of_nat i.
Proof.
  revert d i. induction n as [|n IH]; intros d i; cbn [every_seventh].
  - rewrite lookup_nil. split; [discriminate|lia].
  - destruct i as [|i]; cbn [lookup list_lookup].
    + split; [intros [= <-]; split; lia|intros [_ ->]; f_equal; lia].
    + fold (@lookup _ _ _ (@list_lookup Z) i (every_seventh n (d + 7))).
      rewrite IH. split; intros [H1 H2]; split; lia.
Qed.

(** X3. The week that contains a date starts at midnight of the last
    day, on or before the date, that falls on the week start day, and ends
    seven days later; every moment of those seven days has the same
    week. *)
Theorem getWeekContainingDate_spec (t weekStartDay : Z) :
  0 <= weekStartDay <= 6 ->
  exists s,
    getWeekContainingDate (Some (ValidDate t)) weekStartDay
    = {| span_start := ValidDate (s * msPerDay);
         span_end := ValidDate (s * msPerDay + 7 * msPerDay) |}
    /\ getDay (ValidDate (s * msPerDay)) = Num weekStartDay
    /\ s * msPerDay <= t < s * msPerDay + 7 * msPerDay
    /\ forall t', s * msPerDay <= t' < s * msPerDay + 7 * msPerDay ->
         getWeekContainingDate (Some (ValidDate t')) weekStartDay
         = getWeekContainingDate (Some (ValidDate t)) weekStartDay.
Proof.
  intros Hw. exists (week_start_day (Day t) weekStartDay).
  destruct (week_start_day_spec (Day t) weekStartDay Hw) as [H1 H2].
  rewrite getWeekContainingDate_valid by exact Hw.
  split; [f_equal; f_equal; lia|].
  split; [cbn [getDay]; rewrite Day_of_days; now f_equal|].
  split; [unfold Day, msPerDay in *; Z.div_mod_to_equations; lia|].
  intros t' Ht'. rewrite getWeekContainingDate_valid by exact Hw.
  rewrite (week_start_day_unique (Day t') (week_start_day (Day t) weekStartDay));
    [reflexivity|exact H1|].
  unfold Day, msPerDay in *. Z.div_mod_to_equations. lia.
Qed.

Lemma getWeekContainingDate_spec_witness :
  0 <= 6 <= 6
  /\ exists s,
       getWeekContainingDate (Some (new_Date (Num 2026) (Num 6) (Num 7))) 6
       = {| span_start := ValidDate (s * msPerDay);
            span_end := ValidDate (s * msPerDay + 7 * msPerDay) |}
       /\ getDay (ValidDate (s * msPerDay)) = Num 6.
Proof.
  split; [lia|].
  destruct (getWeekContainingDate_spec (MakeDay 2026 6 7 * msPerDay) 6 ltac:(lia))
    as (s & E & G & _).
  exists s. split; [exact E|exact G].
Defined.

(** X4. The weeks [generateWeeksForYear] lists.  For a two-digit year,
    which the [Date] constructor reads as a year of the 1900s, there are
    none.  Otherwise there are 52 or 53; each starts at midnight of a
    week start day of the year, lasts seven days and carries the key of
    its start; each begins where the one before ends; the first starts
    within the first seven days of the year and the last ends within the
    first seven days of the next year. *)
Theorem generateWeeksForYear_weeks (year weekStartDay : Z) :
  0 <= weekStartDay <= 6 ->
  let weeks := WeekMapping.generateWeeksForYear year weekStartDay in
  (0 <= year <= 99 -> weeks = [])
  /\ (~ 0 <= year <= 99 ->
      (52 <= length weeks <= 53)%nat
      /\ Forall (fun w =>
                   getDay (start w) = Num weekStartDay
                   /\ getFullYear (start w) = Num year
                   /\ setHours0 (start w) = start w
                   /\ end_ w = addDays (start w) (Num 7)
                   /\ key w = weekKey (start w))
                weeks
      /\ (forall i w w', weeks !! i = Some w -> weeks !! S i = Some w' ->
                         start w' = end_ w)
      /\ (forall w d, head weeks = Some w -> getTime (start w) = Num d ->
                      DayFromYear year * msPerDay <= d
                                                  < (DayFromYear year + 7) * msPerDay)
      /\ (forall w d, last weeks = Some w -> getTime (end_ w) = Num d ->
                      DayFromYear (year + 1) * msPerDay <= d
                                                  < (DayFromYear (year + 1) + 7) * msPerDay)).
Proof.
  intros Hw weeks. unfold weeks. clear weeks.
  destruct (generateWeeksForYear_closed year weekStartDay Hw) as [-> _].
  split.
  - intros [Ha Hb]. apply Z.leb_le in Ha, Hb. now rewrite Ha, Hb.
  - intros Hy.
    destruct ((0 <=? year) && (year <=? 99)) eqn:E.
    { apply andb_true_iff in E as [Ea Eb]. apply Z.leb_le in Ea, Eb. lia. }
    pose proof (weeks_in_year_spec year weekStartDay) as [Hn Hb].
    pose proof (first_week_day_range year weekStartDay) as Hfr.
    set (n := weeks_in_year year weekStartDay) in *.
    set (d0 := first_week_day year weekStartDay) in *.
    assert (Hwd : WeekDay d0 = weekStartDay).
    { unfold d0, first_week_day, WeekDay. Z.div_mod_to_equations. lia. }
    split; [now rewrite length_map, every_seventh_length|].
    split; [|split; [|split]].
    + apply Forall_forall. intros w Hin.
      apply list_elem_of_fmap in Hin as (d & -> & Hin).
      apply list_elem_of_lookup in Hin as [i Hi].
      apply every_seventh_lookup in Hi as [Hi ->].
      unfold week_of_day. cbn [start end_ key getDay getFullYear setHours0].
      rewrite Day_of_days, week_end.
      split; [f_equal; unfold WeekDay in *; Z.div_mod_to_equations; lia|].
      split; [f_equal; apply YearFromDay_unique; lia|]. auto.
    + intros i w w'. rewrite !list_lookup_fmap.
      destruct (every_seventh n d0 !! i) as [d|] eqn:Ei; [|discriminate].
      destruct (every_seventh n d0 !! S i) as [d'|] eqn:Ei'; [|discriminate].
      apply every_seventh_lookup in Ei as [_ ->].
      apply every_seventh_lookup in Ei' as [_ ->].
      cbn. intros [= <-] [= <-]. cbn. f_equal. lia.
    + intros w d. destruct n as [|n]; [lia|]. cbn [every_seventh map head].
      intros [= <-]. cbn. intros [= <-]. unfold msPerDay. lia.
    + intros w d. rewrite fmap_last.
      destruct (last (every_seventh n d0)) as [x|] eqn:El; [|discriminate].
      rewrite last_lookup, every_seventh_length in El.
      apply every_seventh_lookup in El as [Hi ->].
      cbn. intros [= <-]. cbn. intros [= <-]. unfold msPerDay. lia.
Qed.

Lemma generateWeeksForYear_weeks_witness :
  0 <= 6 <= 6 /\ (52 <= length (WeekMapping.generateWeeksForYear 2026 6) <= 53)%nat.
Proof.
  split; [lia|].
  destruct (generateWeeksForYear_weeks 2026 6 ltac:(lia)) as [_ H].
  exact (proj1 (H ltac:(lia))).
Defined.

(** X5. The week generator of the calendar page and the one of the mapper
    list the same weeks, though they find the first week differently. *)
Theorem calendar_page_weeks (year weekStartDay : Z) :
  0 <= weekStartDay <= 6 ->
  CalendarPage.generateWeeksForYear year weekStartDay
  = WeekMapping.generateWeeksForYear year weekStartDay.
Proof. intros Hw. apply generateWeeksForYear_closed, Hw. Qed.

Lemma calendar_page_weeks_witness :
  0 <= 0 <= 6
  /\ CalendarPage.generateWeeksForYear 2027 0 = WeekMapping.generateWeeksForYear 2027 0.
Proof. split; [lia|]. apply calendar_page_weeks. lia. Defined.

(** X6. The keys of the weeks of a year are distinct, and each key is
    read back by [parseWeekKey] as the start of its week. *)
Theorem generateWeeksForYear_keys (year weekStartDay : Z) :
  0 <= weekStartDay <= 6 -> 100 <= year <= 275760 ->
  List.NoDup (map key (WeekMapping.generateWeeksForYear year weekStartDay))
  /\ Forall (fun w => parseWeekKey (key w) = start w)
            (WeekMapping.generateWeeksForYear year weekStartDay).
Proof.
  intros Hw Hy.
  destruct (generateWeeksForYear_closed year weekStartDay Hw) as [-> _].
  destruct ((0 <=? year) && (year <=? 99)) eqn:E.
  { apply andb_true_iff in E as [Ea Eb]. apply Z.leb_le in Ea, Eb. lia. }
  pose proof (weeks_in_year_spec year weekStartDay) as [Hn Hb].
  pose proof (first_week_day_range year weekStartDay) as Hfr.
  set (n := weeks_in_year year weekStartDay) in *.
  set (d0 := first_week_day year weekStartDay) in *.
  assert (P : Forall (fun w => parseWeekKey (key w) = start w)
                     (map week_of_day (every_seventh n d0))).
  { apply Forall_forall. intros w Hin.
    apply list_elem_of_fmap in Hin as (d & -> & Hin).
    apply list_elem_of_lookup in Hin as [i Hi].
    apply every_seventh_lookup in Hi as [Hi ->].
    unfold week_of_day. cbn [start key].
    rewrite weekKey_parses.
    - cbn [setHours0]. now rewrite Day_of_days.
    - rewrite Day_of_days, (YearFromDay_unique year); lia. }
  split; [|exact P].
  apply NoDup_ListNoDup.
  apply (NoDup_fmap_1 parseWeekKey). rewrite <- list_fmap_compose.
  rewrite (Forall_fmap_ext_1 (parseWeekKey ∘ key) start) by exact P.
  rewrite <- list_fmap_compose.
  apply NoDup_alt. intros i j x. rewrite !list_lookup_fmap.
  destruct (every_seventh n d0 !! i) as [a|] eqn:Ei; [|discriminate].
  destruct (every_seventh n d0 !! j) as [b|] eqn:Ej; [|discriminate].
  apply every_seventh_lookup in Ei as [_ ->].
  apply every_seventh_lookup in Ej as [_ ->].
  cbn. intros [= <-] [= E']. unfold msPerDay in E'. lia.
Qed.

Lemma generateWeeksForYear_keys_witness :
  0 <= 6 <= 6 /\ 100 <= 2027 <= 275760
  /\ List.NoDup (map key (WeekMapping.generateWeeksForYear 2027 6))
  /\ Forall (fun w => parseWeekKey (key w) = start w)
            (WeekMapping.generateWeeksForYear 2027 6).
Proof.
  split; [lia|]. split; [lia|].
  apply (generateWeeksForYear_keys 2027 6); lia.
Defined.

Lemma MakeDay_date (y m k : Z) : MakeDay y m k = MakeDay y m 1 + k - 1.
Proof. unfold MakeDay. lia. Qed.

Lemma DaysInMonth_range (y m : Z) : 28 <= DaysInMonth y m <= 31.
Proof.
  unfold DaysInMonth. pose proof (InLeapYear_range y).
  destruct (m =? 1); [lia|]. destruct (_ || _); lia.
Qed.

(** The fields of a date built from a day of the month. *)
Lemma new_Date_fields (year month k : Z) :
  0 <= month <= 11 -> 1 <= k <= DaysInMonth (full_year year) month ->
  getFullYear (new_Date (Num year) (Num month) (Num k)) = Num (full_year year)
  /\ getMonth (new_Date (Num year) (Num month) (Num k)) = Num month
  /\ getDate (new_Date (Num year) (Num month) (Num k)) = Num k
  /\ getDay (new_Date (Num year) (Num month) (Num k))
     = Num (WeekDay (MakeDay (full_year year) month 1 + k - 1)).
Proof.
  intros Hm Hk. cbn [new_Date getFullYear getMonth getDate getDay].
  rewrite Day_of_days.
  destruct (MakeDay_inverse (full_year year) month k Hm Hk) as (-> & -> & ->).
  rewrite (MakeDay_date _ _ k). auto.
Qed.

Lemma scan_forward_finds (year month weekday n : Z) :
  0 <= month <= 11 -> 0 <= weekday <= 6 -> 1 <= n <= 4 ->
  let d1 := 1 + (weekday - WeekDay (MakeDay (full_year year) month 1)) mod 7 in
  forall (j : nat) (k count : Z),
    1 <= k -> k + Z.of_nat j = d1 + 7 * (n - 1) ->
    count = (k - d1 + 6) / 7 ->
    scan_forward (seqZ k (32 - k)) year month weekday n count
    = Some (new_Date (Num year) (Num month) (Num (d1 + 7 * (n - 1)))).
Proof.
  intros Hm Hw Hn d1.
  assert (Hd1 : 1 <= d1 <= 7).
  { unfold d1. pose proof (Z.mod_pos_bound
      (weekday - WeekDay (MakeDay (full_year year) month 1)) 7). lia. }
  pose proof (DaysInMonth_range (full_year year) month) as HL.
  assert (Hday : forall k, 1 <= k <= 28 ->
            (WeekDay (MakeDay (full_year year) month 1 + k - 1) = weekday
             <-> (k - d1) mod 7 = 0)).
  { intros k Hk. unfold d1, WeekDay. Z.div_mod_to_equations. lia. }
  induction j as [|j IH]; intros k count Hk Hj Hc.
  - assert (k = d1 + 7 * (n - 1)) by lia. subst k.
    rewrite seqZ_cons by lia. cbn [scan_forward].
    destruct (new_Date_fields year month (d1 + 7 * (n - 1)) Hm ltac:(lia))
      as (_ & -> & _ & ->).
    rewrite Z.eqb_refl. cbn [negb].
    destruct (Z.eqb_spec (WeekDay (MakeDay (full_year year) month 1
                                    + (d1 + 7 * (n - 1)) - 1)) weekday) as [E|E].
    + destruct (Z.eqb_spec (count + 1) n) as [E'|E']; [reflexivity|].
      exfalso. apply E'. subst count. Z.div_mod_to_equations. lia.
    + exfalso. apply E. apply Hday; [lia|]. Z.div_mod_to_equations. lia.
  - rewrite seqZ_cons by lia. cbn [scan_forward].
    destruct (new_Date_fields year month k Hm ltac:(lia)) as (_ & -> & _ & ->).
    rewrite Z.eqb_refl. cbn [negb].
    replace (Z.pred (32 - k)) with (32 - Z.succ k) by lia.
    destruct (Z.eqb_spec (WeekDay (MakeDay (full_year year) month 1 + k - 1))
                         weekday) as [E|E].
    + apply Hday in E; [|lia].
      destruct (Z.eqb_spec (count + 1) n) as [E'|E'].
      * exfalso. subst count. Z.div_mod_to_equations. lia.
      * apply IH; [lia|lia|]. subst count. Z.div_mod_to_equations. lia.
    + assert (E' : (k - d1) mod 7 <> 0) by (intros G; apply E, Hday; [lia|exact G]).
      apply IH; [lia|lia|]. subst count. Z.div_mod_to_equations. lia.
Qed.

Lemma getNthWeekdayOfMonth_nth_date (year month weekday n : Z) :
  0 <= month <= 11 -> 0 <= weekday <= 6 -> 1 <= n <= 4 ->
  exists date, 7 * (n - 1) < date <= 7 * n
    /\ getNthWeekdayOfMonth year month weekday n
       = Some (new_Date (Num year) (Num month) (Num date))
    /\ getFullYear (new_Date (Num year) (Num month) (Num date))
       = Num (full_year year)
    /\ getMonth (new_Date (Num year) (Num month) (Num date)) = Num month
    /\ getDate (new_Date (Num year) (Num month) (Num date)) = Num date
    /\ getDay (new_Date (Num year) (Num month) (Num date)) = Num weekday.
Proof.
  intros Hm Hw Hn.
  set (d1 := 1 + (weekday - WeekDay (MakeDay (full_year year) month 1)) mod 7).
  assert (Hd1 : 1 <= d1 <= 7).
  { unfold d1. pose proof (Z.mod_pos_bound
      (weekday - WeekDay (MakeDay (full_year year) month 1)) 7). lia. }
  pose proof (DaysInMonth_range (full_year year) month) as HL.
  exists (d1 + 7 * (n - 1)).
  destruct (new_Date_fields year month (d1 + 7 * (n - 1)) Hm ltac:(lia))
    as (Ey & Em & Ed & Ew).
  split; [lia|]. split.
  - unfold getNthWeekdayOfMonth.
    destruct (Z.eqb_spec n (-1)); [lia|].
    apply (scan_forward_finds year month weekday n Hm Hw Hn
             (Z.to_nat (d1 + 7 * (n - 1) - 1)) 1 0); [lia|fold d1; lia|].
    fold d1. Z.div_mod_to_equations. lia.
  - split; [exact Ey|]. split; [exact Em|]. split; [exact Ed|].
    rewrite Ew. f_equal. unfold d1, WeekDay. Z.div_mod_to_equations. lia.
Qed.

(** X7. For n from 1 to 4, [getNthWeekdayOfMonth] finds a date: it
    falls in the given month of the year the [Date] constructor reads, on
    the given weekday, and is the n-th such day: its day of the month lies
    in the n-th run of seven days. *)
Theorem getNthWeekdayOfMonth_nth (year month weekday n : Z) :
  0 <= month <= 11 -> 0 <= weekday <= 6 -> 1 <= n <= 4 ->
  exists d date,
    getNthWeekdayOfMonth year month weekday n = Some d
    /\ getFullYear d = Num (full_year year)
    /\ getMonth d = Num month
    /\ getDay d = Num weekday
    /\ getDate d = Num date
    /\ 7 * (n - 1) < date <= 7 * n.
Proof.
  intros Hm Hw Hn.
  destruct (getNthWeekdayOfMonth_nth_date year month weekday n Hm Hw Hn)
    as (date & Hd & E & Ey & Em & Ed & Ew).
  eexists _, date. repeat split; eauto; lia.
Qed.

Lemma getNthWeekdayOfMonth_nth_witness :
  0 <= 10 <= 11 /\ 0 <= 4 <= 6 /\ 1 <= 4 <= 4
  /\ exists d date,
       getNthWeekdayOfMonth 2026 10 4 4 = Some d
       /\ getDay d = Num 4 /\ getDate d = Num date /\ 21 < date <= 28.
Proof.
  split; [lia|]. split; [lia|]. split; [lia|].
  destruct (getNthWeekdayOfMonth_nth 2026 10 4 4 ltac:(lia) ltac:(lia)
              ltac:(lia)) as (d & date & E & _ & _ & Hw & Hd & Hr).
  exists d, date. split; [exact E|]. split; [exact Hw|]. split; [exact Hd|].
  lia.
Defined.

Ltac next_month :=
  match goal with
  | |- context [DaysBeforeMonth _ (?a + 1)] =>
      let v := eval vm_compute in (a + 1) in change (a + 1) with v
  end;
  cbn [DaysBeforeMonth Z.leb Z.eqb Z.compare Pos.compare Pos.compare_cont
       Pos.eqb orb].

(** Day 0 of the next month is the last day of the month; a date past the
    end of the month is a date of the next month. *)
Lemma MakeDay_overflow (y m j : Z) :
  0 <= m <= 11 ->
  MakeDay y (m + 1) j = MakeDay y m (DaysInMonth y m + j)
  /\ MakeDay y m (DaysInMonth y m + j)
     = if m =? 11 then MakeDay (y + 1) 0 j else MakeDay y (m + 1) j.
Proof.
  intros Hm. pose proof (InLeapYear_range y) as Hl.
  assert (E : MakeDay y (m + 1) j = MakeDay y m (DaysInMonth y m + j)).
  { unfold MakeDay, DaysInMonth.
    destruct (Z.eq_dec m 11) as [->|Hne].
    - change ((11 + 1) / 12) with 1. change ((11 + 1) mod 12) with 0.
      change (11 / 12) with 0. change (11 mod 12) with 11.
      rewrite !Z.add_0_r, DayFromYear_next, DaysInYear_leap.
      cbn [DaysBeforeMonth Z.leb Z.eqb Z.compare Pos.compare Pos.compare_cont
           Pos.eqb orb]. lia.
    - rewrite !Z.div_small, !Z.mod_small, !Z.add_0_r by lia.
      assert (m = 0 \/ m = 1 \/ m = 2 \/ m = 3 \/ m = 4 \/ m = 5 \/ m = 6
              \/ m = 7 \/ m = 8 \/ m = 9 \/ m = 10) as Hc by lia.
      repeat (destruct Hc as [->|Hc]; [next_month; lia|]).
      subst m. next_month. lia. }
  split; [exact E|]. rewrite <- E.
  destruct (Z.eqb_spec m 11) as [->|]; [|reflexivity].
  unfold MakeDay. change ((11 + 1) / 12) with 1. change ((11 + 1) mod 12) with 0.
  change (0 / 12) with 0. change (0 mod 12) with 0. now rewrite !Z.add_0_r.
Qed.

Lemma lastDay_date (year month : Z) :
  0 <= month <= 11 ->
  getDate (new_Date (Num year) (Num (month + 1)) (Num 0))
  = Num (DaysInMonth (full_year year) month).
Proof.
  intros Hm. cbn [new_Date getDate]. rewrite Day_of_days.
  destruct (MakeDay_overflow (full_year year) month 0 Hm) as [-> _].
  rewrite Z.add_0_r.
  pose proof (DaysInMonth_range (full_year year) month).
  now destruct (MakeDay_inverse (full_year year) month
                  (DaysInMonth (full_year year) month) Hm ltac:(lia)) as (_ & _ & ->).
Qed.

Lemma last_weekday (year month weekday : Z) :
  0 <= month <= 11 -> 0 <= weekday <= 6 ->
  exists r, 0 <= r < 7
    /\ getNthWeekdayOfMonth year month weekday (-1)
       = Some (new_Date (Num year) (Num month)
                        (Num (DaysInMonth (full_year year) month - r)))
    /\ getFullYear (new_Date (Num year) (Num month)
                        (Num (DaysInMonth (full_year year) month - r)))
       = Num (full_year year)
    /\ getMonth (new_Date (Num year) (Num month)
                        (Num (DaysInMonth (full_year year) month - r)))
       = Num month
    /\ getDate (new_Date (Num year) (Num month)
                        (Num (DaysInMonth (full_year year) month - r)))
       = Num (DaysInMonth (full_year year) month - r)
    /\ getDay (new_Date (Num year) (Num month)
                        (Num (DaysInMonth (full_year year) month - r)))
       = Num weekday.
Proof.
  intros Hm Hw. unfold getNthWeekdayOfMonth. rewrite Z.eqb_refl.
  rewrite (lastDay_date year month Hm).
  set (L := DaysInMonth (full_year year) month).
  pose proof (DaysInMonth_range (full_year year) month) as HL. fold L in HL.
  set (r := (WeekDay (MakeDay (full_year year) month L) - weekday) mod 7).
  assert (Hr : 0 <= r < 7) by (apply Z.mod_pos_bound; lia).
  rewrite (scan_back_finds year month weekday (Z.to_nat r) Hw 7 L)
    by (fold r; lia).
  rewrite Z2Nat.id by lia.
  exists r. split; [exact Hr|]. split; [reflexivity|].
  destruct (new_Date_fields year month (L - r) Hm ltac:(fold L; lia))
    as (Ey & Em & Ed & Ew).
  split; [exact Ey|]. split; [exact Em|]. split; [exact Ed|].
  rewrite Ew. f_equal. unfold r. rewrite (MakeDay_date _ _ L).
  unfold WeekDay. Z.div_mod_to_equations. lia.
Qed.

(** X8. For n = -1, [getNthWeekdayOfMonth] finds the last day of the
    month that falls on the given weekday: it is in the month, on the
    weekday, and seven days later the next month has begun. *)
Theorem getNthWeekdayOfMonth_last (year month weekday : Z) :
  0 <= month <= 11 -> 0 <= weekday <= 6 ->
  exists d,
    getNthWeekdayOfMonth year month weekday (-1) = Some d
    /\ getFullYear d = Num (full_year year)
    /\ getMonth d = Num month
    /\ getDay d = Num weekday
    /\ getMonth (addDays d (Num 7)) = Num ((month + 1) mod 12).
Proof.
  intros Hm Hw.
  destruct (last_weekday year month weekday Hm Hw) as (r & Hr & E & Ey & Em & _ & Ew).
  eexists. split; [exact E|]. split; [exact Ey|]. split; [exact Em|].
  split; [exact Ew|].
  set (L := DaysInMonth (full_year year) month) in *.
  pose proof (DaysInMonth_range (full_year year) month) as HL. fold L in HL.
  cbn [new_Date]. rewrite addDays_valid. cbn [getMonth]. f_equal.
  rewrite Day_addDays, Day_of_days.
  replace (MakeDay (full_year year) month (L - r) + 7)
    with (MakeDay (full_year year) month (L + (7 - r)))
    by (rewrite (MakeDay_date _ _ (L - r)), (MakeDay_date _ _ (L + (7 - r))); lia).
  destruct (MakeDay_overflow (full_year year) month (7 - r) Hm) as [_ E'].
  fold L in E'. rewrite E'.
  destruct (Z.eqb_spec month 11) as [->|Hne].
  - change ((11 + 1) mod 12) with 0.
    now destruct (MakeDay_inverse (full_year year + 1) 0 (7 - r) ltac:(lia)
                    ltac:(cbn; lia)) as (_ & -> & _).
  - rewrite Z.mod_small by lia.
    pose proof (DaysInMonth_range (full_year year) (month + 1)).
    now destruct (MakeDay_inverse (full_year year) (month + 1) (7 - r)
                    ltac:(lia) ltac:(lia)) as (_ & -> & _).
Qed.

Lemma getNthWeekdayOfMonth_last_witness :
  0 <= 4 <= 11 /\ 0 <= 1 <= 6
  /\ exists d,
       getNthWeekdayOfMonth 2026 4 1 (-1) = Some d
       /\ getMonth d = Num 4 /\ getDay d = Num 1
       /\ getMonth (addDays d (Num 7)) = Num 5.
Proof.
  split; [lia|]. split; [lia|].
  destruct (getNthWeekdayOfMonth_last 2026 4 1 ltac:(lia) ltac:(lia))
    as (d & E & _ & Hm & Hw & Hn).
  exists d. split; [exact E|]. split; [exact Hm|]. split; [exact Hw|exact Hn].
Defined.

(** X9. The holidays of any year: six entries under fixed keys, in
    order; each has a date at midnight in the year; New Year's Day is
    the first of January, Memorial Day the last Monday of May, the fourth
    of July, Labor Day the first Monday of September, Thanksgiving the
    fourth Thursday of November, Christmas the 25th of December. *)
Theorem getHolidaysForYear_calendar (year : Z) :
  map fst (getHolidaysForYear year)
  = ["newYearsDay"; "memorialDay"; "july4th"; "laborDay"; "thanksgiving";
     "christmas"]%string
  /\ Forall (fun e => exists d, h_date (snd e) = Some d
                                /\ getFullYear d = Num (full_year year)
                                /\ setHours0 d = d)
            (getHolidaysForYear year)
  /\ (exists d, dict_get "newYearsDay" (getHolidaysForYear year) ≫= h_date = Some d
                /\ getMonth d = Num 0 /\ getDate d = Num 1)
  /\ (exists d date, dict_get "memorialDay" (getHolidaysForYear year) ≫= h_date = Some d
                /\ getMonth d = Num 4 /\ getDay d = Num 1
                /\ getDate d = Num date /\ 25 <= date <= 31)
  /\ (exists d, dict_get "july4th" (getHolidaysForYear year) ≫= h_date = Some d
                /\ getMonth d = Num 6 /\ getDate d = Num 4)
  /\ (exists d date, dict_get "laborDay" (getHolidaysForYear year) ≫= h_date = Some d
                /\ getMonth d = Num 8 /\ getDay d = Num 1
                /\ getDate d = Num date /\ 1 <= date <= 7)
  /\ (exists d date, dict_get "thanksgiving" (getHolidaysForYear year) ≫= h_date = Some d
                /\ getMonth d = Num 10 /\ getDay d = Num 4
                /\ getDate d = Num date /\ 22 <= date <= 28)
  /\ (exists d, dict_get "christmas" (getHolidaysForYear year) ≫= h_date = Some d
                /\ getMonth d = Num 11 /\ getDate d = Num 25).
Proof.
  destruct (last_weekday year 4 1 ltac:(lia) ltac:(lia))
    as (r & Hr & Em & Emf).
  destruct (getNthWeekdayOfMonth_nth_date year 8 1 1 ltac:(lia) ltac:(lia) ltac:(lia))
    as (dl & Hdl & El & Elf).
  destruct (getNthWeekdayOfMonth_nth_date year 10 4 4 ltac:(lia) ltac:(lia) ltac:(lia))
    as (dt & Hdt & Et & Etf).
  unfold getHolidaysForYear. rewrite Em, El, Et.
  change (DaysInMonth (full_year year) 4) with 31 in *.
  destruct (new_Date_fields year 0 1 ltac:(lia) ltac:(cbn; lia)) as (N1 & N2 & N3 & _).
  destruct (new_Date_fields year 6 4 ltac:(lia) ltac:(cbn; lia)) as (J1 & J2 & J3 & _).
  destruct (new_Date_fields year 11 25 ltac:(lia) ltac:(cbn; lia)) as (C1 & C2 & C3 & _).
  destruct Emf as (M1 & M2 & M3 & M4).
  destruct Elf as (L1 & L2 & L3 & L4).
  destruct Etf as (T1 & T2 & T3 & T4).
  assert (Mid : forall y m k, setHours0 (new_Date (Num y) (Num m) (Num k))
                              = new_Date (Num y) (Num m) (Num k)).
  { intros. cbn [new_Date setHours0]. now rewrite Day_of_days. }
  split; [reflexivity|]. split.
  - repeat (apply Forall_cons; split; [cbn [snd h_date]; eauto|]).
    constructor.
  - split; [eexists; split; [reflexivity|auto]|].
    split; [do 2 eexists; split; [reflexivity|]; split; [eassumption|]; split; [eassumption|]; split; [eassumption|lia]|].
    split; [eexists; split; [reflexivity|auto]|].
    split; [do 2 eexists; split; [reflexivity|]; split; [eassumption|]; split; [eassumption|]; split; [eassumption|lia]|].
    split; [do 2 eexists; split; [reflexivity|]; split; [eassumption|]; split; [eassumption|]; split; [eassumption|lia]|].
    eexists; split; [reflexivity|auto].
Qed.

(** lemmas *)
Lemma nearest_step_weeks (t weekStartDay : Z) (st : Nearest) (e : string * Holiday) :
  nearest_step (ValidDate t) weekStartDay st e
  = match weeks_from t weekStartDay (snd e) with
    | Some w =>
        if match minDistance st with
           | None => true
           | Some m => Z.abs w <? Z.abs m
           end
        then {| nearestHoliday := Some e; minDistance := Some w; weeksAway := w |}
        else st
    | None => st
    end.
Proof.
  destruct e as [k h]. unfold nearest_step, weeks_from. cbn [getTime snd].
  destruct (getTime (span_start _)); reflexivity.
Qed.

Lemma nearest_fold (t weekStartDay : Z) (l : Dict) :
  nearest_inv t weekStartDay l
    (fold_left (nearest_step (ValidDate t) weekStartDay) l
       {| nearestHoliday := None; minDistance := None; weeksAway := 0 |}).
Proof.
  induction l as [|x l IH] using rev_ind.
  - left. repeat split. constructor.
  - rewrite fold_left_app. cbn [fold_left].
    set (st := fold_left _ l _) in *. rewrite nearest_step_weeks.
    destruct IH as [(Hn & Hm & Hall)|(l1 & e & l2 & w & -> & Hn & Hm & Hw & He & H1 & H2)].
    + rewrite Hm. destruct (weeks_from t weekStartDay (snd x)) as [w|] eqn:Ex.
      * right. exists l, x, [], w. cbn.
        do 5 (split; [first [reflexivity|assumption]|]). split; [|constructor].
        eapply Forall_impl; [exact Hall|]. intros e He w' Hw'. congruence.
      * left. do 2 (split; [assumption|]).
        apply Forall_app. split; [exact Hall|]. now repeat constructor.
    + rewrite Hm. destruct (weeks_from t weekStartDay (snd x)) as [w'|] eqn:Ex.
      * destruct (Z.ltb_spec (Z.abs w') (Z.abs w)) as [Hlt|Hge].
        -- right. exists (l1 ++ e :: l2), x, [], w'. cbn.
           do 5 (split; [first [reflexivity|assumption]|]). split; [|constructor].
           apply Forall_app. split; [|apply Forall_cons; split].
           ++ eapply Forall_impl; [exact H1|]. intros e' He' w'' Hw''.
              specialize (He' w'' Hw''). cbn in *. lia.
           ++ intros w'' Hw''. cbn. rewrite He in Hw''. injection Hw'' as <-. lia.
           ++ eapply Forall_impl; [exact H2|]. intros e' He' w'' Hw''.
              specialize (He' w'' Hw''). cbn in *. lia.
        -- right. exists l1, e, (l2 ++ [x]), w.
           rewrite <- app_assoc. cbn.
           do 5 (split; [first [reflexivity|assumption]|]). split; [assumption|].
           apply Forall_app. split; [exact H2|]. repeat constructor.
           intros w'' Hw''. cbn in *. rewrite Ex in Hw''. injection Hw'' as <-. lia.
      * right. exists l1, e, (l2 ++ [x]), w.
        rewrite <- app_assoc. cbn.
        do 5 (split; [first [reflexivity|assumption]|]). split; [assumption|].
        apply Forall_app. split; [exact H2|]. repeat constructor.
        intros w'' Hw''. cbn in *. congruence.
Qed.

Lemma weeks_from_None (t weekStartDay : Z) (h : Holiday) :
  weeks_from t weekStartDay h = None <-> h_date h = Some InvalidDate.
Proof.
  unfold weeks_from. split.
  - intros H. destruct (h_date h) as [[t'|]|] eqn:E; [|reflexivity|];
      exfalso; destruct (span_start_valid (h_date h) weekStartDay) as [s Hs];
      try (rewrite E; discriminate); rewrite E in Hs; rewrite Hs in H; discriminate.
  - intros ->. reflexivity.
Qed.

(** What [getWeekHolidayRelationship] returns is the first holiday of
    least distance in whole weeks. *)
Lemma nearest_relationship
        (t : Z) (holidays : Dict) (weekStartDay : Z) (rel : Relationship) :
  getWeekHolidayRelationship (ValidDate t) holidays weekStartDay = Ok rel ->
  exists before after,
    holidays = before ++ rel_holiday rel :: after
    /\ weeks_from t weekStartDay (snd (rel_holiday rel)) = Some (rel_weeksAway rel)
    /\ Forall (farther true t weekStartDay (rel_weeksAway rel)) before
    /\ Forall (farther false t weekStartDay (rel_weeksAway rel)) after.
Proof.
  unfold getWeekHolidayRelationship.
  pose proof (nearest_fold t weekStartDay holidays) as H.
  set (st := fold_left _ holidays _) in *.
  destruct H as [(Hn & _)|(l1 & e & l2 & w & -> & Hn & Hm & Hw & He & H1 & H2)];
    rewrite Hn; [discriminate|].
  destruct e as [k h]. intros [= <-]. cbn [rel_holiday rel_weeksAway snd].
  rewrite Hw. exists l1, l2. auto.
Qed.

(** X10. The holiday [getWeekHolidayRelationship] returns for a week is the
    nearest one, counted in whole weeks between the week of the holiday
    and the week: every holiday before it in the dictionary is farther
    away, no holiday after it is nearer, and [weeksAway] is that number
    of weeks. *)
Theorem getWeekHolidayRelationship_nearest
        (t : Z) (holidays : Dict) (weekStartDay : Z) (rel : Relationship) :
  getWeekHolidayRelationship (ValidDate t) holidays weekStartDay = Ok rel ->
  exists before after,
    holidays = before ++ rel_holiday rel :: after
    /\ weeks_from t weekStartDay (snd (rel_holiday rel)) = Some (rel_weeksAway rel)
    /\ Forall (farther true t weekStartDay (rel_weeksAway rel)) before
    /\ Forall (farther false t weekStartDay (rel_weeksAway rel)) after.
Proof. apply nearest_relationship. Qed.

Lemma getWeekHolidayRelationship_nearest_witness :
  exists rel before after,
    getWeekHolidayRelationship (ValidDate (MakeDay 2026 6 11 * msPerDay))
                               (getHolidaysForYear 2026) 6 = Ok rel
    /\ fst (rel_holiday rel) = "july4th"
    /\ rel_weeksAway rel = 1
    /\ getHolidaysForYear 2026 = before ++ rel_holiday rel :: after.
Proof.
  assert (E : exists rel,
             getWeekHolidayRelationship (ValidDate (MakeDay 2026 6 11 * msPerDay))
                                        (getHolidaysForYear 2026) 6 = Ok rel
             /\ fst (rel_holiday rel) = "july4th" /\ rel_weeksAway rel = 1).
  { eexists. split; [vm_compute; reflexivity|]. split; reflexivity. }
  destruct E as (rel & E & K & W).
  destruct (getWeekHolidayRelationship_nearest _ _ _ _ E)
    as (before & after & H & _).
  exists rel, before, after. auto.
Defined.

(** X11. [getWeekHolidayRelationship] returns exactly when the week start
    is a valid date and some holiday of the dictionary has a date that is
    not the Invalid Date; otherwise it throws. *)
Theorem getWeekHolidayRelationship_throws (weekStart : Date) (holidays : Dict)
        (weekStartDay : Z) :
  (exists rel, getWeekHolidayRelationship weekStart holidays weekStartDay = Ok rel)
  <-> weekStart <> InvalidDate
      /\ exists e, In e holidays /\ h_date (snd e) <> Some InvalidDate.
Proof.
  destruct weekStart as [t|].
  2: { rewrite getWeekHolidayRelationship_invalid. split.
       - intros [rel H]. discriminate.
       - intros [H _]. congruence. }
  split.
  - intros [rel H]. split; [discriminate|].
    apply nearest_relationship in H as (l1 & l2 & -> & Hw & _).
    exists (rel_holiday rel). split; [apply in_or_app; right; now left|].
    intros E. apply (weeks_from_None t weekStartDay) in E. congruence.
  - intros [_ (e & Hin & He)]. unfold getWeekHolidayRelationship.
    pose proof (nearest_fold t weekStartDay holidays) as H.
    set (st := fold_left _ holidays _) in *.
    destruct H as [(Hn & _ & Hall)|(l1 & e' & l2 & w & -> & Hn & _)].
    + rewrite List.Forall_forall in Hall. apply Hall in Hin.
      apply weeks_from_None in Hin. congruence.
    + rewrite Hn. destruct e' as [k h]. eexists. reflexivity.
Qed.

Lemma round_div_exact (k b : Z) : 0 < b -> round_div (k * b) b = k.
Proof. intros Hb. unfold round_div. Z.div_mod_to_equations. nia. Qed.

Lemma dict_get_In (k : string) (h : Holiday) (d : Dict) :
  dict_get k d = Some h -> In (k, h) d.
Proof.
  induction d as [|[k' h'] d IH]; cbn; [discriminate|].
  destruct (String.eqb_spec k k') as [->|]; [intros [= ->]; now left|auto].
Qed.

Lemma dict_get_keys (k : string) (d : Dict) :
  dict_get k d <> None <-> In k (map fst d).
Proof.
  induction d as [|[k' h'] d IH]; cbn; [tauto|].
  destruct (String.eqb_spec k k') as [->|Hne].
  - split; [auto|discriminate].
  - rewrite IH. split; [auto|]. intros [E|H]; [congruence|exact H].
Qed.

Lemma dict_get_unique (k : string) (h : Holiday) (d : Dict) :
  List.NoDup (map fst d) -> In (k, h) d -> dict_get k d = Some h.
Proof.
  induction d as [|[k' h'] d IH]; cbn; [tauto|].
  intros Hnd [E|Hin].
  - injection E as -> ->. now rewrite String.eqb_refl.
  - inversion Hnd as [|? ? Hni Hnd']; subst.
    destruct (String.eqb_spec k k') as [->|]; [|auto].
    exfalso. apply Hni. apply (in_map fst) in Hin. exact Hin.
Qed.

Lemma dict_set_keys (k x : string) (h : Holiday) (d : Dict) :
  In x (map fst (dict_set k h d)) <-> x = k \/ In x (map fst d).
Proof.
  induction d as [|[k' h'] d IH]; cbn [dict_set map fst In];
    [intuition congruence|].
  destruct (String.eqb_spec k k') as [->|Hne]; cbn [map fst In].
  - intuition congruence.
  - rewrite IH. intuition congruence.
Qed.

Lemma dict_set_NoDup (k : string) (h : Holiday) (d : Dict) :
  List.NoDup (map fst d) -> List.NoDup (map fst (dict_set k h d)).
Proof.
  induction d as [|[k' h'] d IH]; cbn [dict_set map fst]; intros H.
  - repeat constructor. cbn. tauto.
  - inversion H as [|? ? Hni Hnd]; subst.
    destruct (String.eqb_spec k k') as [->|Hne]; cbn [map fst];
      [now constructor|].
    constructor; [|auto]. rewrite dict_set_keys. intros [E|E]; congruence.
Qed.

Lemma getHolidaysForYear_keys (year : Z) :
  map fst (getHolidaysForYear year)
  = ["newYearsDay"; "memorialDay"; "july4th"; "laborDay"; "thanksgiving";
     "christmas"]%string.
Proof. reflexivity. Qed.

Lemma all_holidays_NoDup (sourceYear targetYear : Z) (anchors : list Anchor) :
  List.NoDup (map fst (fst (all_holidays sourceYear targetYear anchors)))
  /\ List.NoDup (map fst (snd (all_holidays sourceYear targetYear anchors))).
Proof.
  unfold all_holidays.
  assert (H0 : forall y, List.NoDup (map fst (getHolidaysForYear y))).
  { intros y. rewrite getHolidaysForYear_keys.
    repeat (constructor; [cbn; intuition discriminate|]). constructor. }
  generalize (H0 sourceYear) (H0 targetYear).
  generalize (getHolidaysForYear sourceYear) (getHolidaysForYear targetYear).
  induction (List.filter a_enabled anchors) as [|a l IH]; intros src tgt Hs Ht;
    cbn [fold_left]; [now split|].
  apply IH; unfold add_anchor; cbn [fst snd].
  - destruct (a_sourceDate a); [now apply dict_set_NoDup|exact Hs].
  - destruct (a_targetDate a); [now apply dict_set_NoDup|exact Ht].
Qed.

(** What the mapper computes for one week. *)
Lemma mapWeek_target (src tgt : Dict) (weekStartDay : Z) (sw : SourceWeek)
      (m : Mapping) :
  mapWeek src tgt weekStartDay sw = Ok m ->
  exists ss rel,
    resolve_sourceStart sw = Ok ss
    /\ getWeekHolidayRelationship ss src weekStartDay = Ok rel
    /\ m_holidayKey m = Some (fst (rel_holiday rel))
    /\ m_weeksAway m = Some (rel_weeksAway rel)
    /\ match dict_get (fst (rel_holiday rel)) tgt with
       | None => m_target m = None /\ m_error m = Some no_anchor_error
       | Some th =>
           let s := addDays (span_start (getWeekContainingDate (h_date th) weekStartDay))
                            (Num (rel_weeksAway rel * 7)) in
           m_target m = Some {| start := s; end_ := addDays s (Num 7);
                                key := weekKey s |}
           /\ m_error m = None
           /\ m_proposedPrice m = Some (sw_price sw)
       end.
Proof.
  unfold mapWeek.
  destruct (resolve_sourceStart sw) as [ss|] eqn:Hs; cbn [JS.bind]; [|discriminate].
  destruct (getWeekHolidayRelationship ss src weekStartDay) as [rel|] eqn:Hr;
    cbn [JS.bind]; [|discriminate].
  intros H. exists ss, rel. split; [reflexivity|]. split; [exact Hr|].
  destruct (dict_get _ tgt); injection H as <-; cbn; auto.
Qed.

Lemma getWeekContainingDate_ok (date : option Date) (weekStartDay : Z) :
  0 <= weekStartDay <= 6 -> date <> Some InvalidDate ->
  exists s, WeekDay s = weekStartDay
    /\ getWeekContainingDate date weekStartDay
       = {| span_start := ValidDate (s * msPerDay);
            span_end := ValidDate ((s + 7) * msPerDay) |}.
Proof.
  intros Hw Hd.
  assert (G : exists t, getWeekContainingDate date weekStartDay
                        = getWeekContainingDate (Some (ValidDate t)) weekStartDay).
  { destruct date as [[t|]|]; [exists t; reflexivity|congruence|exists 0; reflexivity]. }
  destruct G as [t ->]. rewrite getWeekContainingDate_valid by exact Hw.
  exists (week_start_day (Day t) weekStartDay). split; [|reflexivity].
  now apply week_start_day_spec.
Qed.

Lemma weeks_from_start (t weekStartDay s : Z) (h : Holiday) :
  span_start (getWeekContainingDate (h_date h) weekStartDay) = ValidDate (s * msPerDay) ->
  weeks_from t weekStartDay h
  = Some (round_div (round_div (t - s * msPerDay) msPerDay) 7).
Proof. intros H. unfold weeks_from. now rewrite H. Qed.

(** X12. A successful mapping keeps the distance to its anchor: the target
    week starts at midnight of a week start day, lasts seven days and
    carries the key of its start, and it lies as many whole weeks from
    the week of the anchor in the target year as the source week lies
    from the week of the anchor in the source year, the [weeksAway] of
    the mapping. *)
Theorem mapWeeksByHolidays_keeps_distance
        (sourceWeeks : list SourceWeek) (sourceYear targetYear : Z)
        (anchors : list Anchor) (weekStartDay : Z) (mappings : list Mapping) :
  0 <= weekStartDay <= 6 ->
  mapWeeksByHolidays sourceWeeks sourceYear targetYear anchors weekStartDay
  = Ok mappings ->
  Forall2
    (fun sourceWeek m =>
       forall target, m_target m = Some target ->
         exists t t' k sourceHoliday targetHoliday w,
           resolve_sourceStart sourceWeek = Ok (ValidDate t)
           /\ start target = ValidDate t'
           /\ getDay (start target) = Num weekStartDay
           /\ setHours0 (start target) = start target
           /\ end_ target = addDays (start target) (Num 7)
           /\ key target = weekKey (start target)
           /\ m_holidayKey m = Some k /\ m_weeksAway m = Some w
           /\ In (k, sourceHoliday) (fst (all_holidays sourceYear targetYear anchors))
           /\ dict_get k (snd (all_holidays sourceYear targetYear anchors))
              = Some targetHoliday
           /\ weeks_from t weekStartDay sourceHoliday = Some w
           /\ weeks_from t' weekStartDay targetHoliday = Some w)
    sourceWeeks mappings.
Proof.
  intros Hw. unfold mapWeeksByHolidays.
  pose proof (all_holidays_ok sourceYear targetYear anchors) as [_ [_ Ht]].
  destruct (all_holidays sourceYear targetYear anchors) as [src tgt].
  cbn [fst snd] in *. intros H. apply mapM_inv in H.
  eapply Forall2_impl; [exact H|]. clear H.
  intros sw m Hm target Htg.
  apply mapWeek_target in Hm as (ss & rel & Hs & Hr & Hk & Hwa & Hm).
  destruct ss as [t|]; [|rewrite getWeekHolidayRelationship_invalid in Hr; discriminate].
  destruct (dict_get (fst (rel_holiday rel)) tgt) as [th|] eqn:Hg;
    [|destruct Hm; congruence].
  destruct Hm as (Hm & _). rewrite Hm in Htg. injection Htg as <-.
  apply nearest_relationship in Hr as (l1 & l2 & -> & Hd & _).
  assert (Hok : h_date th <> Some InvalidDate).
  { apply dict_get_In in Hg. rewrite List.Forall_forall in Ht. exact (Ht _ Hg). }
  destruct (getWeekContainingDate_ok (h_date th) weekStartDay Hw Hok) as (s & Hs1 & Hs2).
  pose proof (f_equal span_start Hs2) as Hs3. cbn [span_start] in Hs3.
  rewrite Hs3, addDays_valid. cbn [start end_ key].
  exists t, (s * msPerDay + rel_weeksAway rel * 7 * msPerDay),
    (fst (rel_holiday rel)), (snd (rel_holiday rel)), th, (rel_weeksAway rel).
  split; [exact Hs|]. split; [reflexivity|].
  assert (E : s * msPerDay + rel_weeksAway rel * 7 * msPerDay
              = (s + 7 * rel_weeksAway rel) * msPerDay) by lia.
  rewrite E. cbn [getDay setHours0]. rewrite Day_of_days.
  split; [f_equal; unfold WeekDay in *; Z.div_mod_to_equations; lia|].
  do 5 (split; [reflexivity || assumption|]).
  split; [apply in_or_app; right; left; now destruct (rel_holiday rel)|].
  split; [exact Hg|]. split; [exact Hd|].
  rewrite (weeks_from_start _ _ s th Hs3).
  replace ((s + 7 * rel_weeksAway rel) * msPerDay - s * msPerDay)
    with (7 * rel_weeksAway rel * msPerDay) by lia.
  rewrite round_div_exact by (unfold msPerDay; lia).
  replace (7 * rel_weeksAway rel) with (rel_weeksAway rel * 7) by lia.
  now rewrite round_div_exact by lia.
Qed.

Lemma mapWeeksByHolidays_keeps_distance_witness :
  0 <= 6 <= 6
  /\ exists mappings,
       mapWeeksByHolidays Examples.july4thOnly 2026 2027 [] 6 = Ok mappings
       /\ Forall2
            (fun sourceWeek m =>
               forall target, m_target m = Some target ->
                 getDay (start target) = Num 6
                 /\ key target = weekKey (start target))
            Examples.july4thOnly mappings.
Proof.
  split; [lia|].
  assert (E : exists mappings,
             mapWeeksByHolidays Examples.july4thOnly 2026 2027 [] 6
             = Ok mappings) by (eexists; vm_compute; reflexivity).
  destruct E as [mappings E]. exists mappings. split; [exact E|].
  eapply Forall2_impl;
    [exact (mapWeeksByHolidays_keeps_distance Examples.july4thOnly 2026 2027
              [] 6 mappings ltac:(lia) E)|].
  intros sw m H target Ht.
  destruct (H target Ht) as (? & ? & ? & ? & ? & ? & _ & _ & Hd & _ & _ & Hk & _).
  split; [exact Hd|exact Hk].
Defined.

Lemma fold_add_anchor_same (l : list Anchor) (d : Dict) :
  Forall (fun a => a_sourceDate a = a_targetDate a) l ->
  fst (fold_left add_anchor l (d, d)) = snd (fold_left add_anchor l (d, d)).
Proof.
  revert d. induction l as [|a l IH]; intros d H; [reflexivity|].
  inversion H as [|? ? Ha Hl]; subst. cbn [fold_left].
  unfold add_anchor at 2 4. rewrite Ha.
  destruct (a_targetDate a); apply IH, Hl.
Qed.

Lemma all_holidays_same (year : Z) (anchors : list Anchor) :
  Forall same_dates anchors ->
  fst (all_holidays year year anchors) = snd (all_holidays year year anchors).
Proof.
  intros H. unfold all_holidays. apply fold_add_anchor_same.
  apply List.Forall_forall. intros a Ha. apply filter_In in Ha as [Ha He].
  rewrite List.Forall_forall in H. exact (H a Ha He).
Qed.

Lemma new_Date_midnight (y m d : number) (t : Z) :
  new_Date y m d = ValidDate t -> t = Day t * msPerDay.
Proof.
  destruct y, m, d; cbn; try discriminate. intros [= <-].
  now rewrite Day_of_days.
Qed.

Lemma resolve_sourceStart_midnight (sw : SourceWeek) (t : Z) :
  resolve_sourceStart sw = Ok (ValidDate t) -> t = Day t * msPerDay.
Proof.
  unfold resolve_sourceStart. destruct (sw_start sw).
  - destruct (or_string _ _); [|discriminate]. intros [= H].
    unfold parseWeekKey in H. now apply new_Date_midnight in H.
  - intros [= H]. now apply new_Date_midnight in H.
Qed.

(** X13. Mapping a year onto itself changes nothing: when every enabled
    anchor has the same date on both sides, a source week that starts on
    the week start day is mapped to itself, with its price. *)
Theorem mapWeeksByHolidays_same_year
        (sourceWeeks : list SourceWeek) (year : Z)
        (anchors : list Anchor) (weekStartDay : Z) (mappings : list Mapping) :
  0 <= weekStartDay <= 6 ->
  Forall same_dates anchors ->
  mapWeeksByHolidays sourceWeeks year year anchors weekStartDay = Ok mappings ->
  Forall2
    (fun sourceWeek m =>
       forall sourceStart,
         resolve_sourceStart sourceWeek = Ok sourceStart ->
         getDay sourceStart = Num weekStartDay ->
         m_target m = Some {| start := sourceStart;
                              end_ := addDays sourceStart (Num 7);
                              key := weekKey sourceStart |}
         /\ m_proposedPrice m = Some (sw_price sourceWeek))
    sourceWeeks mappings.
Proof.
  intros Hw Hsame. unfold mapWeeksByHolidays.
  pose proof (all_holidays_ok year year anchors) as [[_ Hs] _].
  pose proof (all_holidays_NoDup year year anchors) as [Hnd _].
  pose proof (all_holidays_same year anchors Hsame) as Heq.
  destruct (all_holidays year year anchors) as [src tgt].
  cbn [fst snd] in *. subst tgt. intros H. apply mapM_inv in H.
  eapply Forall2_impl; [exact H|]. clear H.
  intros sw m Hm ss Hss Hday.
  apply mapWeek_target in Hm as (ss' & rel & Hs' & Hr & _ & _ & Hm).
  rewrite Hss in Hs'. injection Hs' as <-.
  destruct ss as [t|]; [|discriminate].
  pose proof (resolve_sourceStart_midnight sw t Hss) as Ht.
  apply nearest_relationship in Hr as (l1 & l2 & E & Hd & _).
  assert (Hin : In (rel_holiday rel) src)
    by (rewrite E; apply in_or_app; right; now left).
  assert (Hg : dict_get (fst (rel_holiday rel)) src = Some (snd (rel_holiday rel))).
  { apply dict_get_unique; [exact Hnd|]. now destruct (rel_holiday rel). }
  rewrite Hg in Hm. destruct Hm as (Hm & _ & Hp). split; [|exact Hp].
  rewrite Hm. clear Hm.
  assert (Hok : h_date (snd (rel_holiday rel)) <> Some InvalidDate).
  { rewrite List.Forall_forall in Hs. exact (Hs _ Hin). }
  destruct (getWeekContainingDate_ok _ weekStartDay Hw Hok) as (s & Hs1 & Hs2).
  pose proof (f_equal span_start Hs2) as Hs3. cbn [span_start] in Hs3.
  rewrite (weeks_from_start _ _ s _ Hs3) in Hd. injection Hd as Hd.
  rewrite Hs3, addDays_valid.
  cbn [getDay] in Hday. injection Hday as Hday.
  assert (E7 : exists q, Day t - s = q * 7).
  { exists ((Day t - s) / 7). unfold WeekDay in *. Z.div_mod_to_equations. lia. }
  destruct E7 as [q Hq].
  assert (Hwa : rel_weeksAway rel = q).
  { rewrite <- Hd. rewrite Ht.
    replace (Day t * msPerDay - s * msPerDay) with (q * 7 * msPerDay) by lia.
    rewrite round_div_exact by (unfold msPerDay; lia).
    now rewrite round_div_exact by lia. }
  assert (Et : s * msPerDay + rel_weeksAway rel * 7 * msPerDay = t).
  { rewrite Hwa. lia. }
  rewrite Et. reflexivity.
Qed.

Lemma mapWeeksByHolidays_same_year_witness :
  0 <= 6 <= 6 /\ Forall same_dates []
  /\ exists mappings,
       mapWeeksByHolidays Examples.july4thOnly 2026 2026 [] 6 = Ok mappings
       /\ Forall2
            (fun sourceWeek m =>
               forall sourceStart,
                 resolve_sourceStart sourceWeek = Ok sourceStart ->
                 getDay sourceStart = Num 6 ->
                 m_target m = Some {| start := sourceStart;
                                      end_ := addDays sourceStart (Num 7);
                                      key := weekKey sourceStart |}
                 /\ m_proposedPrice m = Some (sw_price sourceWeek))
            Examples.july4thOnly mappings.
Proof.
  split; [lia|]. split; [constructor|].
  assert (E : exists mappings,
             mapWeeksByHolidays Examples.july4thOnly 2026 2026 [] 6
             = Ok mappings) by (eexists; vm_compute; reflexivity).
  destruct E as [mappings E]. exists mappings. split; [exact E|].
  exact (mapWeeksByHolidays_same_year Examples.july4thOnly 2026 [] 6 mappings
           ltac:(lia) (List.Forall_nil same_dates) E).
Defined.

Lemma fold_add_anchor_keys (l : list Anchor) (src tgt : Dict) :
  Forall (fun a => a_sourceDate a <> None -> a_targetDate a <> None) l ->
  (forall k, In k (map fst src) -> In k (map fst tgt)) ->
  forall k, In k (map fst (fst (fold_left add_anchor l (src, tgt)))) ->
            In k (map fst (snd (fold_left add_anchor l (src, tgt)))).
Proof.
  revert src tgt. induction l as [|a l IH]; intros src tgt H Hsub; [exact Hsub|].
  inversion H as [|? ? Ha Hl]; subst. cbn [fold_left].
  unfold add_anchor at 2 4.
  apply IH; [exact Hl|]. intros k.
  destruct (a_sourceDate a) as [s|], (a_targetDate a) as [t|];
    rewrite ?dict_set_keys; [| |intuition auto|auto].
  - intros [->|Hk]; auto.
  - exfalso. now apply Ha.
Qed.

(** X14. When every enabled anchor with a source date has a target date,
    no mapping is an error mapping: each has a target, no error and a
    price. *)
Theorem mapWeeksByHolidays_no_error
        (sourceWeeks : list SourceWeek) (sourceYear targetYear : Z)
        (anchors : list Anchor) (weekStartDay : Z) (mappings : list Mapping) :
  Forall has_target_date anchors ->
  mapWeeksByHolidays sourceWeeks sourceYear targetYear anchors weekStartDay
  = Ok mappings ->
  Forall (fun m => is_Some (m_target m) /\ m_error m = None
                   /\ is_Some (m_proposedPrice m))
         mappings.
Proof.
  intros Hc. unfold mapWeeksByHolidays.
  assert (Hsub : forall k,
            In k (map fst (fst (all_holidays sourceYear targetYear anchors))) ->
            In k (map fst (snd (all_holidays sourceYear targetYear anchors)))).
  { unfold all_holidays. apply fold_add_anchor_keys.
    - apply List.Forall_forall. intros a Ha. apply filter_In in Ha as [Ha He].
      rewrite List.Forall_forall in Hc. exact (Hc a Ha He).
    - intros k. now rewrite !getHolidaysForYear_keys. }
  destruct (all_holidays sourceYear targetYear anchors) as [src tgt].
  cbn [fst snd] in *. intros H. apply mapM_inv in H.
  eapply Forall2_right_In; [exact H|]. clear H.
  intros sw m _ Hm.
  apply mapWeek_target in Hm as (ss & rel & Hs & Hr & _ & _ & Hm).
  destruct ss as [t|]; [|rewrite getWeekHolidayRelationship_invalid in Hr; discriminate].
  apply nearest_relationship in Hr as (l1 & l2 & E & _).
  assert (Hin : In (fst (rel_holiday rel)) (map fst src)).
  { rewrite E, map_app. apply in_or_app. right. now left. }
  apply Hsub, dict_get_keys in Hin.
  destruct (dict_get (fst (rel_holiday rel)) tgt); [|congruence].
  destruct Hm as (-> & -> & ->). eauto.
Qed.

Lemma mapWeeksByHolidays_no_error_witness :
  Forall has_target_date []
  /\ exists mappings,
       mapWeeksByHolidays Examples.july4thOnly 2026 2027 [] 6 = Ok mappings
       /\ Forall (fun m => is_Some (m_target m) /\ m_error m = None
                           /\ is_Some (m_proposedPrice m))
                 mappings.
Proof.
  split; [constructor|].
  assert (E : exists mappings,
             mapWeeksByHolidays Examples.july4thOnly 2026 2027 [] 6
             = Ok mappings) by (eexists; vm_compute; reflexivity).
  destruct E as [mappings E]. exists mappings. split; [exact E|].
  exact (mapWeeksByHolidays_no_error _ _ _ _ _ _
           (List.Forall_nil has_target_date) E).
Defined.

(* ================================================================== *)
(** * Further properties of conflict detection and resolution         *)
(* ================================================================== *)

(** ** What [detectConflicts] emits *)

Lemma collision_conflict_fresh (k : string) (maps : list Mapping) (c : Conflict) :
  collision_conflict k maps = Ok c -> fresh c.
Proof.
  unfold collision_conflict.
  destruct (mapM collision_entry maps) as [entries|]; cbn [JS.bind];
    [|discriminate].
  destruct (mapM collision_option _) as [opts|]; cbn [JS.bind]; [|discriminate].
  intros [= <-]. split; reflexivity.
Qed.

Lemma gap_conflict_fresh (mappings : list Mapping) (targetHolidays : Dict)
      (weekStartDay : Z) (w : Week) (c : Conflict) :
  gap_conflict mappings targetHolidays weekStartDay w = Ok c -> fresh c.
Proof.
  unfold gap_conflict.
  destruct (getWeekHolidayRelationship _ _ _) as [rel|]; cbn [JS.bind];
    [|discriminate].
  destruct (fold_left _ mappings _) as [nb na]. intros [= <-].
  split; reflexivity.
Qed.

Lemma reversal_at_fresh (engine : Engine) (mappings : list Mapping) (idx : nat)
      (mapping : Mapping) (c : Conflict) :
  reversal_at engine mappings idx mapping = Some c ->
  fresh c /\ is_reversal c = true.
Proof.
  unfold reversal_at. intros H.
  destruct (m_target mapping) as [target|]; [|discriminate].
  destruct (negb _); [discriminate|].
  destruct (WeekMapping.parsePrice _) as [cur|]; [|discriminate].
  destruct (match idx with O => None | S i => mappings !! i end) as [prev|];
    [|discriminate].
  destruct (mappings !! S idx) as [next|]; [|discriminate].
  destruct (WeekMapping.parsePrice _) as [pp|]; [|discriminate].
  destruct (WeekMapping.parsePrice _) as [np|]; [|discriminate].
  cbv zeta in H.
  destruct (negb _ && negb _); [discriminate|].
  destruct ((_ <=? 0) || _); [discriminate|].
  destruct (_ !! _) as [tp'|]; [|discriminate].
  destruct (_ !! _) as [tn'|]; [|discriminate].
  destruct (WeekMapping.parsePrice _) as [tpp|]; [|discriminate].
  destruct (WeekMapping.parsePrice _) as [tnp|]; [|discriminate].
  destruct (_ || _); [|discriminate].
  injection H as <-. repeat split.
Qed.

Lemma gaps_inv (mappings : list Mapping) (targetYear weekStartDay : Z)
      (gs : list Conflict) :
  gaps mappings targetYear weekStartDay = Ok gs ->
  Forall2 (fun w c => gap_conflict mappings (getHolidaysForYear targetYear)
                                   weekStartDay w = Ok c)
          (List.filter (is_gap_week mappings)
                       (generateWeeksForYear targetYear weekStartDay))
          gs.
Proof. unfold gaps. apply mapM_inv. Qed.

(** The parts of what [detectConflicts] returns, each as its constructor
    made it. *)
Lemma detectConflicts_parts (engine : Engine) (mappings : list Mapping)
      (targetYear weekStartDay : Z) (conflicts : list Conflict) :
  detectConflicts engine mappings targetYear weekStartDay = Ok conflicts ->
  exists cs gs,
    conflicts = cs ++ gs ++ reversals engine mappings
    /\ Forall2 (fun kms c => collision_conflict (fst kms) (snd kms) = Ok c)
               (collided_groups (targetKeyToMappings mappings)) cs
    /\ Forall2 (fun w c => gap_conflict mappings (getHolidaysForYear targetYear)
                                        weekStartDay w = Ok c)
               (List.filter (is_gap_week mappings)
                            (generateWeeksForYear targetYear weekStartDay))
               gs.
Proof.
  unfold detectConflicts. rewrite collisions_mapM.
  destruct (mapM _ (collided_groups _)) as [cs|] eqn:Ec; cbn [JS.bind];
    [|discriminate].
  destruct (gaps mappings targetYear weekStartDay) as [gs|] eqn:Eg;
    cbn [JS.bind]; [|discriminate].
  intros [= <-]. exists cs, gs. split; [reflexivity|].
  split; [now apply mapM_inv in Ec|now apply gaps_inv].
Qed.

Lemma reversals_fresh (engine : Engine) (mappings : list Mapping) :
  Forall (fun c => fresh c /\ is_reversal c = true) (reversals engine mappings).
Proof.
  unfold reversals. apply List.Forall_forall. intros c Hc.
  apply list_elem_of_In, list_elem_of_omap in Hc.
  destruct Hc as ([i m] & _ & Hc). eapply reversal_at_fresh, Hc.
Qed.

Lemma detectConflicts_fresh (engine : Engine) (mappings : list Mapping)
      (targetYear weekStartDay : Z) (conflicts : list Conflict) :
  detectConflicts engine mappings targetYear weekStartDay = Ok conflicts ->
  Forall fresh conflicts.
Proof.
  intros H. apply detectConflicts_parts in H as (cs & gs & -> & Hc & Hg).
  rewrite !List.Forall_app. split; [|split].
  - eapply Forall2_right_In; [exact Hc|]. intros kms c _.
    apply collision_conflict_fresh.
  - eapply Forall2_right_In; [exact Hg|]. intros w c _.
    apply gap_conflict_fresh.
  - eapply Forall_impl; [apply reversals_fresh|]. now intros c [H _].
Qed.

(** X15. Every conflict [detectConflicts] returns is unresolved, and so
    handing its result to [applyResolutions] as it is resolves nothing:
    the outcome is the one of an empty conflict list, and no mapping
    object changes. *)
Theorem detected_conflicts_are_inert (engine : Engine)
        (mappings : list Mapping) (targetYear weekStartDay : Z)
        (conflicts : list Conflict) :
  detectConflicts engine mappings targetYear weekStartDay = Ok conflicts ->
  Forall (fun c => resolved c = false /\ resolution c = None) conflicts
  /\ forall (h : list Mapping) (array : list nat),
       applyResolutions engine h array conflicts
       = applyResolutions engine h array []
       /\ fst (applyResolutions engine h array conflicts) = h.
Proof.
  intros H. apply detectConflicts_fresh in H. split; [exact H|].
  intros h array.
  assert (U : Forall (fun c => resolved c = false) conflicts).
  { eapply Forall_impl; [exact H|]. now intros c [Hc _]. }
  unfold applyResolutions. rewrite (fold_apply_unresolved _ _ U).
  cbn [fold_left st_heap st_additional st_resolved]. split; [reflexivity|].
  cbn. now rewrite app_nil_r.
Qed.


Lemma nearest_mapped_fold (T : number) (mappings : list Mapping) :
  nearest_mapped (mapped_before T)
    (fun b m => lt_number (target_time m) (target_time b)) mappings
    (fst (fold_left (nearest_mapped_step T) mappings (None, None)))
  /\ nearest_mapped (mapped_after T)
       (fun a m => lt_number (target_time a) (target_time m)) mappings
       (snd (fold_left (nearest_mapped_step T) mappings (None, None))).
Proof.
  induction mappings as [|x l [IHb IHa]] using rev_ind.
  - split; constructor.
  - rewrite fold_left_app. cbn [fold_left].
    destruct (fold_left (nearest_mapped_step T) l (None, None)) as [nb na].
    cbn [fst snd] in *. unfold nearest_mapped_step.
    destruct (has_target x) eqn:Hx; cbn [negb fst snd].
    2: { split.
         - destruct nb as [b|]; cbn in *.
           + destruct IHb as (l1 & l2 & -> & Hb & H1 & H2).
             exists l1, (l2 ++ [x]). rewrite <- app_assoc. cbn.
             split; [reflexivity|]. split; [exact Hb|]. split; [exact H1|].
             apply Forall_app. split; [exact H2|]. repeat constructor.
             unfold mapped_before. rewrite Hx. discriminate.
           + apply Forall_app. split; [exact IHb|]. repeat constructor.
             unfold mapped_before. now rewrite Hx.
         - destruct na as [a|]; cbn in *.
           + destruct IHa as (l1 & l2 & -> & Ha & H1 & H2).
             exists l1, (l2 ++ [x]). rewrite <- app_assoc. cbn.
             split; [reflexivity|]. split; [exact Ha|]. split; [exact H1|].
             apply Forall_app. split; [exact H2|]. repeat constructor.
             unfold mapped_after. rewrite Hx. discriminate.
           + apply Forall_app. split; [exact IHa|]. repeat constructor.
             unfold mapped_after. now rewrite Hx. }
    split.
    + destruct (lt_number (target_time x) T) eqn:Hlt; cbn [andb].
      * destruct nb as [b|]; cbn in IHb |- *.
        -- destruct IHb as (l1 & l2 & -> & Hb & H1 & H2).
           destruct (lt_number (target_time b) (target_time x)) eqn:Hbx.
           ++ exists (l1 ++ b :: l2), []. split; [reflexivity|].
              split; [unfold mapped_before; now rewrite Hx, Hlt|].
              split; [|constructor].
              assert (Tr : forall m, lt_number (target_time m) (target_time b) = true ->
                                     lt_number (target_time m) (target_time x) = true).
              { intros m. unfold lt_number in *.
                destruct (target_time m), (target_time b), (target_time x);
                  try discriminate. lia. }
              assert (Tr' : forall m, lt_number (target_time b) (target_time m) = false ->
                                      mapped_before T m = true ->
                                      lt_number (target_time m) (target_time x) = true).
              { intros m Hm Hm'. unfold mapped_before in Hm'.
                apply andb_true_iff in Hm' as [_ Hm'].
                unfold lt_number in *.
                destruct (target_time m), (target_time b), (target_time x), T;
                  try discriminate. lia. }
              apply Forall_app. split; [|apply Forall_cons; split].
              ** eapply Forall_impl; [exact H1|]. cbn. intros m Hm Hm'. auto.
              ** intros _. exact Hbx.
              ** eapply Forall_impl; [exact H2|]. cbn. intros m Hm Hm'. auto.
           ++ exists l1, (l2 ++ [x]). rewrite <- app_assoc. cbn.
              split; [reflexivity|]. split; [exact Hb|]. split; [exact H1|].
              apply Forall_app. split; [exact H2|]. repeat constructor.
              intros _. exact Hbx.
        -- exists l, []. split; [reflexivity|].
           split; [unfold mapped_before; now rewrite Hx, Hlt|].
           split; [|constructor].
           eapply Forall_impl; [exact IHb|]. cbn. intros m Hm Hm'. congruence.
      * destruct nb as [b|]; cbn in IHb |- *.
        -- destruct IHb as (l1 & l2 & -> & Hb & H1 & H2).
           exists l1, (l2 ++ [x]). rewrite <- app_assoc. cbn.
           split; [reflexivity|]. split; [exact Hb|]. split; [exact H1|].
           apply Forall_app. split; [exact H2|]. repeat constructor.
           unfold mapped_before. rewrite Hx, Hlt. discriminate.
        -- apply Forall_app. split; [exact IHb|]. repeat constructor.
           unfold mapped_before. now rewrite Hx, Hlt.
    + destruct (lt_number T (target_time x)) eqn:Hlt; cbn [andb].
      * destruct na as [a|]; cbn in IHa |- *.
        -- destruct IHa as (l1 & l2 & -> & Ha & H1 & H2).
           destruct (lt_number (target_time x) (target_time a)) eqn:Hxa.
           ++ exists (l1 ++ a :: l2), []. split; [reflexivity|].
              split; [unfold mapped_after; now rewrite Hx, Hlt|].
              split; [|constructor].
              assert (Tr : forall m, lt_number (target_time a) (target_time m) = true ->
                                     lt_number (target_time x) (target_time m) = true).
              { intros m. unfold lt_number in *.
                destruct (target_time m), (target_time a), (target_time x);
                  try discriminate. lia. }
              assert (Tr' : forall m, lt_number (target_time m) (target_time a) = false ->
                                      mapped_after T m = true ->
                                      lt_number (target_time x) (target_time m) = true).
              { intros m Hm Hm'. unfold mapped_after in Hm'.
                apply andb_true_iff in Hm' as [_ Hm'].
                unfold lt_number in *.
                destruct (target_time m), (target_time a), (target_time x), T;
                  try discriminate. lia. }
              apply Forall_app. split; [|apply Forall_cons; split].
              ** eapply Forall_impl; [exact H1|]. cbn. intros m Hm Hm'. auto.
              ** intros _. exact Hxa.
              ** eapply Forall_impl; [exact H2|]. cbn. intros m Hm Hm'. auto.
           ++ exists l1, (l2 ++ [x]). rewrite <- app_assoc. cbn.
              split; [reflexivity|]. split; [exact Ha|]. split; [exact H1|].
              apply Forall_app. split; [exact H2|]. repeat constructor.
              intros _. exact Hxa.
        -- exists l, []. split; [reflexivity|].
           split; [unfold mapped_after; now rewrite Hx, Hlt|].
           split; [|constructor].
           eapply Forall_impl; [exact IHa|]. cbn. intros m Hm Hm'. congruence.
      * destruct na as [a|]; cbn in IHa |- *.
        -- destruct IHa as (l1 & l2 & -> & Ha & H1 & H2).
           exists l1, (l2 ++ [x]). rewrite <- app_assoc. cbn.
           split; [reflexivity|]. split; [exact Ha|]. split; [exact H1|].
           apply Forall_app. split; [exact H2|]. repeat constructor.
           unfold mapped_after. rewrite Hx, Hlt. discriminate.
        -- apply Forall_app. split; [exact IHa|]. repeat constructor.
           unfold mapped_after. now rewrite Hx, Hlt.
Qed.

Lemma collision_conflict_shape (k : string) (maps : list Mapping) (c : Conflict) :
  collision_conflict k maps = Ok c ->
  resolved c = false /\ resolution c = None
  /\ body c = Collision k (head_targetRange maps) (collision_mappings c)
  /\ exists opts,
       options c = opts ++ [custom_collision_option]
       /\ Forall2 (fun m o => option_map sw_price (m_source m) = Some (o_value o)
                              /\ o_interpolatedPrice o = None)
                  maps opts
       /\ map o_sourceIndex opts
          = map (fun i => Some (Z.of_nat i)) (seq 0 (length maps)).
Proof.
  unfold collision_conflict.
  destruct (mapM collision_entry maps) as [entries|]; cbn [JS.bind]; [|discriminate].
  destruct (mapM collision_option _) as [opts|] eqn:E; cbn [JS.bind]; [|discriminate].
  intros [= <-]. do 3 (split; [reflexivity|]). exists opts.
  split; [reflexivity|]. apply mapM_inv in E.
  assert (G : forall n (l : list Mapping) os,
             Forall2 (fun im o => collision_option im = Ok o)
                     (imap (fun i m => (n + i, m)%nat) l) os ->
             Forall2 (fun m o => option_map sw_price (m_source m) = Some (o_value o)
                                 /\ o_interpolatedPrice o = None)
                     l os
             /\ map o_sourceIndex os
                = map (fun i => Some (Z.of_nat i)) (seq n (length l))).
  { intros n l. revert n. induction l as [|m l IH]; intros n os H.
    - inversion H; subst. split; [constructor|reflexivity].
    - cbn [imap] in H. inversion H as [|? o ? os' Ho Hos]; subst.
      rewrite (imap_ext _ (fun i m => (S n + i, m)%nat)) in Hos
        by (intros; cbn; f_equal; lia).
      destruct (IH (S n) os' Hos) as [IH1 IH2].
      unfold collision_option, source_price in Ho.
      destruct (m_source m) as [sw|] eqn:Es; cbn in Ho; [|discriminate].
      injection Ho as <-. split.
      + constructor; [split; [rewrite ?Es; reflexivity|reflexivity]|exact IH1].
      + cbn. rewrite IH2. do 3 f_equal. lia. }
  apply (G 0%nat maps opts). exact E.
Qed.

Lemma collided_groups_contributors (mappings : list Mapping) (k : string)
      (maps : list Mapping) :
  In (k, maps) (collided_groups (targetKeyToMappings mappings)) ->
  maps = contributors k mappings.
Proof.
  intros Hin. destruct (targetKeyToMappings_spec mappings) as [Hnd Hget].
  apply filter_In in Hin as [Hin _].
  apply (group_get_In _ _ _ Hnd) in Hin. rewrite Hget in Hin.
  destruct (contributors k mappings); congruence.
Qed.

Lemma detected_parts_filter (cs gs rs : list Conflict) :
  Forall (fun c => is_collision c = true) cs ->
  Forall (fun c => is_gap c = true) gs ->
  Forall (fun c => is_reversal c = true) rs ->
  List.filter is_collision (cs ++ gs ++ rs) = cs
  /\ List.filter is_gap (cs ++ gs ++ rs) = gs
  /\ List.filter is_reversal (cs ++ gs ++ rs) = rs.
Proof.
  intros Hc Hg Hr.
  assert (Hr' : Forall (fun c => is_collision c = false /\ is_gap c = false) rs).
  { eapply Forall_impl; [exact Hr|]. intros c H.
    unfold is_collision, is_gap, is_reversal in *. now destruct (body c). }
  destruct (detected_collisions cs gs rs Hc Hg Hr') as [E1 E2].
  split; [exact E1|]. split; [exact E2|].
  rewrite !List.filter_app, (filter_keep_all _ _ Hr), !filter_drop_all;
    [reflexivity| |].
  - eapply Forall_impl; [exact Hg|]. intros c H.
    unfold is_gap, is_reversal in *. now destruct (body c).
  - eapply Forall_impl; [exact Hc|]. intros c H.
    unfold is_collision, is_reversal in *. now destruct (body c).
Qed.

(** The conflicts of each type in what [detectConflicts] returns. *)
Lemma detectConflicts_by_type (engine : Engine) (mappings : list Mapping)
      (targetYear weekStartDay : Z) (conflicts : list Conflict) :
  detectConflicts engine mappings targetYear weekStartDay = Ok conflicts ->
  conflicts = List.filter is_collision conflicts ++ List.filter is_gap conflicts
                ++ List.filter is_reversal conflicts
  /\ Forall2 (fun kms c => collision_conflict (fst kms) (snd kms) = Ok c)
             (collided_groups (targetKeyToMappings mappings))
             (List.filter is_collision conflicts)
  /\ Forall2 (fun w c => gap_conflict mappings (getHolidaysForYear targetYear)
                                      weekStartDay w = Ok c)
             (List.filter (is_gap_week mappings)
                          (generateWeeksForYear targetYear weekStartDay))
             (List.filter is_gap conflicts)
  /\ List.filter is_reversal conflicts = reversals engine mappings.
Proof.
  intros H. apply detectConflicts_parts in H as (cs & gs & -> & Hc & Hg).
  destruct (detected_parts_filter cs gs (reversals engine mappings))
    as (E1 & E2 & E3).
  - eapply Forall2_right_In; [exact Hc|]. intros kms c _ H.
    apply collision_conflict_inv in H. exact (proj1 H).
  - eapply Forall2_right_In; [exact Hg|]. clear Hc Hg. intros w c _ H.
    unfold gap_conflict in H.
    destruct (getWeekHolidayRelationship _ _ _) as [rel|]; cbn [JS.bind] in H;
      [|discriminate].
    destruct (fold_left _ mappings _) as [nb na]. injection H as <-.
    reflexivity.
  - eapply Forall_impl; [apply reversals_fresh|]. intros c [_ H]. exact H.
  - rewrite E1, E2, E3. split; [reflexivity|]. split; [exact Hc|].
    split; [exact Hg|reflexivity].
Qed.

(** X16. A collision conflict offers one option per contributing mapping,
    in order, whose value is the price of the mapping's source week and
    whose [sourceIndex] is the position of the mapping among the
    contributors, and after them the custom option with [sourceIndex]
    -1; its [targetRange] is the one of the first contributor. *)
Theorem collision_offers_each_contributor (engine : Engine)
        (mappings : list Mapping) (targetYear weekStartDay : Z)
        (conflicts : list Conflict) :
  detectConflicts engine mappings targetYear weekStartDay = Ok conflicts ->
  Forall (fun c =>
            exists maps entries opts,
              maps = contributors (conflict_targetWeek c) mappings
              /\ body c = Collision (conflict_targetWeek c)
                                    (head maps ≫= m_targetRange) entries
              /\ options c
                 = opts ++ [ {| o_label := "Enter custom price";
                                o_value := Str "custom";
                                o_sourceIndex := Some (-1);
                                o_interpolatedPrice := None |} ]
              /\ Forall2 (fun m o => option_map sw_price (m_source m)
                                     = Some (o_value o)
                                     /\ o_interpolatedPrice o = None)
                         maps opts
              /\ map o_sourceIndex opts
                 = map (fun i => Some (Z.of_nat i)) (seq 0 (length maps)))
         (List.filter is_collision conflicts).
Proof.
  intros H. apply detectConflicts_by_type in H as (_ & Hc & _).
  eapply Forall2_right_In; [exact Hc|]. clear Hc.
  intros [k maps] c Hin Hc. cbn [fst snd] in Hc.
  apply collided_groups_contributors in Hin.
  pose proof (collision_conflict_inv _ _ _ Hc) as (_ & Hk & _).
  apply collision_conflict_shape in Hc
    as (_ & _ & Hb & opts & Ho & Hv & Hi).
  rewrite Hk, <- Hin.
  exists maps, (collision_mappings c), opts.
  split; [reflexivity|]. split.
  { rewrite Hb. f_equal. now destruct maps. }
  split; [exact Ho|]. split; [exact Hv|exact Hi].
Qed.

Lemma gap_conflict_inv (mappings : list Mapping) (targetHolidays : Dict)
      (weekStartDay : Z) (w : Week) (c : Conflict) :
  gap_conflict mappings targetHolidays weekStartDay w = Ok c ->
  exists rel nb na,
    getWeekHolidayRelationship (start w) targetHolidays weekStartDay = Ok rel
    /\ fold_left (nearest_mapped_step (getTime (start w))) mappings (None, None)
       = (nb, na)
    /\ body c = Gap (key w)
                    (Some (formatWeekRange (start w) (end_ w)))
                    (Some (rel_relationship rel))
                    (option_map neighbor_of nb) (option_map neighbor_of na)
    /\ options c = gap_options nb na.
Proof.
  unfold gap_conflict.
  destruct (getWeekHolidayRelationship _ _ _) as [rel|]; cbn [JS.bind];
    [|discriminate].
  destruct (fold_left _ mappings _) as [nb na]. intros [= <-].
  exists rel, nb, na. repeat split.
Qed.

(** X17. A gap conflict names the week that is missing, with its range and
    its relation to the nearest holiday of the target year, and offers
    its neighbours: [nearestBefore] is the mapping whose target starts
    latest before the week and [nearestAfter] the one whose target starts
    earliest after it, each with its target range and proposed price.
    The options are the price of the one, the price of the other, an
    interpolation when both exist, and a custom price, in this order. *)
Theorem gap_offers_its_neighbours (engine : Engine)
        (mappings : list Mapping) (targetYear weekStartDay : Z)
        (conflicts : list Conflict) :
  detectConflicts engine mappings targetYear weekStartDay = Ok conflicts ->
  Forall2
    (fun w c =>
       exists rel nb na,
         getWeekHolidayRelationship (start w) (getHolidaysForYear targetYear)
                                    weekStartDay = Ok rel
         /\ latest_before (getTime (start w)) mappings nb
         /\ earliest_after (getTime (start w)) mappings na
         /\ body c
            = Gap (key w) (Some (formatWeekRange (start w) (end_ w)))
                  (Some (rel_relationship rel))
                  (option_map (fun m => {| n_range := m_targetRange m;
                                           n_price := read (m_proposedPrice m) |})
                              nb)
                  (option_map (fun m => {| n_range := m_targetRange m;
                                           n_price := read (m_proposedPrice m) |})
                              na)
         /\ map o_value (options c) = gap_option_values nb na
         /\ Forall (fun o => o_sourceIndex o = None) (options c)
         /\ (forall b a, nb = Some b -> na = Some a ->
               exists o, o ∈ options c /\ o_value o = Str "interpolate"
                         /\ o_interpolatedPrice o
                            = Some (interpolatePrice (read (m_proposedPrice b))
                                                     (read (m_proposedPrice a)))))
    (List.filter (fun w => in_season w && unmapped mappings (key w))
                 (generateWeeksForYear targetYear weekStartDay))
    (List.filter is_gap conflicts).
Proof.
  intros H. apply detectConflicts_by_type in H as (_ & _ & Hg & _).
  replace (List.filter (fun w => in_season w && unmapped mappings (key w))
                       (generateWeeksForYear targetYear weekStartDay))
    with (List.filter (is_gap_week mappings)
                      (generateWeeksForYear targetYear weekStartDay)).
  2:{ apply List.filter_ext_in. intros w Hw. apply is_gap_week_spec.
      pose proof (generateWeeksForYear_valid targetYear weekStartDay) as V.
      rewrite List.Forall_forall in V. exact (V w Hw). }
  eapply Forall2_impl; [exact Hg|]. clear Hg.
  intros w c Hc.
  apply gap_conflict_inv in Hc as (rel & nb & na & Hr & Hf & Hb & Ho).
  pose proof (nearest_mapped_fold (getTime (start w)) mappings) as [N1 N2].
  rewrite Hf in N1, N2. cbn [fst snd] in N1, N2.
  exists rel, nb, na.
  split; [exact Hr|]. split; [exact N1|]. split; [exact N2|].
  split; [exact Hb|]. rewrite Ho. clear.
  unfold gap_options, gap_option_values, plain_option.
  destruct nb as [b|], na as [a|]; cbn [app map o_value].
  - split; [reflexivity|]. split; [repeat constructor|].
    intros b' a' [= <-] [= <-]. eexists. split.
    { apply list_elem_of_In. right. right. left. reflexivity. }
    split; reflexivity.
  - split; [reflexivity|]. split; [repeat constructor|]. discriminate.
  - split; [reflexivity|]. split; [repeat constructor|]. discriminate.
  - split; [reflexivity|]. split; [repeat constructor|]. discriminate.
Qed.

Lemma reversal_at_inv (engine : Engine) (mappings : list Mapping) (idx : nat)
      (mapping : Mapping) (c : Conflict) :
  reversal_at engine mappings idx mapping = Some c ->
  exists sourcePrev sourceNext targetPrev targetNext cur sp sn tp tn
         sourcePattern targetPattern,
    sourcePrev_of mappings idx = Some sourcePrev
    /\ mappings !! S idx = Some sourceNext
    /\ targetPrev_of engine mappings mapping = Some targetPrev
    /\ targetNext_of engine mappings mapping = Some targetNext
    /\ WeekMapping.parsePrice (read (m_proposedPrice mapping)) = Num cur
    /\ WeekMapping.parsePrice (neighbor_price sourcePrev) = Num sp
    /\ WeekMapping.parsePrice (neighbor_price sourceNext) = Num sn
    /\ WeekMapping.parsePrice (read (m_proposedPrice targetPrev)) = Num tp
    /\ WeekMapping.parsePrice (read (m_proposedPrice targetNext)) = Num tn
    /\ body c = StrategyReversal (m_sourceRange mapping) (m_targetRange mapping)
                                 (read (m_proposedPrice mapping))
                                 sourcePattern targetPattern
    /\ ((200 < 2 * cur - (sp + sn) /\ 2 * cur - (tp + tn) < -200
         /\ sourcePattern = "higher" /\ targetPattern = "lower")
        \/ (2 * cur - (sp + sn) < -200 /\ 200 < 2 * cur - (tp + tn)
            /\ sourcePattern = "lower" /\ targetPattern = "higher"))%string.
Proof.
  unfold reversal_at, targetPrev_of, targetNext_of, targetIdx_of, target_key,
    sourcePrev_of.
  intros H.
  destruct (m_target mapping) as [target|]; [|discriminate].
  destruct (negb _); [discriminate|].
  destruct (WeekMapping.parsePrice (read (m_proposedPrice mapping)))
    as [cur|] eqn:Ec; [|discriminate].
  destruct (match idx with O => None | S i => mappings !! i end)
    as [sourcePrev|] eqn:Esp; [|discriminate].
  destruct (mappings !! S idx) as [sourceNext|] eqn:Esn; [|discriminate].
  destruct (WeekMapping.parsePrice (neighbor_price sourcePrev))
    as [sp|] eqn:Epp; [|discriminate].
  destruct (WeekMapping.parsePrice (neighbor_price sourceNext))
    as [sn|] eqn:Epn; [|discriminate].
  cbv zeta in *.
  fold (targetOrder engine mappings) in *.
  destruct (negb _ && negb _) eqn:E1; [discriminate|].
  set (targetIdx := findIndex _ (targetOrder engine mappings)) in *.
  destruct ((targetIdx <=? 0) || _) eqn:Eb; [discriminate|].
  apply orb_false_elim in Eb as [Eb1 Eb2]. apply Z.leb_gt in Eb1.
  replace (0 <? targetIdx) with true by (symmetry; apply Z.ltb_lt; lia).
  replace (0 <=? targetIdx) with true by (symmetry; apply Z.leb_le; lia).
  destruct (targetOrder engine mappings !! Z.to_nat (targetIdx - 1))
    as [targetPrev|] eqn:Etp; [|discriminate].
  destruct (targetOrder engine mappings !! Z.to_nat (targetIdx + 1))
    as [targetNext|] eqn:Etn; [|discriminate].
  destruct (WeekMapping.parsePrice (read (m_proposedPrice targetPrev)))
    as [tp|] eqn:Etpp; [|discriminate].
  destruct (WeekMapping.parsePrice (read (m_proposedPrice targetNext)))
    as [tn|] eqn:Etnp; [|discriminate].
  destruct (_ || _) eqn:E4; [|discriminate].
  injection H as <-.
  exists sourcePrev, sourceNext, targetPrev, targetNext, cur, sp, sn, tp, tn.
  do 2 eexists.
  split; [reflexivity|]. split; [reflexivity|].
  split; [reflexivity|]. split; [reflexivity|].
  split; [reflexivity|]. split; [exact Epp|]. split; [exact Epn|].
  split; [exact Etpp|]. split; [exact Etnp|]. split; [reflexivity|].
  destruct (200 <? 2 * cur - (sp + sn)) eqn:A,
           (2 * cur - (sp + sn) <? -200) eqn:B,
           (200 <? 2 * cur - (tp + tn)) eqn:A',
           (2 * cur - (tp + tn) <? -200) eqn:B';
    cbn [negb andb orb] in E1, E4; try discriminate;
    first [ left; repeat split; [lia|lia] | right; repeat split; [lia|lia] | lia ].
Qed.

(** X18. A strategy-reversal conflict is reported for a mapping only when
    its price, the prices of its two neighbours in source order and the
    prices of its two neighbours in target order all parse, the price lies
    more than 100 above the mean of one pair and more than 100 below the
    mean of the other, and the conflict names the two opposite patterns;
    [sourceRange], [targetRange] and [price] are those of the mapping. *)
Theorem reversal_reports_opposite_patterns (engine : Engine)
        (mappings : list Mapping) (targetYear weekStartDay : Z)
        (conflicts : list Conflict) :
  detectConflicts engine mappings targetYear weekStartDay = Ok conflicts ->
  Forall
    (fun c =>
       exists idx mapping sourcePrev sourceNext targetPrev targetNext
              cur sp sn tp tn sourcePattern targetPattern,
         mappings !! idx = Some mapping
         /\ sourcePrev_of mappings idx = Some sourcePrev
         /\ mappings !! S idx = Some sourceNext
         /\ targetPrev_of engine mappings mapping = Some targetPrev
         /\ targetNext_of engine mappings mapping = Some targetNext
         /\ WeekMapping.parsePrice (read (m_proposedPrice mapping)) = Num cur
         /\ WeekMapping.parsePrice (neighbor_price sourcePrev) = Num sp
         /\ WeekMapping.parsePrice (neighbor_price sourceNext) = Num sn
         /\ WeekMapping.parsePrice (read (m_proposedPrice targetPrev)) = Num tp
         /\ WeekMapping.parsePrice (read (m_proposedPrice targetNext)) = Num tn
         /\ body c = StrategyReversal (m_sourceRange mapping)
                                      (m_targetRange mapping)
                                      (read (m_proposedPrice mapping))
                                      sourcePattern targetPattern
         /\ ((200 < 2 * cur - (sp + sn) /\ 2 * cur - (tp + tn) < -200
              /\ sourcePattern = "higher" /\ targetPattern = "lower")
             \/ (2 * cur - (sp + sn) < -200 /\ 200 < 2 * cur - (tp + tn)
                 /\ sourcePattern = "lower" /\ targetPattern = "higher"))%string)
    (List.filter is_reversal conflicts).
Proof.
  intros H. apply detectConflicts_by_type in H as (_ & _ & _ & ->).
  unfold reversals. apply List.Forall_forall. intros c Hc.
  apply list_elem_of_In, list_elem_of_omap in Hc.
  destruct Hc as ([i m] & Him & Hc). cbn [fst snd] in Hc.
  apply list_elem_of_lookup in Him as [j Hj].
  rewrite list_lookup_imap in Hj.
  destruct (mappings !! j) as [m'|] eqn:Em; [|discriminate].
  cbn in Hj. injection Hj as <- <-.
  apply reversal_at_inv in Hc
    as (sourcePrev & sourceNext & targetPrev & targetNext & cur & sp & sn & tp
        & tn & sourcePattern & targetPattern & Hc).
  exists j, m', sourcePrev, sourceNext, targetPrev, targetNext, cur, sp, sn, tp,
    tn, sourcePattern, targetPattern.
  split; [exact Em|exact Hc].
Qed.

(** ** Resolving a gap *)

(** A week of a year, as [generateWeeksForYear] lists it, is the week its
    key names. *)
Lemma generated_week (year weekStartDay : Z) (w : Week) :
  0 <= weekStartDay <= 6 -> 100 <= year <= 275760 ->
  In w (generateWeeksForYear year weekStartDay) ->
  exists t, start w = ValidDate t
            /\ parseWeekKey (key w) = start w
            /\ addDays (parseWeekKey (key w)) (Num 7) = end_ w.
Proof.
  intros Hw Hy Hin.
  destruct (generateWeeksForYear_closed year weekStartDay Hw) as [E _].
  rewrite E in Hin. clear E.
  destruct ((0 <=? year) && (year <=? 99)) eqn:Ey.
  { apply andb_true_iff in Ey as [_ Ey]. apply Z.leb_le in Ey. lia. }
  pose proof (weeks_in_year_spec year weekStartDay) as [Hn _].
  pose proof (first_week_day_range year weekStartDay) as Hf.
  apply list_elem_of_In, list_elem_of_fmap in Hin as (d & -> & Hd).
  apply list_elem_of_lookup in Hd as [i Hi].
  apply every_seventh_lookup in Hi as [Hi ->].
  unfold week_of_day. cbn [start key end_].
  eexists. split; [reflexivity|].
  rewrite weekKey_parses.
  - cbn [setHours0]. rewrite Day_of_days. split; [reflexivity|].
    apply week_end.
  - rewrite Day_of_days, (YearFromDay_unique year); lia.
Qed.

(** X19. Resolving a detected gap fills the week that was reported.  When
    the caller resolves a gap conflict of [detectConflicts] and hands it
    to [applyResolutions], one mapping object is added: it is marked as a
    gap fill, has no source week, its target is the very week of the
    target year that was missing, and its price is the one the resolution
    stands for.  No existing object changes.  Where the targets of the
    array start on valid dates, the returned array holds the mappings with
    a target and the new one; and a detection on its mappings reports that
    week as a gap no more. *)
Theorem resolved_gap_fills_the_week (engine : Engine)
        (mappings : list Mapping) (targetYear weekStartDay : Z)
        (conflicts : list Conflict) (c : Conflict) (res : Resolution)
        (h : list Mapping) (array : list nat) :
  0 <= weekStartDay <= 6 -> 100 <= targetYear <= 275760 ->
  Forall (fun l => is_Some (h !! l)) array ->
  detectConflicts engine mappings targetYear weekStartDay = Ok conflicts ->
  In c (List.filter is_gap conflicts) ->
  exists w fill,
    In w (generateWeeksForYear targetYear weekStartDay)
    /\ in_season w = true /\ unmapped mappings (key w) = true
    /\ conflict_targetWeek c = key w
    /\ fst (applyResolutions engine h array [resolve_with res c]) = h ++ [fill]
    /\ m_target fill = Some w
    /\ m_isGapFill fill = true
    /\ m_source fill = None
    /\ m_sourceRange fill = Some "N/A (gap fill)"
    /\ m_targetRange fill = Some (formatWeekRange (start w) (end_ w))
    /\ m_proposedPrice fill = Some (chosen_price res)
    /\ ((forall l t, l ∈ array -> target_at h l = Some t ->
                     start t <> InvalidDate) ->
        Permutation
          (snd (applyResolutions engine h array [resolve_with res c]))
          (List.filter (fun l => bool_decide (is_Some (target_at h l))) array
             ++ [length h])
        /\ forall conflicts',
             detectConflicts engine
               (contents (h ++ [fill])
                  (snd (applyResolutions engine h array [resolve_with res c])))
               targetYear weekStartDay = Ok conflicts' ->
             Forall (fun c' => conflict_targetWeek c' <> key w)
                    (List.filter is_gap conflicts')).
Proof.
  intros Hw Hy Harr H Hin.
  apply detectConflicts_by_type in H as (_ & _ & Hg & _).
  apply list_elem_of_In, list_elem_of_lookup in Hin as [i Hi].
  destruct (Forall2_lookup_r _ _ _ _ _ Hg Hi) as (w & Hwi & Hc).
  assert (Hwin : In w (List.filter (is_gap_week mappings)
                         (generateWeeksForYear targetYear weekStartDay))).
  { apply list_elem_of_In. eapply list_elem_of_lookup_2, Hwi. }
  clear Hg Hi Hwi.
  apply filter_In in Hwin as [Hwin Hgap].
  destruct (generated_week _ _ w Hw Hy Hwin) as (t & Ht & Hp & He).
  rewrite is_gap_week_spec in Hgap by (exists t; exact Ht).
  apply andb_true_iff in Hgap as [Hs Hu].
  apply gap_conflict_inv in Hc as (rel & nb & na & _ & _ & Hb & _).
  set (fill := gap_fill (key w) (Some (formatWeekRange (start w) (end_ w)))
                        (Some (rel_relationship rel)) res).
  assert (Ea : applyResolutions engine h array [resolve_with res c]
               = (h ++ [fill],
                  sort_by engine (time_at (h ++ [fill]))
                          (List.filter (has_target_at (h ++ [fill]))
                                       (array ++ [length h])))).
  { unfold applyResolutions. cbn [fold_left apply_conflict resolve_with
      resolved resolution negb body]. rewrite Hb.
    cbn [st_heap st_resolved st_additional app length seq]. reflexivity. }
  assert (Et : m_target fill = Some w).
  { unfold fill, gap_fill. cbn [m_target]. rewrite He, Hp.
    destruct w; reflexivity. }
  exists w, fill.
  split; [exact Hwin|]. split; [exact Hs|]. split; [exact Hu|].
  split; [unfold conflict_targetWeek; rewrite Hb; reflexivity|].
  rewrite Ea. cbn [fst snd].
  split; [reflexivity|]. split; [exact Et|].
  do 4 (split; [reflexivity|]).
  split; [reflexivity|].
  intros Hv. clear Hwin Hb.
  assert (Hold : forall l, In l array -> (h ++ [fill]) !! l = h !! l).
  { intros l Hl. rewrite List.Forall_forall in Harr.
    destruct (Harr l Hl) as [m El]. rewrite El.
    apply lookup_app_l_Some. exact El. }
  assert (Hnew : (h ++ [fill]) !! length h = Some fill).
  { rewrite lookup_app_r by reflexivity. rewrite Nat.sub_diag. reflexivity. }
  assert (Ef : List.filter (has_target_at (h ++ [fill])) (array ++ [length h])
               = List.filter (fun l => bool_decide (is_Some (target_at h l)))
                             array ++ [length h]).
  { rewrite List.filter_app. f_equal.
    - apply List.filter_ext_in. intros l Hl.
      rewrite <- has_target_at_target_at. unfold has_target_at.
      rewrite (Hold l Hl). reflexivity.
    - cbn [List.filter]. unfold has_target_at, has_target.
      rewrite Hnew, Et. reflexivity. }
  assert (Hn : Forall (fun l => time_at (h ++ [fill]) l <> NaN)
                      (List.filter (has_target_at (h ++ [fill]))
                                   (array ++ [length h]))).
  { rewrite Ef. apply Forall_app. split.
    - apply List.Forall_forall. intros l Hl.
      apply filter_In in Hl as [Hl Hs'].
      apply bool_decide_eq_true_1 in Hs'. destruct Hs' as [tg Htg].
      pose proof (Hv l tg (proj2 (list_elem_of_In _ _) Hl) Htg) as Hd.
      unfold time_at. rewrite (Hold l Hl). unfold target_at in Htg.
      destruct (h !! l) as [m|]; [|discriminate]. cbn in Htg.
      unfold target_time. rewrite Htg. destruct (start tg); [discriminate|].
      congruence.
    - repeat constructor. unfold time_at, target_time.
      rewrite Hnew, Et, Ht. discriminate. }
  rewrite (sort_by_numbers _ _ _ Hn).
  assert (P : Permutation
                (stable_sort (time_at (h ++ [fill]))
                   (List.filter (has_target_at (h ++ [fill]))
                                (array ++ [length h])))
                (List.filter (fun l => bool_decide (is_Some (target_at h l)))
                             array ++ [length h])).
  { rewrite stable_sort_perm, Ef. reflexivity. }
  split; [exact P|].
  intros conflicts' H'.
  apply detectConflicts_by_type in H' as (_ & _ & Hg' & _).
  eapply Forall2_right_In; [exact Hg'|]. clear Hg'.
  intros w' c' Hin' Hc' Hk.
  apply filter_In in Hin' as [Hin' Hgap'].
  pose proof (generateWeeksForYear_valid targetYear weekStartDay) as V.
  rewrite List.Forall_forall in V.
  rewrite is_gap_week_spec in Hgap' by exact (V w' Hin').
  apply andb_true_iff in Hgap' as [_ Hu'].
  apply gap_conflict_inv in Hc' as (rel' & nb' & na' & _ & _ & Hb' & _).
  unfold conflict_targetWeek in Hk. rewrite Hb' in Hk. rewrite Hk in Hu'.
  rewrite unmapped_spec in Hu'. apply (Hu' fill).
  - unfold contents. apply list_elem_of_In, list_elem_of_omap.
    exists (length h). split; [|exact Hnew].
    apply list_elem_of_In. eapply Permutation_in; [symmetry; exact P|].
    apply in_or_app. right. left. reflexivity.
  - unfold target_key. rewrite Et. reflexivity.
Qed.

(** ** Interpolated prices *)

(** X20. The interpolation of two prices that parse is the formatted mean
    of the two amounts, halves rounded up; it lies between them, and the
    parser of the mapping module reads it back as that mean, unless the
    mean is zero. *)
Theorem interpolatePrice_mean (price1 price2 : value) (a b : Z) :
  WeekMapping.parsePrice price1 = Num a ->
  WeekMapping.parsePrice price2 = Num b ->
  interpolatePrice price1 price2
  = Str (Calculations.formatPrice (Num (mean_price a b)))
  /\ Z.min a b <= mean_price a b <= Z.max a b
  /\ WeekMapping.parsePrice (interpolatePrice price1 price2)
     = (if mean_price a b =? 0 then NaN else Num (mean_price a b)).
Proof.
  intros H1 H2.
  assert (E : interpolatePrice price1 price2
              = Str (Calculations.formatPrice (Num (mean_price a b)))).
  { unfold interpolatePrice. rewrite H1, H2.
    unfold Calculations.formatPrice, round_div, mean_price.
    do 3 f_equal. Z.div_mod_to_equations. lia. }
  split; [exact E|]. split.
  - unfold mean_price. Z.div_mod_to_equations. lia.
  - rewrite E. unfold WeekMapping.parsePrice. cbn [truthy String_of].
    change (negb (negb (Calculations.formatPrice (Num (mean_price a b))
                        =? ""))%string) with false.
    cbv iota. rewrite parseInt_formatted. reflexivity.
Qed.

Lemma interpolatePrice_mean_witness :
  WeekMapping.parsePrice (Str "$3,000") = Num 3000
  /\ WeekMapping.parsePrice (Str "$3,501") = Num 3501
  /\ interpolatePrice (Str "$3,000") (Str "$3,501") = Str "$3,251"
  /\ WeekMapping.parsePrice (interpolatePrice (Str "$3,000") (Str "$3,501"))
     = Num 3251.
Proof.
  assert (H1 : WeekMapping.parsePrice (Str "$3,000") = Num 3000)
    by reflexivity.
  assert (H2 : WeekMapping.parsePrice (Str "$3,501") = Num 3501)
    by reflexivity.
  destruct (interpolatePrice_mean _ _ _ _ H1 H2) as (E & _ & P).
  split; [exact H1|]. split; [exact H2|]. split; [exact E|exact P].
Defined.

(** ** The anchor table *)

Lemma anchor_row_shown (weekStartDay : Z) (a : Anchor) :
  a_enabled a = true ->
  match anchor_row weekStartDay a with
  | Some row => shown a = true /\ row_anchorId row = a_id a
                /\ row_name row = a_name a /\ row_type row = a_type a
                /\ (row_deletable row = true <-> a_type a = "custom")
  | None => shown a = false
  end.
Proof.
  intros He. unfold anchor_row, shown. rewrite He.
  destruct (a_sourceDate a) as [s|], (a_targetDate a) as [t|];
    try reflexivity.
  cbn [row_anchorId row_name row_type row_deletable].
  repeat split; try reflexivity; apply String.eqb_eq.
Qed.

Lemma fold_add_anchor_has (l : list Anchor) (src tgt : Dict) (k : string) :
  (In k (map fst src)
   \/ exists a, In a l /\ a_id a = k /\ a_sourceDate a <> None) ->
  In k (map fst (fst (fold_left add_anchor l (src, tgt)))).
Proof.
  revert src tgt. induction l as [|a l IH]; intros src tgt H.
  - destruct H as [H|(a & [] & _)]. exact H.
  - cbn [fold_left]. unfold add_anchor at 2.
    apply IH. destruct H as [H|(a' & [<-|Ha'] & Hk & Hs)].
    + left. destruct (a_sourceDate a); [apply dict_set_keys; right|]; exact H.
    + left. destruct (a_sourceDate a); [|congruence].
      apply dict_set_keys. left. symmetry. exact Hk.
    + right. exists a'. auto.
Qed.

Lemma fold_add_anchor_has_target (l : list Anchor) (src tgt : Dict) (k : string) :
  (In k (map fst tgt)
   \/ exists a, In a l /\ a_id a = k /\ a_targetDate a <> None) ->
  In k (map fst (snd (fold_left add_anchor l (src, tgt)))).
Proof.
  revert src tgt. induction l as [|a l IH]; intros src tgt H.
  - destruct H as [H|(a & [] & _)]. exact H.
  - cbn [fold_left]. unfold add_anchor at 2.
    apply IH. destruct H as [H|(a' & [<-|Ha'] & Hk & Hs)].
    + left. destruct (a_targetDate a); [apply dict_set_keys; right|]; exact H.
    + left. destruct (a_targetDate a); [|congruence].
      apply dict_set_keys. left. symmetry. exact Hk.
    + right. exists a'. auto.
Qed.

(** X21. The anchor table has one row per enabled anchor with a date in
    both years, in the order of the settings, under the anchor's id, name
    and type; a row is deletable exactly for the type [custom].  The
    standard holidays are never listed.  Every anchor of the table is a
    key of both dictionaries of the mapper, while an enabled anchor with a
    source date only, which the mapper does use in the source year, has
    no row. *)
Theorem anchor_table_rows (sourceYear targetYear : Z) (anchors : list Anchor)
        (weekStartDay : Z) :
  let table := buildHolidayAnchorTable sourceYear targetYear anchors
                                       weekStartDay in
  Forall2 (fun a row => row_anchorId row = a_id a
                        /\ row_name row = a_name a
                        /\ row_type row = a_type a
                        /\ (row_deletable row = true <-> a_type a = "custom"))
          (List.filter shown anchors) table
  /\ Forall (fun row =>
               In (row_anchorId row)
                  (map fst (fst (all_holidays sourceYear targetYear anchors)))
               /\ In (row_anchorId row)
                     (map fst (snd (all_holidays sourceYear targetYear anchors))))
            table
  /\ forall a, In a anchors -> a_enabled a = true ->
               a_sourceDate a <> None -> a_targetDate a = None ->
               In (a_id a)
                  (map fst (fst (all_holidays sourceYear targetYear anchors)))
               /\ ~ In a (List.filter shown anchors).
Proof.
  intros table. unfold table, buildHolidayAnchorTable.
  assert (F : Forall2 (fun a row => row_anchorId row = a_id a
                        /\ row_name row = a_name a
                        /\ row_type row = a_type a
                        /\ (row_deletable row = true <-> a_type a = "custom"))
                (List.filter shown anchors)
                (omap (anchor_row weekStartDay) (List.filter a_enabled anchors))).
  { induction anchors as [|a l IH]; [constructor|].
    cbn [List.filter]. destruct (a_enabled a) eqn:He.
    - cbn [omap list_omap]. pose proof (anchor_row_shown weekStartDay a He) as R.
      destruct (anchor_row weekStartDay a) as [row|].
      + destruct R as (-> & R). constructor; [exact R|exact IH].
      + rewrite R. exact IH.
    - replace (shown a) with false; [exact IH|].
      unfold shown. rewrite He. reflexivity. }
  split; [exact F|]. split.
  - eapply Forall2_right_In; [exact F|]. intros a row Hin (Hid & _).
    apply filter_In in Hin as [Hin Hs]. unfold shown in Hs.
    apply andb_true_iff in Hs as [Hs Ht]. apply andb_true_iff in Hs as [He Hs].
    apply bool_decide_eq_true_1 in Hs, Ht.
    rewrite Hid. unfold all_holidays. split.
    + apply fold_add_anchor_has. right. exists a.
      split; [apply filter_In; split; assumption|]. split; [reflexivity|exact Hs].
    + apply fold_add_anchor_has_target. right. exists a.
      split; [apply filter_In; split; assumption|]. split; [reflexivity|exact Ht].
  - intros a Hin He Hs Ht. split.
    + unfold all_holidays. apply fold_add_anchor_has. right. exists a.
      split; [apply filter_In; split; assumption|]. split; [reflexivity|exact Hs].
    + intros Hf. apply filter_In in Hf as [_ Hf]. unfold shown in Hf.
      apply andb_true_iff in Hf as [_ Hf].
      apply bool_decide_eq_true_1 in Hf. congruence.
Qed.

Lemma detected_conflicts_are_inert_witness :
  exists conflicts,
    detectConflicts Examples.idle_engine [Examples.weekA; Examples.weekB] 2027 6
    = Ok conflicts
    /\ Forall (fun c => resolved c = false /\ resolution c = None) conflicts
    /\ applyResolutions Examples.idle_engine [Examples.weekA; Examples.weekB]
                        [0; 1]%nat conflicts
       = applyResolutions Examples.idle_engine [Examples.weekA; Examples.weekB]
                          [0; 1]%nat [].
Proof.
  destruct (detectConflicts_returns Examples.idle_engine
              [Examples.weekA; Examples.weekB] 2027 6) as [conflicts E].
  { repeat constructor; intros _; discriminate. }
  exists conflicts. split; [exact E|].
  destruct (detected_conflicts_are_inert _ _ _ _ _ E) as [F A].
  split; [exact F|]. exact (proj1 (A [Examples.weekA; Examples.weekB] [0; 1]%nat)).
Defined.

Lemma collision_offers_each_contributor_witness :
  exists conflicts c,
    detectConflicts Examples.idle_engine [Examples.weekA; Examples.weekB] 2027 6
    = Ok conflicts
    /\ List.filter is_collision conflicts = [c]
    /\ map o_value (options c) = [Str "$3,500"; Str "$3,200"; Str "custom"]
    /\ map o_sourceIndex (options c) = [Some 0; Some 1; Some (-1)]
    /\ Forall (fun c =>
                 exists maps entries opts,
                   maps = contributors (conflict_targetWeek c)
                                       [Examples.weekA; Examples.weekB]
                   /\ body c = Collision (conflict_targetWeek c)
                                         (head maps ≫= m_targetRange) entries
                   /\ options c
                      = opts ++ [ {| o_label := "Enter custom price";
                                     o_value := Str "custom";
                                     o_sourceIndex := Some (-1);
                                     o_interpolatedPrice := None |} ]
                   /\ Forall2 (fun m o => option_map sw_price (m_source m)
                                          = Some (o_value o)
                                          /\ o_interpolatedPrice o = None)
                              maps opts
                   /\ map o_sourceIndex opts
                      = map (fun i => Some (Z.of_nat i)) (seq 0 (length maps)))
              (List.filter is_collision conflicts).
Proof.
  assert (E : exists conflicts c,
             detectConflicts Examples.idle_engine
               [Examples.weekA; Examples.weekB] 2027 6 = Ok conflicts
             /\ List.filter is_collision conflicts = [c]
             /\ map o_value (options c)
                = [Str "$3,500"; Str "$3,200"; Str "custom"]
             /\ map o_sourceIndex (options c) = [Some 0; Some 1; Some (-1)]).
  { eexists _, _. split; [vm_compute; reflexivity|].
    split; [vm_compute; reflexivity|]. split; reflexivity. }
  destruct E as (conflicts & c & E & F & V & I).
  exists conflicts, c. split; [exact E|]. split; [exact F|].
  split; [exact V|]. split; [exact I|].
  exact (collision_offers_each_contributor _ _ _ _ _ E).
Defined.

Lemma gap_offers_its_neighbours_witness :
  exists conflicts,
    detectConflicts Examples.idle_engine
      [Examples.mapping_to "2027-07-03" "Jul 4 - Jul 11" "$3,500";
       Examples.mapping_to "2027-07-17" "Jul 11 - Jul 18" "$3,200"] 2027 6
    = Ok conflicts
    /\ (exists c, In c (List.filter is_gap conflicts)
                  /\ conflict_targetWeek c = "2027-07-10"
                  /\ map o_value (options c)
                     = [Str "$3,500"; Str "$3,200"; Str "interpolate";
                        Str "custom"])
    /\ length (List.filter
                 (fun w => in_season w
                           && unmapped
                                [Examples.mapping_to "2027-07-03" "Jul 4 - Jul 11" "$3,500";
                                 Examples.mapping_to "2027-07-17" "Jul 11 - Jul 18" "$3,200"]
                                (key w))
                 (generateWeeksForYear 2027 6))
       = length (List.filter is_gap conflicts).
Proof.
  assert (E : exists conflicts,
             detectConflicts Examples.idle_engine
               [Examples.mapping_to "2027-07-03" "Jul 4 - Jul 11" "$3,500";
                Examples.mapping_to "2027-07-17" "Jul 11 - Jul 18" "$3,200"]
               2027 6 = Ok conflicts
             /\ exists c, In c (List.filter is_gap conflicts)
                          /\ conflict_targetWeek c = "2027-07-10"
                          /\ map o_value (options c)
                             = [Str "$3,500"; Str "$3,200"; Str "interpolate";
                                Str "custom"]).
  { eexists. split; [vm_compute; reflexivity|].
    eexists. split; [vm_compute; do 13 right; left; reflexivity|].
    split; reflexivity. }
  destruct E as (conflicts & E & C).
  exists conflicts. split; [exact E|]. split; [exact C|].
  exact (Forall2_length _ _ _ (gap_offers_its_neighbours _ _ _ _ _ E)).
Defined.

Lemma reversal_reports_opposite_patterns_witness :
  exists conflicts,
    detectConflicts Examples.idle_engine
      (Examples.crossing "$2,000" "$1,000" "$1,000" "$3,000" "$3,000") 2027 6
    = Ok conflicts
    /\ length (List.filter is_reversal conflicts) = 1%nat
    /\ Forall (fun c => exists sr tr p,
                 body c = StrategyReversal sr tr p "higher" "lower")
              (List.filter is_reversal conflicts).
Proof.
  assert (E : exists conflicts,
             detectConflicts Examples.idle_engine
               (Examples.crossing "$2,000" "$1,000" "$1,000" "$3,000" "$3,000")
               2027 6 = Ok conflicts
             /\ length (List.filter is_reversal conflicts) = 1%nat).
  { eexists. split; [vm_compute; reflexivity|]. vm_compute. reflexivity. }
  destruct E as (conflicts & E & L).
  exists conflicts. split; [exact E|]. split; [exact L|].
  eapply Forall_impl;
    [exact (reversal_reports_opposite_patterns _ _ _ _ _ E)|].
  intros c (idx & mapping & sourcePrev & sourceNext & targetPrev & targetNext
            & cur & sp & sn & tp & tn & sourcePattern & targetPattern
            & Hm & Hsp & Hsn & Htp & Htn & Hc & Hpp & Hpn & Htpp & Htnp & Hb & Hd).
  rewrite Hb. clear E L.
  destruct Hd as [(_ & _ & -> & ->)|(Hlow & _)]; [do 3 eexists; reflexivity|].
  exfalso.
  assert (Hi : (idx < 5)%nat) by (apply lookup_lt_Some in Hm; exact Hm).
  destruct idx as [|[|[|[|[|idx]]]]]; [| | | | |lia];
    vm_compute in Hm, Hsp, Hsn; try discriminate;
    injection Hm as <-; injection Hsp as <-; injection Hsn as <-;
    vm_compute in Hc, Hpp, Hpn;
    injection Hc as <-; injection Hpp as <-; injection Hpn as <-;
    vm_compute in Htp, Htn; try discriminate;
    injection Htp as <-; injection Htn as <-;
    vm_compute in Htpp, Htnp;
    injection Htpp as <-; injection Htnp as <-; lia.
Defined.

Lemma resolved_gap_fills_the_week_witness :
  0 <= 6 <= 6 /\ 100 <= 2027 <= 275760
  /\ Forall (fun l => is_Some ([Examples.weekA; Examples.weekB] !! l)) [0; 1]%nat
  /\ exists conflicts c w fill,
       detectConflicts Examples.idle_engine [Examples.weekA; Examples.weekB]
                       2027 6 = Ok conflicts
       /\ In c (List.filter is_gap conflicts)
       /\ fst (applyResolutions Examples.idle_engine
                 [Examples.weekA; Examples.weekB] [0; 1]%nat
                 [resolve_with Examples.use_custom c])
          = [Examples.weekA; Examples.weekB] ++ [fill]
       /\ In w (generateWeeksForYear 2027 6)
       /\ m_target fill = Some w
       /\ m_proposedPrice fill = Some (Str "$3,300").
Proof.
  split; [lia|]. split; [lia|].
  assert (A : Forall (fun l => is_Some ([Examples.weekA; Examples.weekB] !! l))
                     [0; 1]%nat) by (repeat constructor; eexists; reflexivity).
  split; [exact A|].
  assert (E : exists conflicts c,
             detectConflicts Examples.idle_engine
               [Examples.weekA; Examples.weekB] 2027 6 = Ok conflicts
             /\ In c (List.filter is_gap conflicts)).
  { eexists _, _. split; [vm_compute; reflexivity|].
    vm_compute. left. reflexivity. }
  destruct E as (conflicts & c & E & Hc).
  destruct (resolved_gap_fills_the_week Examples.idle_engine
              [Examples.weekA; Examples.weekB] 2027 6 conflicts c
              Examples.use_custom [Examples.weekA; Examples.weekB] [0; 1]%nat
              ltac:(lia) ltac:(lia) A E Hc)
    as (w & fill & Hw & _ & _ & _ & Ea & Et & _ & _ & _ & _ & Ep & _).
  exists conflicts, c, w, fill.
  split; [exact E|]. split; [exact Hc|]. split; [exact Ea|].
  split; [exact Hw|]. split; [exact Et|exact Ep].
Defined.

(** ** Resolving a collision *)

(** The loop over the indices of the array is the recursion over its
    locations, the last one first. *)
Lemma collision_loop_from_end (targetKey : string)
      (entries : list CollisionEntry) (res : Resolution)
      (front back : list loc) (h : heap) (kept : bool) :
  collision_loop targetKey entries res (length front) (h, front ++ back, kept)
  = (let '(h', back', kept') :=
       resolve_from_end targetKey entries res (rev front) (h, back, kept) in
     (h', back', kept')).
Proof.
  revert back h kept. induction front as [|l front IH] using rev_ind;
    intros back h kept.
  - reflexivity.
  - rewrite length_app, Nat.add_1_r, rev_unit.
    cbn [collision_loop resolve_from_end].
    replace ((front ++ [l]) ++ back) with (front ++ l :: back)
      by (rewrite <- app_assoc; reflexivity).
    rewrite (list_lookup_middle front back l (length front) eq_refl).
    assert (D : delete (length front) (front ++ l :: back) = front ++ back).
    { clear. induction front as [|a front IH]; [reflexivity|].
      simpl. f_equal. exact IH. }
    rewrite D.
    destruct (bool_decide (key_at h l = Some targetKey)).
    + destruct (if kept then None else r_sourceIndex res) as [sourceIndex|].
      * destruct (sourceIndex =? _).
        -- rewrite (IH (l :: back)). reflexivity.
        -- rewrite (IH back). reflexivity.
      * destruct (bool_decide (r_value res = Str "custom")).
        -- rewrite (IH (l :: back)). reflexivity.
        -- rewrite (IH (l :: back)). reflexivity.
    + rewrite (IH (l :: back)). reflexivity.
Qed.

Lemma resolve_from_end_app (targetKey : string) (entries : list CollisionEntry)
      (res : Resolution) (v1 v2 : list loc) (st : heap * list loc * bool) :
  resolve_from_end targetKey entries res (v1 ++ v2) st
  = resolve_from_end targetKey entries res v2
      (resolve_from_end targetKey entries res v1 st).
Proof.
  revert st. induction v1 as [|l v1 IH]; intros [[h back] kept]; [reflexivity|].
  cbn [app resolve_from_end]. apply IH.
Qed.

Lemma write_price_elsewhere (l l' : loc) (v : value) (h : heap) :
  l' <> l -> write_price l v h !! l' = h !! l'.
Proof.
  intros Hne. unfold write_price. destruct (h !! l); [|reflexivity].
  apply list_lookup_insert_ne. congruence.
Qed.

Lemma write_price_there (l : loc) (v : value) (h : heap) (m : Mapping) :
  h !! l = Some m ->
  write_price l v h !! l = Some (with_price (Some v) m).
Proof.
  intros Hl. unfold write_price. rewrite Hl.
  rewrite list_lookup_insert_eq by (eapply lookup_lt_Some, Hl). reflexivity.
Qed.

(** Once a contributor has been kept, the loop removes nothing more, and
    writes only at the locations it still visits. *)
Lemma resolve_from_end_kept (targetKey : string) (entries : list CollisionEntry)
      (res : Resolution) (visit : list loc) :
  forall h back,
    exists h',
      resolve_from_end targetKey entries res visit (h, back, true)
      = (h', rev visit ++ back, true)
      /\ forall l, l ∉ visit -> h' !! l = h !! l.
Proof.
  induction visit as [|l visit IH]; intros h back.
  - exists h. split; reflexivity.
  - cbn [resolve_from_end rev]. rewrite <- app_assoc. cbn [app].
    destruct (bool_decide (key_at h l = Some targetKey)).
    + destruct (bool_decide (r_value res = Str "custom")).
      * destruct (IH (write_price l (read (r_customPrice res)) h) (l :: back))
          as (h' & E & F).
        exists h'. split; [exact E|]. intros l' Hl'.
        apply not_elem_of_cons in Hl' as [Hne Hl'].
        rewrite (F l' Hl'). apply write_price_elsewhere, Hne.
      * destruct (IH h (l :: back)) as (h' & E & F).
        exists h'. split; [exact E|]. intros l' Hl'.
        apply not_elem_of_cons in Hl' as [_ Hl']. exact (F l' Hl').
    + destruct (IH h (l :: back)) as (h' & E & F).
      exists h'. split; [exact E|]. intros l' Hl'.
      apply not_elem_of_cons in Hl' as [_ Hl']. exact (F l' Hl').
Qed.

Lemma contributes_key_at (h : heap) (targetKey : string) (l : loc) :
  bool_decide (key_at h l = Some targetKey) = contributes h targetKey l.
Proof.
  unfold contributes, key_at, target_at, target_key.
  destruct (h !! l) as [m|]; simpl; [|reflexivity].
  destruct (m_target m); reflexivity.
Qed.

Lemma picked_sourceRange_at (h : heap) (entries : list CollisionEntry)
      (sourceIndex : Z) (l : loc) :
  (sourceIndex =? findIndex (fun e => bool_decide
                               (ce_sourceRange e = sourceRange_at h l)) entries)
  = picked h entries sourceIndex l.
Proof.
  unfold picked, sourceRange_at. destruct (h !! l); reflexivity.
Qed.

(** While no visited contributor is the chosen one, the loop removes every
    contributor it visits and writes nothing. *)
Lemma resolve_from_end_none (targetKey : string) (entries : list CollisionEntry)
      (res : Resolution) (sourceIndex : Z) (h : heap) (visit : list loc) :
  r_sourceIndex res = Some sourceIndex ->
  Forall (fun l => contributes h targetKey l
                   && picked h entries sourceIndex l = false) visit ->
  forall back,
    resolve_from_end targetKey entries res visit (h, back, false)
    = (h,
       List.filter (fun l => negb (contributes h targetKey l)) (rev visit)
         ++ back,
       false).
Proof.
  intros Hi. induction 1 as [|l visit Hl _ IH]; intros back; [reflexivity|].
  cbn [resolve_from_end rev]. rewrite List.filter_app, <- app_assoc.
  rewrite contributes_key_at, Hi, picked_sourceRange_at.
  cbn [List.filter].
  destruct (contributes h targetKey l); simpl in Hl |- *.
  - rewrite Hl. apply IH.
  - apply IH.
Qed.

Lemma collision_loop_none (targetKey : string) (entries : list CollisionEntry)
      (res : Resolution) (sourceIndex : Z) (h : heap) (array : list loc) :
  r_sourceIndex res = Some sourceIndex ->
  Forall (fun l => contributes h targetKey l
                   && picked h entries sourceIndex l = false) array ->
  collision_loop targetKey entries res (length array) (h, array, false)
  = (h, List.filter (fun l => negb (contributes h targetKey l)) array, false).
Proof.
  intros Hi Hn.
  rewrite <- (app_nil_r array) at 2. rewrite collision_loop_from_end.
  rewrite (resolve_from_end_none _ _ _ _ _ _ Hi).
  - rewrite rev_involutive, app_nil_r. reflexivity.
  - apply List.Forall_forall. intros l Hl. apply in_rev in Hl.
    rewrite List.Forall_forall in Hn. exact (Hn l Hl).
Qed.

Lemma collision_loop_chosen (targetKey : string) (entries : list CollisionEntry)
      (res : Resolution) (sourceIndex : Z) (h : heap)
      (pre post : list loc) (l : loc) :
  r_sourceIndex res = Some sourceIndex ->
  contributes h targetKey l = true ->
  picked h entries sourceIndex l = true ->
  Forall (fun l' => contributes h targetKey l'
                    && picked h entries sourceIndex l' = false) post ->
  exists h',
    collision_loop targetKey entries res (length (pre ++ l :: post))
                   (h, pre ++ l :: post, false)
    = (h',
       pre ++ l :: List.filter (fun l' => negb (contributes h targetKey l')) post,
       true)
    /\ forall l', l' ∉ pre ->
         h' !! l' = write_price l (r_value res) h !! l'.
Proof.
  intros Hi Hc Hp Hn.
  destruct (resolve_from_end_kept targetKey entries res (rev pre)
              (write_price l (r_value res) h)
              (l :: List.filter (fun l' => negb (contributes h targetKey l'))
                                post))
    as (h' & E & F).
  exists h'. split.
  - rewrite <- (app_nil_r (pre ++ l :: post)) at 2.
    rewrite collision_loop_from_end.
    rewrite rev_app_distr. cbn [rev]. rewrite <- app_assoc. cbn [app].
    rewrite resolve_from_end_app.
    rewrite (resolve_from_end_none _ _ _ _ _ _ Hi).
    + cbn [resolve_from_end].
      rewrite contributes_key_at, Hc, Hi, picked_sourceRange_at, Hp.
      rewrite (rev_involutive post), app_nil_r, E, rev_involutive.
      reflexivity.
    + apply List.Forall_forall. intros l' Hl'. apply in_rev in Hl'.
      rewrite List.Forall_forall in Hn. exact (Hn l' Hl').
  - intros l' Hl'. apply F. intros Hin. apply Hl'.
    apply list_elem_of_In. apply in_rev. apply list_elem_of_In. exact Hin.
Qed.

Lemma target_at_frame P (h h' : heap) (l : loc) :
  frame P h h' -> target_at h' l = target_at h l.
Proof.
  intros [L F]. unfold target_at. destruct (h !! l) as [m|] eqn:Hl.
  - destruct (F l m Hl) as (p & -> & _). reflexivity.
  - apply lookup_ge_None in Hl.
    rewrite (proj2 (lookup_ge_None h' l)); [reflexivity|lia].
Qed.

(** What [applyResolutions] returns for one resolved collision, from what
    its loop leaves. *)
Lemma applyResolutions_one_collision (engine : Engine) (h h' : heap)
      (array array' : list loc) (kept' : bool) (c : Conflict)
      (targetKey : string) (targetRange : option string)
      (entries : list CollisionEntry)
      (res : Resolution) :
  resolved c = true ->
  resolution c = Some res ->
  body c = Collision targetKey targetRange entries ->
  collision_loop targetKey entries res (length array) (h, array, false)
  = (h', array', kept') ->
  (forall l t, l ∈ array -> target_at h l = Some t -> start t <> InvalidDate) ->
  fst (applyResolutions engine h array [c]) = h'
  /\ Permutation (snd (applyResolutions engine h array [c]))
                 (List.filter (fun l => bool_decide (is_Some (target_at h l)))
                              array')
  /\ StronglySorted
       (fun a b => exists x y,
            start_at h a = Some x /\ start_at h b = Some y /\ x <= y)
       (snd (applyResolutions engine h array [c])).
Proof.
  intros Hr Hres Hb E Hv.
  destruct (collision_loop_frame _ _ _ _ _ _ _ _ _ _ E) as [F S].
  assert (T : forall l, target_at h' l = target_at h l)
    by (intros l; eapply target_at_frame, F).
  assert (St : forall l, start_at h' l = start_at h l)
    by (intros l; unfold start_at; rewrite T; reflexivity).
  assert (A : applyResolutions engine h array [c]
              = (h', sort_by engine (time_at h')
                             (List.filter (has_target_at h') array'))).
  { unfold applyResolutions. cbn [fold_left]. unfold apply_conflict.
    cbn [st_heap st_resolved st_additional].
    rewrite Hr, Hres, Hb. cbn [negb]. rewrite E.
    cbn [st_heap st_resolved st_additional length seq].
    rewrite !app_nil_r. reflexivity. }
  rewrite A. cbn [fst snd]. split; [reflexivity|].
  assert (Hn : Forall (fun l => time_at h' l <> NaN)
                      (List.filter (has_target_at h') array')).
  { apply List.Forall_forall. intros l Hl. apply filter_In in Hl as [Hl Ht].
    apply list_elem_of_In, S in Hl.
    rewrite has_target_at_target_at, T in Ht. apply bool_decide_eq_true_1 in Ht.
    destruct Ht as [t Ht]. specialize (Hv l t Hl Ht).
    destruct (start t) as [ms|] eqn:Es; [|congruence].
    assert (Hs : start_at h' l = Some ms)
      by (rewrite St; unfold start_at; rewrite Ht, Es; reflexivity).
    apply time_at_start_at in Hs. congruence. }
  rewrite (sort_by_numbers _ _ _ Hn). split.
  - rewrite stable_sort_perm.
    erewrite filter_ext; [reflexivity|].
    intros l. rewrite has_target_at_target_at, T. reflexivity.
  - eapply StronglySorted_weaken; [|apply stable_sort_sorted, Hn].
    intros a b _ _. unfold time_le.
    destruct (time_at h' a) as [x|] eqn:Ea; [|tauto].
    destruct (time_at h' b) as [y|] eqn:Eb; [|tauto].
    intros Hle. exists x, y.
    rewrite <- !St, <- !time_at_start_at. auto.
Qed.

(** X22. A resolved collision whose resolution names a [sourceIndex]
    keeps the last contributor of the array that the index stands for,
    and gives it the chosen value as its price.  The contributors behind
    it are removed from the result; everything in front of it stays, the
    other contributors of the same key included.  No object behind the
    kept one, and none outside the array, is written to. *)
Theorem resolved_collision_keeps_last_chosen (engine : Engine) (h : heap)
        (pre post : list loc) (l : loc) (c : Conflict)
        (targetKey : string) (targetRange : option string)
        (entries : list CollisionEntry) (res : Resolution) (sourceIndex : Z) :
  resolved c = true ->
  resolution c = Some res ->
  body c = Collision targetKey targetRange entries ->
  r_sourceIndex res = Some sourceIndex ->
  contributes h targetKey l = true ->
  picked h entries sourceIndex l = true ->
  Forall (fun l' => contributes h targetKey l'
                    && picked h entries sourceIndex l' = false) post ->
  (forall l' t, l' ∈ pre ++ l :: post -> target_at h l' = Some t ->
                start t <> InvalidDate) ->
  Permutation
    (snd (applyResolutions engine h (pre ++ l :: post) [c]))
    (List.filter (fun l' => bool_decide (is_Some (target_at h l')))
       (pre ++ l :: List.filter (fun l' => negb (contributes h targetKey l'))
                                post))
  /\ StronglySorted
       (fun a b => exists x y,
            start_at h a = Some x /\ start_at h b = Some y /\ x <= y)
       (snd (applyResolutions engine h (pre ++ l :: post) [c]))
  /\ (l ∉ pre ->
      forall m, h !! l = Some m ->
        fst (applyResolutions engine h (pre ++ l :: post) [c]) !! l
        = Some (with_price (Some (r_value res)) m))
  /\ (forall l', l' ∉ pre -> l' <> l ->
        fst (applyResolutions engine h (pre ++ l :: post) [c]) !! l'
        = h !! l').
Proof.
  intros Hr Hres Hb Hi Hc Hp Hn Hv.
  destruct (collision_loop_chosen targetKey entries res sourceIndex h
              pre post l Hi Hc Hp Hn) as (h' & E & F).
  destruct (applyResolutions_one_collision engine h h' _ _ _ c targetKey
              targetRange entries res Hr Hres Hb E Hv) as (Eh & P & S).
  split; [exact P|]. split; [exact S|]. rewrite Eh. split.
  - intros Hl m Hm. rewrite (F l Hl). apply write_price_there, Hm.
  - intros l' Hl' Hne. rewrite (F l' Hl').
    apply write_price_elsewhere, Hne.
Qed.

Lemma resolved_collision_keeps_last_chosen_witness :
  let h := [Examples.unanchored; Examples.weekA; Examples.weekB] in
  let c := Examples.collisionAB Examples.use_first in
  let result := applyResolutions Examples.idle_engine h [0; 1; 2]%nat [c] in
  contributes h "2027-09-06" 1%nat = true
  /\ contributes h "2027-09-06" 2%nat = true
  /\ Permutation (snd result) [1%nat]
  /\ fst result !! 1%nat
     = Some (with_price (Some (Str "$3,500")) Examples.weekA)
  /\ fst result !! 2%nat = Some Examples.weekB.
Proof.
  intros h c result.
  assert (Hc : contributes h "2027-09-06" 1%nat = true) by reflexivity.
  split; [exact Hc|]. split; [reflexivity|].
  assert (Hv : forall l' t, l' ∈ [0%nat] ++ 1%nat :: [2%nat] ->
                 target_at h l' = Some t -> start t <> InvalidDate).
  { intros l' t Hl Ht.
    assert (Hd : l' = 0%nat \/ l' = 1%nat \/ l' = 2%nat).
    { apply list_elem_of_In in Hl. simpl in Hl. intuition. }
    destruct Hd as [-> | [-> | ->]]; vm_compute in Ht; inversion Ht;
      discriminate. }
  destruct (resolved_collision_keeps_last_chosen Examples.idle_engine h
              [0%nat] [2%nat] 1%nat c "2027-09-06" (Some "Sep 6 - Sep 13")
              _ Examples.use_first 0
              eq_refl eq_refl eq_refl eq_refl Hc eq_refl
              ltac:(repeat constructor) Hv)
    as (P & _ & Hl & Ho).
  split; [exact P|]. split.
  - apply Hl; [|reflexivity]. intros Hin.
    apply list_elem_of_In in Hin. simpl in Hin. intuition discriminate.
  - apply (Ho 2%nat); [|discriminate]. intros Hin.
    apply list_elem_of_In in Hin. simpl in Hin. intuition discriminate.
Defined.

(** X23. A resolved collision whose [sourceIndex] stands for none of the
    contributors in the array removes them all: the result holds the
    mappings of the other target weeks only, and no object is written
    to. *)
Theorem resolved_collision_without_chosen (engine : Engine) (h : heap)
        (array : list loc) (c : Conflict)
        (targetKey : string) (targetRange : option string)
        (entries : list CollisionEntry) (res : Resolution) (sourceIndex : Z) :
  resolved c = true ->
  resolution c = Some res ->
  body c = Collision targetKey targetRange entries ->
  r_sourceIndex res = Some sourceIndex ->
  Forall (fun l => contributes h targetKey l
                   && picked h entries sourceIndex l = false) array ->
  (forall l t, l ∈ array -> target_at h l = Some t ->
               start t <> InvalidDate) ->
  fst (applyResolutions engine h array [c]) = h
  /\ Permutation
       (snd (applyResolutions engine h array [c]))
       (List.filter (fun l => bool_decide (is_Some (target_at h l)))
          (List.filter (fun l => negb (contributes h targetKey l)) array))
  /\ StronglySorted
       (fun a b => exists x y,
            start_at h a = Some x /\ start_at h b = Some y /\ x <= y)
       (snd (applyResolutions engine h array [c])).
Proof.
  intros Hr Hres Hb Hi Hn Hv.
  exact (applyResolutions_one_collision engine h h _ _ _ c targetKey
           targetRange entries res Hr Hres Hb
           (collision_loop_none targetKey entries res sourceIndex h array
              Hi Hn) Hv).
Qed.

Lemma resolved_collision_without_chosen_witness :
  let h := [Examples.weekA;
            Examples.mapping_to "2027-07-03" "Jun 27 - Jul 4" "$4,000";
            Examples.weekB] in
  let res := {| r_value := Str "$3,000"; r_customPrice := None;
                r_sourceIndex := Some 2; r_interpolatedPrice := None |} in
  let c := Examples.collisionAB res in
  let result := applyResolutions Examples.idle_engine h [0; 1; 2]%nat [c] in
  fst result = h /\ Permutation (snd result) [1%nat].
Proof.
  intros h res c result.
  assert (Hv : forall l t, l ∈ [0; 1; 2]%nat ->
                 target_at h l = Some t -> start t <> InvalidDate).
  { intros l t Hl Ht.
    assert (Hd : l = 0%nat \/ l = 1%nat \/ l = 2%nat).
    { apply list_elem_of_In in Hl. simpl in Hl. intuition. }
    destruct Hd as [-> | [-> | ->]]; vm_compute in Ht; inversion Ht;
      discriminate. }
  destruct (resolved_collision_without_chosen Examples.idle_engine h
              [0; 1; 2]%nat c "2027-09-06" (Some "Sep 6 - Sep 13")
              _ res 2 eq_refl eq_refl eq_refl eq_refl
              ltac:(repeat constructor) Hv)
    as (E & P & _).
  split; [exact E|exact P].
Defined.
